(** * document-agent: the markup engine of [src/document-agent.py]

    A shallow embedding of the five tools of the document agent
    (splitter, editor, the two converters, merger) and the properties
    of their specification.

    Conventions.
    - A Python [str] is a [string]; a character is a code point below 256.
    - A file system is a finite map from (absolute) paths to text; every
      access normalises its path with [abspath].  A tool threads the file
      system and a trace of the effects it performed.
    - A Python exception is a value of [exn]; a tool's [call] wrapper turns
      it into a [Failed] response, as the [try ... except Exception] of the
      source does. *)

From Stdlib Require Import Ascii String List Arith Lia Bool DecimalString DecimalNat.
From stdpp Require Import gmap strings.


(** ** Python's string built-ins *)

Module Py.

Definition LF : ascii := "010"%char.

(** [str.isspace] on one character, also the class [\s] of [re]. *)
Definition isspace (c : ascii) : bool :=
  match nat_of_ascii c with
  | 9 | 10 | 11 | 12 | 13 | 28 | 29 | 30 | 31 | 32 | 133 | 160 => true
  | _ => false
  end.

(** The class [\w] of [re] on a code point below 256. *)
Definition isword (c : ascii) : bool :=
  let n := nat_of_ascii c in
  ((48 <=? n) && (n <=? 57)) || ((65 <=? n) && (n <=? 90))
  || (n =? 95) || ((97 <=? n) && (n <=? 122))
  || (n =? 170) || (n =? 178) || (n =? 179) || (n =? 181)
  || (n =? 185) || (n =? 186) || (n =? 188) || (n =? 189) || (n =? 190)
  || ((192 <=? n) && (n <=? 214)) || ((216 <=? n) && (n <=? 246))
  || (248 <=? n).

(** [str.lower] on one character. *)
Definition lower_char (c : ascii) : ascii :=
  let n := nat_of_ascii c in
  if ((65 <=? n) && (n <=? 90)) || ((192 <=? n) && (n <=? 214))
     || ((216 <=? n) && (n <=? 222))
  then ascii_of_nat (n + 32) else c.

Fixpoint lower (s : string) : string :=
  match s with
  | "" => ""
  | String c t => String (lower_char c) (lower t)
  end.

(** [s.startswith(p)] *)
Fixpoint startswith (p s : string) : bool :=
  match p, s with
  | "", _ => true
  | String a p', String b s' => if Ascii.eqb a b then startswith p' s' else false
  | String _ _, "" => false
  end.

Fixpoint drop (n : nat) (s : string) : string :=
  match n, s with
  | 0, _ => s
  | S n', String _ t => drop n' t
  | S _, "" => ""
  end.

Fixpoint rev_acc (s acc : string) : string :=
  match s with
  | "" => acc
  | String c t => rev_acc t (String c acc)
  end.

Definition rev (s : string) : string := rev_acc s "".

(** [s.endswith(p)] *)
Definition endswith (p s : string) : bool :=
  startswith p (drop (String.length s - String.length p) s)
  && (String.length p <=? String.length s).

(** [s.partition(sub)] at the leftmost occurrence: the text before it and
    the text after it, [None] when [sub] does not occur. *)
Fixpoint find (sub s : string) : option (string * string) :=
  if startswith sub s then Some ("", drop (String.length sub) s)
  else match s with
       | "" => None
       | String c t =>
           match find sub t with
           | Some (b, a) => Some (String c b, a)
           | None => None
           end
       end.

(** [sub in s] *)
Definition contains (sub s : string) : bool :=
  match find sub s with Some _ => true | None => false end.

(** [s.count(sub)] for a non-empty [sub]: occurrences found left to
    right, each search resuming after the previous occurrence. *)
Fixpoint count_from (fuel : nat) (sub s : string) : nat :=
  match fuel with
  | 0 => 0
  | S fuel' =>
      match find sub s with
      | Some (_, a) => S (count_from fuel' sub a)
      | None => 0
      end
  end.

(** [s.count(sub)]; the empty string occurs [len(s) + 1] times. *)
Definition count (sub s : string) : nat :=
  match sub with
  | "" => S (String.length s)
  | _ => count_from (String.length s) sub s
  end.

Fixpoint replace_from (fuel : nat) (old new s : string) : string :=
  match fuel with
  | 0 => s
  | S fuel' =>
      match find old s with
      | Some (b, a) => b +:+ new +:+ replace_from fuel' old new a
      | None => s
      end
  end.

(** [s.replace("", new)]: [new] before every character and at the end. *)
Fixpoint interleave (new s : string) : string :=
  match s with
  | "" => new
  | String c t => new +:+ String c (interleave new t)
  end.

(** [s.replace(old, new)] *)
Definition replace (old new s : string) : string :=
  match old with
  | "" => interleave new s
  | _ => replace_from (String.length s) old new s
  end.

Fixpoint lstrip_by (f : ascii -> bool) (s : string) : string :=
  match s with
  | "" => ""
  | String c t => if f c then lstrip_by f t else s
  end.

Definition rstrip_by (f : ascii -> bool) (s : string) : string :=
  rev (lstrip_by f (rev s)).

(** [s.strip()] *)
Definition strip (s : string) : string :=
  rstrip_by isspace (lstrip_by isspace s).

(** [s.lstrip(c)] for a one-character argument. *)
Definition lstrip_char (c : ascii) (s : string) : string :=
  lstrip_by (Ascii.eqb c) s.

(** [s.split(c)] for a one-character separator. *)
Fixpoint split_char (c : ascii) (s : string) : list string :=
  match s with
  | "" => [""]
  | String a t =>
      if Ascii.eqb a c then "" :: split_char c t
      else match split_char c t with
           | x :: r => String a x :: r
           | [] => [String a ""]
           end
  end.

(** [sep.join(l)] *)
Fixpoint join (sep : string) (l : list string) : string :=
  match l with
  | [] => ""
  | [x] => x
  | x :: r => x +:+ sep +:+ join sep r
  end.

(** [''.join(l)], the text that [writelines] writes. *)
Fixpoint concat (l : list string) : string :=
  match l with
  | [] => ""
  | x :: r => x +:+ concat r
  end.

(** The lines of a text, each with its line feed ([readlines]). *)
Fixpoint readlines_acc (cur : string) (s : string) : list string :=
  match s with
  | "" => match cur with "" => [] | _ => [rev cur] end
  | String c t =>
      if Ascii.eqb c LF then rev (String c cur) :: readlines_acc "" t
      else readlines_acc (String c cur) t
  end.

Definition readlines (s : string) : list string := readlines_acc "" s.

(** [l[1:-1]] *)
Definition middle {A} (l : list A) : list A :=
  removelast (tail l).

(** [l.insert(i, x)] for [0 <= i]: past the end it appends. *)
Definition insert {A} (i : nat) (x : A) (l : list A) : list A :=
  firstn i l ++ x :: skipn i l.

(** [f"{n:02d}"] *)
Definition format_02d (n : nat) : string :=
  let d := NilEmpty.string_of_uint (Nat.to_uint n) in
  if String.length d <? 2 then "0" +:+ d else d.

(** The pattern [.*?] followed by the literal [close]: the shortest
    text without line feed that [close] follows, and the text after
    [close]. *)
Fixpoint lazy_until (close s : string) : option (string * string) :=
  if startswith close s
  then Some ("", drop (String.length close) s)
  else match s with
       | "" => None
       | String c t =>
           if Ascii.eqb c LF then None
           else match lazy_until close t with
                | Some (m, rest) => Some (String c m, rest)
                | None => None
                end
       end.

End Py.

(** ** POSIX path functions of [os.path] *)

Module Path.

Definition SEP : ascii := "/"%char.

(** The text after the last [c] of [s], and whether [s] has one. *)
Fixpoint after_last (c : ascii) (s : string) : string * bool :=
  match s with
  | "" => ("", false)
  | String a t =>
      let '(r, found) := after_last c t in
      if found then (r, true)
      else if Ascii.eqb a c then (t, true) else (String a r, false)
  end.

(** The text up to and including the last [c] of [s]; empty without one. *)
Fixpoint upto_last (c : ascii) (s : string) : string :=
  match s with
  | "" => ""
  | String a t =>
      match upto_last c t with
      | "" => if Ascii.eqb a c then String a "" else ""
      | r => String a r
      end
  end.

(** [os.path.basename] *)
Definition basename (p : string) : string := fst (after_last SEP p).

(** [os.path.dirname]: the head up to the last slash, without its
    trailing slashes unless it consists of slashes only. *)
Definition dirname (p : string) : string :=
  let head := upto_last SEP p in
  match Py.rstrip_by (Ascii.eqb SEP) head with
  | "" => head
  | h => h
  end.

(** [os.path.join(a, b)] *)
Definition join (a b : string) : string :=
  if Py.startswith "/" b then b
  else match a with
       | "" => b
       | _ => if Py.endswith "/" a then a +:+ b else a +:+ "/" +:+ b
       end.

(** [os.path.splitext(p)[0]] for a [p] without slash. *)
Definition splitext_root (p : string) : string :=
  let root := upto_last "."%char p in
  match Py.lstrip_char "."%char root with
  | "" => p
  | _ => Py.rev (Py.drop 1 (Py.rev root))
  end.

End Path.

(** ** Exceptions, responses, the file system *)

(** The exceptions the tools raise, one constructor per [raise] site or
    library failure, each carrying what its message interpolates. *)
Inductive exn : Type :=
| FileNotFoundError (path : string)
| MissingParameter (name : string)
| UnknownOperation (op_type : string)
| NotAList
| NotMarkdown (path : string)
| FileCreationFailed (path : string)
| ReError (pattern : string)
| UnicodeDecodeError (path : string)
| HeadingLevelError (level : nat)
| IndexError
| OSError (path : string)
| XmlError (text : string).

(** The error classes of the specification's taxonomy. *)
Inductive error_class : Type :=
  NotFound | InvalidArgument | IOFailure | ConversionFailure.

Definition class_of (e : exn) : error_class :=
  match e with
  | FileNotFoundError _ => NotFound
  | MissingParameter _ | UnknownOperation _ | NotAList | NotMarkdown _
  | ReError _ => InvalidArgument
  | FileCreationFailed _ | OSError _ => IOFailure
  | UnicodeDecodeError _ | HeadingLevelError _ | IndexError | XmlError _ =>
      ConversionFailure
  end.

(** What a tool returns: the fields of its success object, or
    [{'error': ..., 'status': 'failed'}]. *)
Inductive response (A : Type) : Type :=
| Success (r : A)
| Failed (e : exn).
Arguments Success {A} r.
Arguments Failed {A} e.

Definition is_failed {A} (r : response A) : bool :=
  match r with Failed _ => true | Success _ => false end.

(** A block of a binary document, as [python-docx] appends them. *)
Inductive block : Type :=
| Heading (text : string) (level : nat)
| Paragraph (runs : list string)
| TableBlock (header : list string) (rows : list (list string))
| Picture (path : string).

Definition document : Type := list block.

Inductive file : Type :=
| Text (content : string)
| Docx (doc : document).

Inductive event : Type :=
| EvRead (path : string)
| EvWrite (path : string)
| EvLog (file_path op_type target new_content : string) (line_number : option nat).

(** What the tools take from their environment: the working directory
    behind [os.path.abspath] and [os.getcwd], the [re] engine applied to
    the patterns a caller supplies ([None]: the pattern does not compile),
    whether a file's content is an image [python-docx] can embed, and
    whether [open(p, 'w')] succeeds at an absolute path: its directory
    is there, the file system takes its name, the file may be written. *)
Class Runtime : Type := {
  abspath : string -> string;
  getcwd : string;
  re_findall_count : string -> string -> option nat;
  re_sub : string -> string -> string -> option string;
  re_search : string -> string -> option bool;
  is_image : string -> bool;
  can_write : string -> bool
}.

Record world : Type := World {
  files : gmap string file;
  trace : list event
}.

(** State and exceptions: a computation runs in a world and either
    raises or returns, leaving the world it reached. *)
Definition M (A : Type) : Type := world -> (exn + A) * world.

Definition ret {A} (x : A) : M A := fun w => (inr x, w).

Definition raise {A} (e : exn) : M A := fun w => (inl e, w).

Definition bind {A B} (m : M A) (k : A -> M B) : M B :=
  fun w => match m w with
           | (inr x, w') => k x w'
           | (inl e, w') => (inl e, w')
           end.

Notation "'let*' x ':=' m 'in' k" := (bind m (fun x => k))
  (at level 10, x pattern, m at level 200, k at level 200).

(** A pure step that may raise. *)
Definition lift {A} (r : exn + A) : M A := fun w => (r, w).

(** [try: ... except Exception as e: return failed], the boundary of
    every tool. *)
Definition catch {A} (m : M A) : world -> response A * world :=
  fun w => match m w with
           | (inr x, w') => (Success x, w')
           | (inl e, w') => (Failed e, w')
           end.

Section FileSystem.
Context `{Runtime}.

(** [os.path.exists] *)
Definition path_exists (p : string) : M bool :=
  fun w => (inr (bool_decide (is_Some (files w !! abspath p))), w).

(** [open(p, 'r', encoding='utf-8')] and [f.read()] *)
Definition read_text (p : string) : M string :=
  fun w => match files w !! abspath p with
           | Some (Text s) =>
               (inr s, {| files := files w; trace := trace w ++ [EvRead (abspath p)] |})
           | Some (Docx _) => (inl (UnicodeDecodeError p), w)
           | None => (inl (FileNotFoundError p), w)
           end.

(** [open(p, 'w', encoding='utf-8')] and [f.write(s)]; an [open] that
    fails raises and leaves the file system as it is. *)
Definition write_text (p s : string) : M unit :=
  fun w => if can_write (abspath p)
           then (inr tt, {| files := <[abspath p := Text s]> (files w);
                            trace := trace w ++ [EvWrite (abspath p)] |})
           else (inl (OSError p), w).

(** [doc.save(p)]; the converters save into the working directory,
    which is taken to be writable. *)
Definition save_docx (p : string) (d : document) : M unit :=
  fun w => (inr tt, {| files := <[abspath p := Docx d]> (files w);
                       trace := trace w ++ [EvWrite (abspath p)] |}).

(** [log_edit_operation(...)], the external edit-history logger. *)
Definition log_edit_operation (file_path op_type target new_content : string)
    (line_number : option nat) : M unit :=
  fun w => (inr tt, {| files := files w;
                       trace := trace w ++ [EvLog file_path op_type target new_content line_number] |}).

End FileSystem.

(** ** Chapter splitter: [MarkdownSplitter] *)

Module Splitter.

(** The longest prefix of characters satisfying [f], and the rest. *)
Fixpoint span (f : ascii -> bool) (s : string) : string * string :=
  match s with
  | "" => ("", "")
  | String c t =>
      if f c then let '(a, b) := span f t in (String c a, b) else ("", s)
  end.

Definition not_lf (c : ascii) : bool := negb (Ascii.eqb c Py.LF).

(** [(.+)$] under [re.MULTILINE] at [q]: the rest of the line, which
    must not be empty, and the text from its line feed on. *)
Definition title_at (q : string) : option (string * string) :=
  match span not_lf q with
  | ("", _) => None
  | (title, rest) => Some (title, rest)
  end.

(** [\s+] is greedy and gives back one character at a time: [j] is
    the number of white-space characters it keeps, at least one. *)
Fixpoint backtrack (j : nat) (ws r : string) : option (string * string) :=
  match j with
  | 0 => None
  | S j' =>
      match title_at (Py.drop j ws +:+ r) with
      | Some m => Some m
      | None => backtrack j' ws r
      end
  end.

(** A match of [^#\s+(.+)$] at a position where [^] holds: the group
    and the text after the match. *)
Definition match_h1 (s : string) : option (string * string) :=
  match s with
  | String c t =>
      if Ascii.eqb c "#" then
        let '(ws, r) := span Py.isspace t in
        backtrack (String.length ws) ws r
      else None
  | "" => None
  end.

(** [re.split(r'^#\s+(.+)$', content, flags=re.MULTILINE)]: [bol] says
    whether [^] holds here, [cur] is the text since the last match,
    reversed. *)
Fixpoint re_split_from (fuel : nat) (bol : bool) (cur s : string) : list string :=
  match fuel with
  | 0 => [Py.rev_acc cur s]
  | S fuel' =>
      match (if bol then match_h1 s else None) with
      | Some (title, rest) =>
          Py.rev cur :: title :: re_split_from fuel' false "" rest
      | None =>
          match s with
          | "" => [Py.rev cur]
          | String c t =>
              re_split_from fuel' (Ascii.eqb c Py.LF) (String c cur) t
          end
      end
  end.

Definition re_split_h1 (content : string) : list string :=
  re_split_from (S (String.length content)) true "" content.

(** [re.sub(r'[^\w\-_\. ]', '_', title)] *)
Definition safe_char (c : ascii) : ascii :=
  if Py.isword c || Ascii.eqb c "-" || Ascii.eqb c "_" || Ascii.eqb c "."
     || Ascii.eqb c " "
  then c else "_"%char.

Fixpoint safe_title (title : string) : string :=
  match title with
  | "" => ""
  | String c t => String (safe_char c) (safe_title t)
  end.

Record split_result : Type := {
  split_files : list string;
  chapters_reported : nat
}.

Section Tool.
Context `{Runtime}.

(** One turn of the loop: write the chapter of [sections[i]] and
    [sections[i+1]], check that it is there, give its path. *)
Definition write_chapter (md_path : string) (i : nat) (section_title content : string)
    : M string :=
  let title := Py.strip section_title in
  let filename :=
    Py.format_02d (i / 2 + 1) +:+ "-" +:+ safe_title title +:+ ".md" in
  let output_path := Path.join (Path.dirname md_path) filename in
  let* _ := write_text output_path
              ("# " +:+ title +:+ String Py.LF (String Py.LF content)) in
  let* present := path_exists output_path in
  if negb present then raise (FileCreationFailed output_path)
  else ret output_path.

(** The loop [for i in range(1, len(sections), 2)], on the sections
    from index [i] on; a missing [sections[i+1]] reads as empty. *)
Fixpoint write_chapters (md_path : string) (i : nat) (sections : list string)
    (output_files : list string) : M (list string) :=
  match sections with
  | [] => ret output_files
  | [t] =>
      let* p := write_chapter md_path i t "" in
      ret (output_files ++ [p])
  | t :: c :: rest =>
      let* p := write_chapter md_path i t c in
      write_chapters md_path (i + 2) rest (output_files ++ [p])
  end.

Definition split_markdown_body (md_path : string) : M split_result :=
  let* present := path_exists md_path in
  if negb present then raise (FileNotFoundError md_path) else
  let* content := read_text md_path in
  let sections := re_split_h1 content in
  let* output_files := write_chapters md_path 1 (tail sections) [] in
  ret {| split_files := output_files;
         chapters_reported := length sections / 2 |}.

(** [_split_markdown] *)
Definition split_markdown (md_path : string) : world -> response split_result * world :=
  catch (split_markdown_body md_path).

(** [call]: [file_path] is [None] when the request lacks the key. *)
Definition call (file_path : option string) : world -> response split_result * world :=
  match file_path with
  | None => catch (raise (MissingParameter "file_path"))
  | Some p => split_markdown p
  end.

End Tool.

(** The specification's reading of the input: a top-level heading is
    a line made of [#], one space and a non-empty title. *)
Definition is_top_level_heading (line : string) : bool :=
  match line with
  | String "#" (String " " (String c _)) => negb (Ascii.eqb c Py.LF)
  | _ => false
  end.

Definition top_level_headings (content : string) : nat :=
  length (filter (fun l => is_top_level_heading l) (Py.readlines content)).

End Splitter.

(** ** Structured editor: [MarkdownEditor] *)

Module Editor.

(** [op.get('options', {})] with its two optional flags. *)
Record options : Type := {
  is_regex : option bool;
  preserve_format : option bool
}.

Definition no_options : options :=
  {| is_regex := None; preserve_format := None |}.

(** One entry of [operations]; [position] is [None] without the key. *)
Record operation : Type := {
  op_type : string;
  target : string;
  content : string;
  position : option string;
  op_options : options
}.

(** The per-operation record; an absent key and a key holding
    Python's [None] both read as [None]. *)
Record detail : Type := {
  d_type : string;
  d_target : string;
  d_content : string;
  d_position : option string;
  d_old_content : option string;
  d_modified_count : option nat;
  d_line_number : option nat
}.

Record edit_result : Type := {
  edited_path : string;
  modified : bool;
  modified_positions : nat;
  details : list detail
}.

Definition NL : string := String Py.LF "".

(** One alternative [delim.*?delim] at the head of [s]: the match
    and the text after it. *)
Definition span_marker (delim s : string) : option (string * string) :=
  if Py.startswith delim s then
    match Py.lazy_until delim (Py.drop (String.length delim) s) with
    | Some (inner, rest) => Some (delim +:+ inner +:+ delim, rest)
    | None => None
    end
  else None.

(** A match of the marker pattern, bold, then italic, then code, at
    the head of [s]. *)
Definition match_marker (s : string) : option (string * string) :=
  match span_marker "**" s with
  | Some m => Some m
  | None =>
      match span_marker "_" s with
      | Some m => Some m
      | None => span_marker "`" s
      end
  end.

Fixpoint md_elements_from (fuel : nat) (s : string) : list string :=
  match fuel with
  | 0 => []
  | S fuel' =>
      match match_marker s with
      | Some (m, rest) => m :: md_elements_from fuel' rest
      | None =>
          match s with
          | "" => []
          | String _ t => md_elements_from fuel' t
          end
      end
  end.

(** [re.findall(r'(\*\*.*?\*\*|_.*?_|`.*?`)', line)] *)
Definition md_elements (line : string) : list string :=
  md_elements_from (String.length line) line.

(** The loop over [md_elements] of the rewrite operation. *)
Fixpoint keep_markers (elems : list string) (new_line : string) : string :=
  match elems with
  | [] => new_line
  | elem :: rest =>
      keep_markers rest
        (if Py.contains elem new_line then Py.replace elem elem new_line
         else new_line)
  end.

(** [enumerate(new_content)] scanned for the last line containing
    [needle]: its number, counted from 1. *)
Fixpoint last_line_with (needle : string) (i : nat) (lines : list string)
    (found : option nat) : option nat :=
  match lines with
  | [] => found
  | line :: rest =>
      last_line_with needle (S i) rest
        (if Py.contains needle line then Some (i + 1) else found)
  end.

(** The sum over [operation_details] that the result reports. *)
Definition counted (d : detail) : nat :=
  if String.eqb (d_type d) "replace" then
    match d_old_content d with
    | Some _ => default 0 (d_modified_count d)
    | None => 0
    end
  else 0.

Definition sum_modified (ds : list detail) : nat :=
  foldr (fun d n => counted d + n) 0 ds.

Section Tool.
Context `{Runtime}.

(** The loop of [_replace_content]. *)
Fixpoint replace_loop (regex : bool) (tgt new_content : string)
    (lines new_lines : list string) (modified_count : nat)
    (old_content : option string)
    : exn + (list string * nat * option string) :=
  match lines with
  | [] => inr (new_lines, modified_count, old_content)
  | line :: rest =>
      if regex then
        match re_findall_count tgt line with
        | None => inl (ReError tgt)
        | Some 0 =>
            replace_loop regex tgt new_content rest (new_lines ++ [line])
              modified_count old_content
        | Some matches =>
            match re_sub tgt new_content line with
            | None => inl (ReError tgt)
            | Some line' =>
                replace_loop regex tgt new_content rest (new_lines ++ [line'])
                  (modified_count + matches) (Some line)
            end
        end
      else if Py.contains tgt line then
        replace_loop regex tgt new_content rest
          (new_lines ++ [Py.replace tgt new_content line])
          (modified_count + Py.count tgt line) (Some line)
      else
        replace_loop regex tgt new_content rest (new_lines ++ [line])
          modified_count old_content
  end.

(** [_replace_content] *)
Definition replace_content (lines : list string) (tgt new_content : string)
    (opts : options) : exn + (list string * nat * option string) :=
  replace_loop (default false (is_regex opts)) tgt new_content lines [] 0 None.

(** The loop of [_insert_content]; [i] is the index of [enumerate]. *)
Fixpoint insert_loop (regex : bool) (tgt cont pos : string) (i : nat)
    (lines new_lines : list string) (changed : bool)
    : exn + (list string * bool) :=
  match lines with
  | [] => inr (new_lines, changed)
  | line :: rest =>
      let new_lines := new_lines ++ [line] in
      match (if regex then re_search tgt line
             else Some (Py.contains tgt line)) with
      | None => inl (ReError tgt)
      | Some true =>
          let new_lines :=
            if String.eqb pos "before"
            then Py.insert i (cont +:+ NL) new_lines
            else Py.insert (i + 1) (cont +:+ NL) new_lines in
          insert_loop regex tgt cont pos (S i) rest new_lines true
      | Some false =>
          insert_loop regex tgt cont pos (S i) rest new_lines changed
      end
  end.

(** [_insert_content] *)
Definition insert_content (lines : list string) (tgt cont pos : string)
    (opts : options) : exn + (list string * bool) :=
  insert_loop (default false (is_regex opts)) tgt cont pos 0 lines [] false.

(** The loop of [_rewrite_content]. *)
Fixpoint rewrite_loop (preserve : bool) (tgt new_content : string)
    (lines new_lines : list string) (changed : bool)
    (old_content : option string) : list string * bool * option string :=
  match lines with
  | [] => (new_lines, changed, old_content)
  | line :: rest =>
      if Py.contains tgt line && preserve then
        let new_line := keep_markers (md_elements line) new_content in
        rewrite_loop preserve tgt new_content rest
          (new_lines ++ [Py.replace tgt new_line line]) true (Some line)
      else if Py.contains tgt line then
        rewrite_loop preserve tgt new_content rest
          (new_lines ++ [new_content]) true (Some line)
      else
        rewrite_loop preserve tgt new_content rest
          (new_lines ++ [line]) changed old_content
  end.

(** [_rewrite_content] *)
Definition rewrite_content (lines : list string) (tgt new_content : string)
    (opts : options) : list string * bool * option string :=
  rewrite_loop (default true (preserve_format opts)) tgt new_content
    lines [] false None.

End Tool.

(** The operation types the editor knows. *)
Definition known_type (t : string) : bool :=
  String.eqb t "replace" || String.eqb t "insert" || String.eqb t "rewrite".

Section Batch.
Context `{Runtime}.

(** One turn of the loop over [operations]: the buffer after the
    operation, whether it changed, and its record. *)
Definition apply_operation (file_path : string) (op : operation)
    (new_content : list string) : M (list string * bool * detail) :=
  let pos := default "after" (position op) in
  let d0 := {| d_type := op_type op; d_target := target op;
               d_content := content op;
               d_position :=
                 if String.eqb (op_type op) "insert" then Some pos else None;
               d_old_content := None; d_modified_count := None;
               d_line_number := None |} in
  let* (new_content, changed, d) :=
    if String.eqb (op_type op) "replace" then
      let* (new_content, modified_count, old_content) :=
        lift (replace_content new_content (target op) (content op)
                (op_options op)) in
      ret (new_content, 0 <? modified_count,
           {| d_type := d_type d0; d_target := d_target d0;
              d_content := d_content d0; d_position := d_position d0;
              d_old_content :=
                if 0 <? modified_count then old_content else None;
              d_modified_count := Some modified_count;
              d_line_number := None |})
    else if String.eqb (op_type op) "insert" then
      let* (new_content, changed) :=
        lift (insert_content new_content (target op) (content op) pos
                (op_options op)) in
      ret (new_content, changed, d0)
    else if String.eqb (op_type op) "rewrite" then
      let '(new_content, changed, old_content) :=
        rewrite_content new_content (target op) (content op)
          (op_options op) in
      ret (new_content, changed,
           {| d_type := d_type d0; d_target := d_target d0;
              d_content := d_content d0; d_position := d_position d0;
              d_old_content := if changed then old_content else None;
              d_modified_count := None; d_line_number := None |})
    else raise (UnknownOperation (op_type op)) in
  if changed then
    let line_number :=
      if String.eqb (op_type op) "replace"
      then last_line_with (target op) 0 new_content None
      else if String.eqb (op_type op) "insert"
      then last_line_with (content op) 0 new_content None
      else None in
    let* _ := log_edit_operation file_path (op_type op) (target op)
                (content op) line_number in
    ret (new_content, changed,
         {| d_type := d_type d; d_target := d_target d;
            d_content := d_content d; d_position := d_position d;
            d_old_content := d_old_content d;
            d_modified_count := d_modified_count d;
            d_line_number := line_number |})
  else ret (new_content, changed, d).

(** The loop [for op in operations]. *)
Fixpoint operations_loop (file_path : string) (operations : list operation)
    (new_content : list string) (modified : bool)
    (operation_details : list detail)
    : M (list string * bool * list detail) :=
  match operations with
  | [] => ret (new_content, modified, operation_details)
  | op :: rest =>
      let* (new_content, changed, d) :=
        apply_operation file_path op new_content in
      operations_loop file_path rest new_content (modified || changed)
        (operation_details ++ [d])
  end.

Definition process_operations_body (file_path : string)
    (operations : list operation) : M edit_result :=
  let* present := path_exists file_path in
  if negb present then raise (FileNotFoundError file_path) else
  let* text := read_text file_path in
  let lines := Py.readlines text in
  let* (new_content, modified, operation_details) :=
    operations_loop file_path operations lines false [] in
  let* _ := if modified
            then write_text file_path (Py.concat new_content)
            else ret tt in
  ret {| edited_path := file_path;
         modified := modified;
         modified_positions := sum_modified operation_details;
         details := operation_details |}.

(** [_process_operations] *)
Definition process_operations (file_path : string)
    (operations : list operation) : world -> response edit_result * world :=
  catch (process_operations_body file_path operations).

(** [call]: an argument is [None] when the request lacks its key. *)
Definition call (file_path : option string)
    (operations : option (list operation))
    : world -> response edit_result * world :=
  match file_path, operations with
  | None, _ => catch (raise (MissingParameter "file_path"))
  | Some _, None => catch (raise (MissingParameter "operations"))
  | Some p, Some ops => process_operations p ops
  end.

End Batch.

End Editor.

(** ** Markup to document converter: [MarkdownToWordTool] *)

Module Converter.

(** The locals of the loop of [_markdown_to_word]; [current_para]
    refers to a paragraph of [doc] by its index. *)
Record state : Type := {
  doc : document;
  current_para : option nat;
  in_table : bool;
  table_rows : list (list string)
}.

Definition initial : state :=
  {| doc := []; current_para := None; in_table := false; table_rows := [] |}.

(** [line.startswith('|') and line.endswith('|')] *)
Definition is_table_row (line : string) : bool :=
  Py.startswith "|" line && Py.endswith "|" line.

(** [[cell.strip() for cell in line.split('|')[1:-1]]] *)
Definition row_cells (line : string) : list string :=
  map Py.strip (Py.middle (Py.split_char "|" line)).

(** The cells of a row of [cols] columns after the cells of [row]
    have been set. *)
Definition fill_row (cols : nat) (row : list string) : list string :=
  row ++ repeat "" (cols - length row).

(** A character that a text of the document format can hold: no
    control character but tab, line feed and carriage return. *)
Definition xml_char (c : ascii) : bool :=
  let n := nat_of_ascii c in
  (32 <=? n) || (n =? 9) || (n =? 10) || (n =? 13).

(** A text that [python-docx] takes; on any other it raises. *)
Fixpoint xml_compatible (s : string) : bool :=
  match s with
  | "" => true
  | String c t => xml_char c && xml_compatible t
  end.

(** [for i, cell in enumerate(row): cells[i].text = cell] on a row of
    [cols] cells, from index [i] on: the first exception, if any. A cell
    past the last column has no cell to go to. *)
Fixpoint set_cells (cols i : nat) (row : list string) : option exn :=
  match row with
  | [] => None
  | cell :: rest =>
      if cols <=? i then Some IndexError
      else if xml_compatible cell then set_cells cols (S i) rest
      else Some (XmlError cell)
  end.

(** The loop over the rows of the body: the first exception, if any. *)
Fixpoint set_rows (cols : nat) (rows : list (list string)) : option exn :=
  match rows with
  | [] => None
  | row :: rest =>
      match set_cells cols 0 row with
      | Some e => Some e
      | None => set_rows cols rest
      end
  end.

(** The end of a table: with more than one buffered row, a table of
    the first row and of the rows from index 2 on. *)
Definition flush_table (rows : list (list string)) (d : document) : exn + document :=
  match rows with
  | header :: _ :: body =>
      match set_cells (length header) 0 header with
      | Some e => inl e
      | None =>
          match set_rows (length header) body with
          | Some e => inl e
          | None =>
              inr (d ++ [TableBlock header (map (fill_row (length header)) body)])
          end
      end
  | _ => inr d
  end.

(** [doc.add_heading(text, level=level)] *)
Definition add_heading (text : string) (level : nat) (d : document) : exn + document :=
  if level <=? 9 then
    if xml_compatible text then inr (d ++ [Heading text level])
    else inl (XmlError text)
  else inl (HeadingLevelError level).

(** [current_para.add_run(text)] *)
Definition add_run (i : nat) (text : string) (d : document) : document :=
  alter (fun b => match b with
                  | Paragraph runs => Paragraph (runs ++ [text])
                  | _ => b
                  end) i d.

(** Group 1 of [re.match(r'!\[.*?\]\((.*?)\)', line)] *)
Definition image_target (line : string) : option string :=
  if Py.startswith "![" line then
    match Py.lazy_until "](" (Py.drop 2 line) with
    | Some (_, rest) =>
        match Py.lazy_until ")" rest with
        | Some (target, _) => Some target
        | None => None
        end
    | None => None
    end
  else None.

(** The level the converter gives a heading line. *)
Definition heading_level (line : string) : nat := Py.count "#" line.

(** The number of [#] characters a line starts with. *)
Fixpoint leading_hashes (line : string) : nat :=
  match line with
  | String c t => if Ascii.eqb "#" c then S (leading_hashes t) else 0
  | "" => 0
  end.

(** The number of [#] characters of a text. *)
Fixpoint hashes (s : string) : nat :=
  match s with
  | String c t => (if Ascii.eqb "#" c then 1 else 0) + hashes t
  | "" => 0
  end.

Record convert_result : Type := { word_path : string }.

Section Tool.
Context `{Runtime}.

(** [doc.add_picture(image_path)] inside [try ... except: pass]:
    [python-docx] appends a paragraph with an empty run and then loads
    the image into the run; when the file is no image the paragraph
    stays as it is. *)
Definition try_add_picture (image_path : string) (d : document) : M document :=
  fun w => match files w !! abspath image_path with
           | Some (Text bytes) =>
               if is_image bytes
               then (inr (d ++ [Picture image_path]),
                     {| files := files w;
                        trace := trace w ++ [EvRead (abspath image_path)] |})
               else (inr (d ++ [Paragraph [""]]), w)
           | _ => (inr (d ++ [Paragraph [""]]), w)
           end.

(** The body of [for line in lines]. *)
Definition step (md_path : string) (st : state) (raw : string) : M state :=
  let line := Py.strip raw in
  if is_table_row line then
    ret {| doc := doc st; current_para := current_para st;
           in_table := true;
           table_rows :=
             (if in_table st then table_rows st else []) ++ [row_cells line] |}
  else
    let* d := if in_table st then lift (flush_table (table_rows st) (doc st))
              else ret (doc st) in
    if Py.startswith "#" line then
      let* d := lift (add_heading (Py.strip (Py.lstrip_char "#" line))
                        (heading_level line) d) in
      ret {| doc := d; current_para := current_para st;
             in_table := false; table_rows := table_rows st |}
    else if Py.startswith "![" line then
      let* d := match image_target line with
                | Some target =>
                    try_add_picture (Path.join (Path.dirname md_path) target) d
                | None => ret d
                end in
      ret {| doc := d; current_para := current_para st;
             in_table := false; table_rows := table_rows st |}
    else if negb (String.eqb line "") then
      if xml_compatible line then
        match current_para st with
        | None =>
            ret {| doc := d ++ [Paragraph [line]];
                   current_para := Some (length d);
                   in_table := false; table_rows := table_rows st |}
        | Some i =>
            ret {| doc := add_run i (String Py.LF line) d;
                   current_para := Some i;
                   in_table := false; table_rows := table_rows st |}
        end
      else raise (XmlError line)
    else
      ret {| doc := d; current_para := None;
             in_table := false; table_rows := table_rows st |}.

Fixpoint convert_lines (md_path : string) (lines : list string) (st : state) : M state :=
  match lines with
  | [] => ret st
  | raw :: rest =>
      let* st := step md_path st raw in
      convert_lines md_path rest st
  end.

(** [_markdown_to_word] *)
Definition markdown_to_word (md_path output_dir : string) : M convert_result :=
  let* text := read_text md_path in
  let* st := convert_lines md_path (Py.readlines text) initial in
  let base_name := Path.splitext_root (Path.basename md_path) in
  let docx_path := Path.join getcwd (base_name +:+ ".docx") in
  let* _ := save_docx docx_path (doc st) in
  ret {| word_path := docx_path |}.

(** [call]; a missing [output_dir] reads as the working directory. *)
Definition call (file_path output_dir : option string)
    : world -> response convert_result * world :=
  match file_path with
  | None => catch (raise (MissingParameter "file_path"))
  | Some p => catch (markdown_to_word p (default getcwd output_dir))
  end.

End Tool.

End Converter.

(** ** Chapter merger: [ChapterMarkdownMerger] *)

Module Merger.

(** The value of [file_paths] in the request. *)
Inductive paths_arg : Type :=
| PathList (paths : list string)
| NotList.

Record merge_result : Type := {
  merged_path : string;
  merged_count : nat;
  merged_files : list string
}.

Definition RULE : string :=
  String Py.LF (String Py.LF ("---" +:+ String Py.LF (String Py.LF ""))).

(** [abs_path.lower().endswith('.md')] *)
Definition has_md_extension (abs_path : string) : bool :=
  Py.endswith ".md" (Py.lower abs_path).

Section Tool.
Context `{Runtime}.

(** The validation loop [for path in md_paths]. *)
Fixpoint validate_paths (md_paths valid_paths : list string) : M (list string) :=
  match md_paths with
  | [] => ret valid_paths
  | path :: rest =>
      let abs_path := abspath path in
      let* present := path_exists abs_path in
      if negb present then raise (FileNotFoundError abs_path)
      else if negb (has_md_extension abs_path) then raise (NotMarkdown abs_path)
      else validate_paths rest (valid_paths ++ [abs_path])
  end.

(** The loop [for i, path in enumerate(valid_paths)]. *)
Fixpoint merge_loop (i : nat) (valid_paths : list string) (merged_content : string)
    : M string :=
  match valid_paths with
  | [] => ret merged_content
  | path :: rest =>
      let* text := read_text path in
      let content := Py.strip text in
      let merged_content :=
        if 0 <? i then merged_content +:+ RULE else merged_content in
      merge_loop (S i) rest (merged_content +:+ content)
  end.

(** [_merge_chapters] *)
Definition merge_chapters (md_paths : paths_arg) (output_path : string)
    : M merge_result :=
  match md_paths with
  | NotList => raise NotAList
  | PathList md_paths =>
      let* valid_paths := validate_paths md_paths [] in
      let* merged_content := merge_loop 0 valid_paths "" in
      let* _ := write_text output_path merged_content in
      ret {| merged_path := abspath output_path;
             merged_count := length valid_paths;
             merged_files := map Path.basename valid_paths |}
  end.

(** [call]; a missing [output_path] reads as [merged.md]. *)
Definition call (file_paths : option paths_arg) (output_path : option string)
    : world -> response merge_result * world :=
  match file_paths with
  | None => catch (raise (MissingParameter "file_paths"))
  | Some md_paths =>
      catch (merge_chapters md_paths (default "merged.md" output_path))
  end.

End Tool.

End Merger.

(** ** A concrete environment and the specification's readings *)

(** An environment for the closed examples, whose paths are all
    absolute and whose patterns stand for themselves: a machine with the
    directories [/book] and [/work], the second of them the working
    directory, that takes file names of 1 to 255 characters. *)
Definition posix_runtime : Runtime := {|
  abspath := fun p => p;
  getcwd := "/work";
  re_findall_count := fun pattern line => Some (Py.count pattern line);
  re_sub := fun pattern repl line => Some (Py.replace pattern repl line);
  re_search := fun pattern line => Some (Py.contains pattern line);
  is_image := fun _ => false;
  can_write := fun p =>
    (String.eqb (Path.dirname p) "/book" || String.eqb (Path.dirname p) "/work")
    && negb (String.eqb (Path.basename p) "")
    && (String.length (Path.basename p) <=? 255)
|}.

Definition empty_world : world := {| files := ∅; trace := [] |}.

(** A world holding one text file. *)
Definition one_file (path content : string) : world :=
  {| files := {[ path := Text content ]}; trace := [] |}.

(** A line of text with its line feed. *)
Definition ln (s : string) : string := s +:+ String Py.LF "".

Module Spec.

(** Insert-after as the specification words it: every matching line
    is followed at once by its own new line. *)
Definition insert_after (tgt cont : string) (lines : list string) : list string :=
  flat_map (fun line => if Py.contains tgt line
                        then [line; cont +:+ Editor.NL] else [line]) lines.

Section Readings.
Context `{Runtime}.

(** The sum of the match counts of the replace operations of a
    batch run on [buffer]; the other operations only pass the
    buffer on. *)
Fixpoint replace_total (ops : list Editor.operation) (buffer : list string) : nat :=
  match ops with
  | [] => 0
  | op :: rest =>
      if String.eqb (Editor.op_type op) "replace" then
        match Editor.replace_content buffer (Editor.target op)
                (Editor.content op) (Editor.op_options op) with
        | inr (buffer', n, _) => n + replace_total rest buffer'
        | inl _ => 0
        end
      else if String.eqb (Editor.op_type op) "insert" then
        match Editor.insert_content buffer (Editor.target op)
                (Editor.content op)
                (default "after" (Editor.position op))
                (Editor.op_options op) with
        | inr (buffer', _) => replace_total rest buffer'
        | inl _ => 0
        end
      else if String.eqb (Editor.op_type op) "rewrite" then
        replace_total rest
          (fst (fst (Editor.rewrite_content buffer (Editor.target op)
                       (Editor.content op) (Editor.op_options op))))
      else 0
  end.

(** The document [doc.save] writes for the lines of a markup file,
    or the exception the conversion stops with. *)
Definition final_document (md_path : string) (lines : list string) (w : world)
    : exn + document :=
  match Converter.convert_lines md_path lines Converter.initial w with
  | (inr st, _) => inr (Converter.doc st)
  | (inl e, _) => inl e
  end.

End Readings.

End Spec.

(** Documents as the splitter is meant to see them: lines, each ended
    by a line feed; a preamble, then chapters made of a heading line and
    body lines. *)
Module Layout.

Fixpoint all_chars (f : ascii -> bool) (s : string) : bool :=
  match s with
  | "" => true
  | String c t => f c && all_chars f t
  end.

(** A line that is no heading: it has no line feed inside, and it does
    not start with [#] followed by white space or by the end of the
    line. *)
Definition plain_line (l : string) : bool :=
  all_chars Splitter.not_lf l
  && match l with
     | String c t =>
         if Ascii.eqb c "#" then
           match t with
           | "" => false
           | String c' _ => negb (Py.isspace c')
           end
         else true
     | "" => true
     end.

(** A chapter: its heading line is [#], then [space], then [title]. *)
Record chapter : Type := {
  space : string;
  title : string;
  body : list string
}.

(** The heading has white space within the line after [#] and a title
    that starts with a character that is no white space; the body is
    made of plain lines. *)
Definition well_formed (c : chapter) : bool :=
  match space c with "" => false | _ => true end
  && all_chars (fun a => Py.isspace a && Splitter.not_lf a) (space c)
  && match title c with "" => false | String a _ => negb (Py.isspace a) end
  && all_chars Splitter.not_lf (title c)
  && forallb plain_line (body c).

Definition lines_text (ls : list string) : string := Py.concat (map ln ls).

Definition chapter_text (c : chapter) : string :=
  String "#" (space c +:+ ln (title c) +:+ lines_text (body c)).

Definition document (preamble : list string) (chapters : list chapter) : string :=
  lines_text preamble +:+ Py.concat (map chapter_text chapters).

(** The sections [re.split] is meant to give for the chapters. *)
Definition sections_of (chapters : list chapter) : list string :=
  flat_map (fun c => [title c; String Py.LF (lines_text (body c))]) chapters.

(** The files of the chapters, the first of them numbered [n + 1]:
    their paths and contents. *)
Fixpoint chapter_files (md_path : string) (n : nat) (chapters : list chapter)
    : list (string * string) :=
  match chapters with
  | [] => []
  | c :: rest =>
      (Path.join (Path.dirname md_path)
         (Py.format_02d (n + 1) +:+ "-"
          +:+ Splitter.safe_title (Py.strip (title c)) +:+ ".md"),
       "# " +:+ Py.strip (title c)
       +:+ String Py.LF (String Py.LF (String Py.LF (lines_text (body c)))))
      :: chapter_files md_path (S n) rest
  end.

(** A world after the text files [fs] have been written, in order. *)
Fixpoint written `{Runtime} (fs : list (string * string)) (w : world) : world :=
  match fs with
  | [] => w
  | (p, c) :: rest =>
      written rest {| files := <[abspath p := Text c]> (files w);
                      trace := trace w ++ [EvWrite (abspath p)] |}
  end.

End Layout.

(** The conditions on an operation that finds nothing in a buffer: a
    known type, a literal target, and no line with the target. *)
Definition finds_nothing (buffer : list string) (op : Editor.operation) : Prop :=
  Editor.known_type (Editor.op_type op) = true
  /\ default false (Editor.is_regex (Editor.op_options op)) = false
  /\ Forall (fun l => Py.contains (Editor.target op) l = false) buffer.

(** ** Document to markup converter: the table part of [WordToMarkdownTool] *)

Module ToMarkdown.

(** A table of a binary document as the converter reads it: its rows,
    each the texts of its cells. *)
Definition table : Type := list (list string).

(** ["| " + " | ".join(texts) + " |\n"] *)
Definition row_line (texts : list string) : string :=
  "| " +:+ Py.join " | " texts +:+ " |" +:+ String Py.LF "".

(** [_convert_table_to_markdown]; [table.rows[0]] raises on a table
    without rows. *)
Definition convert_table_to_markdown (t : table) : exn + string :=
  match t with
  | [] => inl IndexError
  | first :: rest =>
      let header := row_line first in
      let separator := row_line (repeat "---" (length first)) in
      let body := Py.concat (map row_line rest) in
      inr (header +:+ separator +:+ body +:+ String Py.LF "")
  end.

(** What [_word_to_markdown] adds to the markup for a table block:
    [self._convert_table_to_markdown(block) + "\n\n"]. *)
Definition table_markup (t : table) : exn + string :=
  match convert_table_to_markdown t with
  | inr s => inr (s +:+ String Py.LF (String Py.LF ""))
  | inl e => inl e
  end.

End ToMarkdown.

(** Kinds of lines of a markup file, as the converter tells them
    apart after stripping. *)
Module Markup.

(** A cell text that a table row of the markup can carry: no pipe, no
    line feed, no white space around it; and, as every text read from a
    document, it holds only characters the document format takes. *)
Definition clean_cell (c : string) : bool :=
  String.eqb (Py.strip c) c
  && Layout.all_chars (fun a => negb (Ascii.eqb a "|") && Splitter.not_lf a) c
  && Converter.xml_compatible c.

(** The cells of a raw table line. *)
Definition cells (raw : string) : list string :=
  Converter.row_cells (Py.strip raw).

Definition table_line (raw : string) : bool :=
  Converter.is_table_row (Py.strip raw).

(** A heading line whose level and text the document format
    accepts. *)
Definition heading_line (raw : string) : bool :=
  Py.startswith "#" (Py.strip raw)
  && (Converter.heading_level (Py.strip raw) <=? 9)
  && Converter.xml_compatible (Py.strip (Py.lstrip_char "#" (Py.strip raw))).

(** A line of paragraph text: not blank, no table row, no heading, no
    image reference, and made of characters the document format takes. *)
Definition text_line (raw : string) : bool :=
  negb (Converter.is_table_row (Py.strip raw))
  && negb (Py.startswith "#" (Py.strip raw))
  && negb (Py.startswith "![" (Py.strip raw))
  && negb (String.eqb (Py.strip raw) "")
  && Converter.xml_compatible (Py.strip raw).

(** The text of a table row with the cells [cells], without its line
    feed. *)
Definition row_text (cells : list string) : string :=
  String "|" (Py.concat (map (fun c => " " +:+ c +:+ " |") cells)).

Definition blank_line (raw : string) : bool :=
  String.eqb (Py.strip raw) "".

(** The runs of a paragraph made of the raw lines [first :: rest]. *)
Definition runs_of (first : string) (rest : list string) : list string :=
  Py.strip first :: map (fun raw => String Py.LF (Py.strip raw)) rest.

End Markup.

(** A path that passes the validation of the merger, with the text of
    its file. *)
Definition mergeable `{Runtime} (w : world) (path content : string) : Prop :=
  files w !! abspath (abspath path) = Some (Text content)
  /\ Merger.has_md_extension (abspath path) = true.

(** The characters the splitter lets through into a file name: the
    class [[\w\-_\. ]]. *)
Definition allowed_char (c : ascii) : bool :=
  Py.isword c || Ascii.eqb c "-" || Ascii.eqb c "_" || Ascii.eqb c "."
  || Ascii.eqb c " ".

(** The path the splitter writes the chapter of [sections[i]] to. *)
Definition chapter_path (md_path : string) (i : nat) (section_title : string) : string :=
  Path.join (Path.dirname md_path)
    (Py.format_02d (i / 2 + 1) +:+ "-"
     +:+ Splitter.safe_title (Py.strip section_title) +:+ ".md").

(** The paths of the chapters with the titles [titles], the first of
    them at index [i] of the sections. *)
Fixpoint chapter_paths (md_path : string) (i : nat) (titles : list string) : list string :=
  match titles with
  | [] => []
  | t :: rest => chapter_path md_path i t :: chapter_paths md_path (i + 2) rest
  end.

(** The number a decimal numeral stands for. *)
Definition decimal_value (s : string) : option nat :=
  option_map Nat.of_uint (NilEmpty.uint_of_string s).

Definition is_digit (c : ascii) : bool :=
  (48 <=? nat_of_ascii c) && (nat_of_ascii c <=? 57).

Definition is_write (e : event) : bool :=
  match e with EvWrite _ => true | _ => false end.

Definition is_read (e : event) : bool :=
  match e with EvRead _ => true | _ => false end.

(** The number of writes in a trace. *)
Definition writes (t : list event) : nat :=
  length (filter (fun e => is_write e) t).

(** The number of reads in a trace. *)
Definition reads (t : list event) : nat :=
  length (filter (fun e => is_read e) t).

(** ** Document to markup converter: [WordToMarkdownTool] *)

Module WordToMarkdown.

(** A run as the converter reads it: [run.text], the truth of
    [run.bold], [run.italic] and [run.underline], and the pictures that
    [run._element.xpath('.//pic:pic')] finds, each with the bytes of its
    image part, [None] when the part cannot be reached. *)
Record run : Type := {
  run_text : string;
  bold : bool;
  italic : bool;
  underline : bool;
  pictures : list (option string)
}.

(** A paragraph as the converter reads it: [block.style.name],
    [block.text], [block.runs], and the values of the locals
    [space_before] and [space_after] taken from its paragraph format. *)
Record paragraph : Type := {
  style_name : string;
  text : string;
  runs : list run;
  space_before : Z;
  space_after : Z
}.

(** What [iter_block_items] yields. *)
Inductive block_item : Type :=
| ParagraphItem (p : paragraph)
| TableItem (t : ToMarkdown.table).

(** The exceptions of this tool: those of the other tools, the
    [ValueError] of [int] on a text that is no numeral, and the failure
    of [Document(docx_path)]. *)
Inductive error : Type :=
| Raised (e : exn)
| InvalidLiteral (s : string)
| PackageNotFound (path : string).

Record result : Type := { markdown_path : string }.

(** [s * n] *)
Fixpoint times (n : nat) (s : string) : string :=
  match n with
  | 0 => ""
  | S k => s +:+ times k s
  end.

(** ['\n' * max(1, n)] *)
Definition newlines (n : Z) : string :=
  times (Z.to_nat (Z.max 1 n)) (String Py.LF "").

(** [s[-1]] *)
Fixpoint last_char (s : string) : option ascii :=
  match s with
  | "" => None
  | String c "" => Some c
  | String _ t => last_char t
  end.

(** [int(block.style.name[-1])] *)
Definition level_of (name : string) : error + nat :=
  match last_char name with
  | Some c =>
      if is_digit c then inr (nat_of_ascii c - 48)
      else inl (InvalidLiteral (String c ""))
  | None => inl (Raised IndexError)
  end.

(** [str(n)] *)
Definition str_nat (n : nat) : string := NilEmpty.string_of_uint (Nat.to_uint n).

(** One turn of the loop over the runs that marks the formats: every
    occurrence of the run's text in the text of the paragraph is put
    between the markers. *)
Definition mark (r : run) (text : string) : string :=
  let text := if bold r
              then Py.replace (run_text r) ("**" +:+ run_text r +:+ "**") text
              else text in
  let text := if italic r
              then Py.replace (run_text r) ("*" +:+ run_text r +:+ "*") text
              else text in
  if underline r
  then Py.replace (run_text r) ("<u>" +:+ run_text r +:+ "</u>") text
  else text.

Definition marked (runs : list run) (text : string) : string :=
  fold_left (fun text r => mark r text) runs text.

Section Tool.
Context `{Runtime}.

(** [_process_image], whose [try] turns every failure into the empty
    text: [os.makedirs] fails on an empty path and on a path where a
    file is; the loop over the pictures returns at the first one. *)
Definition process_image (r : run) (output_dir : string) (image_count : nat)
    : world -> string * world :=
  fun w =>
    if String.eqb output_dir "" then ("", w)
    else if bool_decide (is_Some (files w !! abspath output_dir)) then ("", w)
    else match pictures r with
         | Some image_data :: _ =>
             let image_name := "image_" +:+ str_nat image_count +:+ ".png" in
             let image_path := Path.join (abspath output_dir) image_name in
             ("![image " +:+ str_nat image_count +:+ "](" +:+ image_name +:+ ")"
                +:+ String Py.LF (String Py.LF ""),
              {| files := <[abspath image_path := Text image_data]> (files w);
                 trace := trace w ++ [EvWrite (abspath image_path)] |})
         | _ => ("", w)
         end.

(** The loop over the runs that takes the pictures out. *)
Fixpoint images_loop (rs : list run) (output_dir md_content : string)
    (image_count : nat) (w : world) : string * nat * world :=
  match rs with
  | [] => (md_content, image_count, w)
  | r :: rest =>
      match pictures r with
      | [] => images_loop rest output_dir md_content image_count w
      | _ =>
          let '(s, w') := process_image r output_dir (S image_count) w in
          images_loop rest output_dir (md_content +:+ s) (S image_count) w'
      end
  end.

(** The loop [for block in self.iter_block_items(doc)]. *)
Fixpoint blocks_loop (output_dir : string) (blocks : list block_item)
    (md_content : string) (image_count : nat) (w : world)
    : (error + string) * world :=
  match blocks with
  | [] => (inr md_content, w)
  | ParagraphItem p :: rest =>
      let md_content := md_content +:+ newlines (space_before p) in
      match (if Py.startswith "Heading" (style_name p) then
               match level_of (style_name p) with
               | inr level =>
                   inr (md_content +:+ times level "#" +:+ " " +:+ text p
                          +:+ String Py.LF (String Py.LF ""))
               | inl e => inl e
               end
             else inr (md_content +:+ marked (runs p) (text p) +:+ String Py.LF ""))
      with
      | inl e => (inl e, w)
      | inr md_content =>
          let md_content := md_content +:+ newlines (space_after p) in
          let '(md_content, image_count, w) :=
            images_loop (runs p) output_dir md_content image_count w in
          blocks_loop output_dir rest md_content image_count w
      end
  | TableItem t :: rest =>
      match ToMarkdown.table_markup t with
      | inr s => blocks_loop output_dir rest (md_content +:+ s) image_count w
      | inl e => (inl (Raised e), w)
      end
  end.

(** [_word_to_markdown]; [loaded] is the outcome of
    [Document(docx_path)], the blocks of the document or the exception.
    The markup goes into the working directory, which is taken to be
    writable, under the name of the document that was loaded. *)
Definition word_to_markdown (loaded : error + list block_item)
    (docx_path output_dir : string) : world -> (error + result) * world :=
  fun w =>
    match loaded with
    | inl e => (inl e, w)
    | inr doc =>
        match blocks_loop output_dir doc "" 0 w with
        | (inl e, w) => (inl e, w)
        | (inr md_content, w) =>
            let base_name := Path.splitext_root (Path.basename docx_path) in
            let md_path := Path.join getcwd (base_name +:+ ".md") in
            (inr {| markdown_path := md_path |},
             {| files := <[abspath md_path := Text md_content]> (files w);
                trace := trace w ++ [EvWrite (abspath md_path)] |})
        end
    end.

(** [call]; a missing [output_dir] reads as the working directory, and
    [inl] stands for the failed response. *)
Definition call (loaded : error + list block_item)
    (file_path output_dir : option string) : world -> (error + result) * world :=
  match file_path with
  | None => fun w => (inl (Raised (MissingParameter "file_path")), w)
  | Some p => word_to_markdown loaded p (default getcwd output_dir)
  end.

End Tool.


End WordToMarkdown.

(** Documents that the two converters carry there and back: headings
    of the levels 1 to 9, paragraphs of text lines without formats and
    pictures, and tables of clean cells. *)
Module Clean.

(** A heading text: no white space around it, no [#], no line feed;
    and, as every text read from a document, it holds only characters
    the document format takes. *)
Definition is_title (t : string) : bool :=
  String.eqb (Py.strip t) t
  && Layout.all_chars (fun a => negb (Ascii.eqb a "#") && Splitter.not_lf a) t
  && Converter.xml_compatible t.

(** A line of a paragraph: a text line with no white space around it
    and no line feed in it. *)
Definition is_line (l : string) : bool :=
  Markup.text_line l && String.eqb (Py.strip l) l
  && Layout.all_chars Splitter.not_lf l.

(** A run without format. *)
Definition is_plain (r : WordToMarkdown.run) : bool :=
  negb (WordToMarkdown.bold r) && negb (WordToMarkdown.italic r)
  && negb (WordToMarkdown.underline r).

(** A run without picture. *)
Definition no_picture (r : WordToMarkdown.run) : bool :=
  match WordToMarkdown.pictures r with [] => true | _ => false end.

Definition level (p : WordToMarkdown.paragraph) : nat :=
  match WordToMarkdown.level_of (WordToMarkdown.style_name p) with
  | inr k => k
  | inl _ => 0
  end.

Definition is_table (t : ToMarkdown.table) : bool :=
  match t with
  | [] => false
  | first :: rest =>
      negb (length first =? 0)
      && forallb (fun row => length row =? length first) rest
      && forallb (forallb Markup.clean_cell) t
  end.

Definition is_block (b : WordToMarkdown.block_item) : bool :=
  match b with
  | WordToMarkdown.ParagraphItem p =>
      forallb no_picture (WordToMarkdown.runs p)
      && (if Py.startswith "Heading" (WordToMarkdown.style_name p)
          then (1 <=? level p) && (level p <=? 9) && is_title (WordToMarkdown.text p)
          else forallb is_plain (WordToMarkdown.runs p)
               && forallb is_line (Py.split_char Py.LF (WordToMarkdown.text p)))
  | WordToMarkdown.TableItem t => is_table t
  end.



(** The lines of the markup of a block, without their line feeds. *)
Definition lines_of (b : WordToMarkdown.block_item) : list string :=
  match b with
  | WordToMarkdown.ParagraphItem p =>
      let before := repeat "" (Z.to_nat (Z.max 1 (WordToMarkdown.space_before p))) in
      let after := repeat "" (Z.to_nat (Z.max 1 (WordToMarkdown.space_after p))) in
      if Py.startswith "Heading" (WordToMarkdown.style_name p)
      then before
           ++ [WordToMarkdown.times (level p) "#" +:+ " " +:+ WordToMarkdown.text p; ""]
           ++ after
      else before ++ Py.split_char Py.LF (WordToMarkdown.text p) ++ after
  | WordToMarkdown.TableItem t =>
      match t with
      | [] => []
      | first :: rest =>
          Markup.row_text first :: Markup.row_text (repeat "---" (length first))
          :: map Markup.row_text rest ++ [""; ""; ""]
      end
  end.


End Clean.

(** The markers around a run: bold outside, italic inside. *)
Definition stars (r : WordToMarkdown.run) : string :=
  (if WordToMarkdown.bold r then "**" else "")
  +:+ (if WordToMarkdown.italic r then "*" else "").

(** * Properties *)

(** ** The built-ins on small inputs *)

Example py_count_overlap : Py.count "aa" "aaa" = 1 /\ Py.replace "aa" "b" "aaa" = "ba".
Proof. split; reflexivity. Qed.

Example py_replace_empty : Py.replace "" "-" "abc" = "-a-b-c-" /\ Py.count "" "abc" = 4.
Proof. split; reflexivity. Qed.

Example py_split_row : Py.split_char "|" "| a | b |" = [""; " a "; " b "; ""].
Proof. reflexivity. Qed.

Example py_readlines : Py.readlines (ln "a" +:+ "b") = [ln "a"; "b"].
Proof. reflexivity. Qed.

Example py_strip : Py.strip (ln "  x y ") = "x y".
Proof. reflexivity. Qed.

Example py_format : Py.format_02d 3 = "03" /\ Py.format_02d 12 = "12" /\ Py.format_02d 100 = "100".
Proof. repeat split; reflexivity. Qed.

Example md_elements_spans : Editor.md_elements "a **b** _c_ `d` **e" = ["**b**"; "_c_"; "`d`"].
Proof. reflexivity. Qed.

(** ** Strings *)

Section StringFacts.

Lemma app_String c s t : String c s +:+ t = String c (s +:+ t).
Proof. reflexivity. Qed.

Lemma app_empty_l s : "" +:+ s = s.
Proof. reflexivity. Qed.

Lemma app_empty_r s : s +:+ "" = s.
Proof. induction s as [|c s IH]; [reflexivity|]. rewrite app_String, IH. reflexivity. Qed.

Lemma app_assoc_s (a b c : string) : (a +:+ b) +:+ c = a +:+ (b +:+ c).
Proof.
  induction a as [|x a IH]; [reflexivity|].
  rewrite !app_String, IH. reflexivity.
Qed.

(** A prefix found by [startswith] is a prefix. *)
Lemma startswith_drop p s :
  Py.startswith p s = true -> s = p +:+ Py.drop (String.length p) s.
Proof.
  revert s. induction p as [|a p IH]; intros s Hs; [reflexivity|].
  destruct s as [|b s]; [discriminate|]. simpl in Hs.
  destruct (Ascii.eqb a b) eqn:E; [|discriminate].
  apply Ascii.eqb_eq in E. subst b.
  rewrite app_String. simpl. f_equal. apply IH, Hs.
Qed.

(** [find] splits its argument around an occurrence. *)
Lemma find_split sub s b a :
  Py.find sub s = Some (b, a) -> s = b +:+ sub +:+ a.
Proof.
  revert b a. induction s as [|c s IH]; intros b a Hf.
  - simpl in Hf. destruct (Py.startswith sub "") eqn:E; [|discriminate].
    injection Hf as <- <-. rewrite app_empty_l. apply (startswith_drop _ _ E).
  - cbn [Py.find] in Hf.
    destruct (Py.startswith sub (String c s)) eqn:E.
    + injection Hf as <- <-. rewrite app_empty_l. apply (startswith_drop _ _ E).
    + destruct (Py.find sub s) as [[b' a']|] eqn:F; [|discriminate].
      injection Hf as <- <-. rewrite app_String. f_equal. apply IH. reflexivity.
Qed.

Lemma replace_from_same fuel e s : Py.replace_from fuel e e s = s.
Proof.
  revert s. induction fuel as [|n IH]; intros s; [reflexivity|].
  simpl. destruct (Py.find e s) as [[b a]|] eqn:F; [|reflexivity].
  rewrite IH. symmetry. apply find_split, F.
Qed.

Lemma interleave_empty s : Py.interleave "" s = s.
Proof.
  induction s as [|c s IH]; [reflexivity|].
  simpl. rewrite app_empty_l, IH. reflexivity.
Qed.

(** Replacing a text by itself changes nothing. *)
Lemma replace_same e s : Py.replace e e s = s.
Proof.
  destruct e as [|c e]; [apply interleave_empty|].
  apply replace_from_same.
Qed.

(** The empty string occurs in every string. *)
Lemma contains_empty s : Py.contains "" s = true.
Proof. destruct s; reflexivity. Qed.

(** Where the target does not occur, nothing is counted or replaced. *)
Lemma absent_count sub s : Py.contains sub s = false -> Py.count sub s = 0.
Proof.
  unfold Py.contains, Py.count. intros Hc.
  destruct sub as [|c sub].
  - destruct s; discriminate.
  - destruct (Py.find (String c sub) s) eqn:F; [discriminate|].
    destruct (String.length s); simpl; [reflexivity|]. rewrite F. reflexivity.
Qed.

Lemma absent_replace sub new s : Py.contains sub s = false -> Py.replace sub new s = s.
Proof.
  unfold Py.contains, Py.replace. intros Hc.
  destruct sub as [|c sub].
  - destruct s; discriminate.
  - destruct (Py.find (String c sub) s) eqn:F; [discriminate|].
    destruct (String.length s); simpl; [reflexivity|]. rewrite F. reflexivity.
Qed.

Lemma length_app_s a b : String.length (a +:+ b) = String.length a + String.length b.
Proof.
  induction a as [|c a IH]; [reflexivity|].
  rewrite app_String. simpl. rewrite IH. reflexivity.
Qed.

Lemma startswith_app p s t :
  Py.startswith p s = true -> Py.startswith p (s +:+ t) = true.
Proof.
  revert s. induction p as [|a p IH]; intros s Hs; [reflexivity|].
  destruct s as [|b s]; [discriminate|].
  rewrite app_String. simpl in *.
  destruct (Ascii.eqb a b); [apply IH, Hs | discriminate].
Qed.

(** [find] stops at the first occurrence: there is none before it. *)
Lemma find_before_absent sub s b a :
  sub <> "" -> Py.find sub s = Some (b, a) -> Py.contains sub b = false.
Proof.
  intros Hne. unfold Py.contains.
  assert (Hnil : Py.find sub "" = None).
  { destruct sub as [|c sub]; [congruence | reflexivity]. }
  revert b a. induction s as [|c s IH]; intros b a Hf.
  - rewrite Hnil in Hf. discriminate.
  - pose proof (find_split _ _ _ _ Hf) as Hs.
    cbn [Py.find] in Hf.
    destruct (Py.startswith sub (String c s)) eqn:E.
    + injection Hf as <- <-. rewrite Hnil. reflexivity.
    + destruct (Py.find sub s) as [[b' a']|] eqn:F; [|discriminate].
      injection Hf as <- <-.
      cbn [Py.find].
      destruct (Py.startswith sub (String c b')) eqn:E'.
      * apply (startswith_app _ _ (sub +:+ a')) in E'.
        rewrite <- Hs in E'. congruence.
      * specialize (IH b' a' eq_refl).
        destruct (Py.find sub b'); [discriminate | reflexivity].
Qed.

(** The text after an occurrence is shorter than the text. *)
Lemma find_after_shorter sub s b a :
  sub <> "" -> Py.find sub s = Some (b, a) -> String.length a < String.length s.
Proof.
  intros Hne Hf. rewrite (find_split _ _ _ _ Hf), !length_app_s.
  destruct sub as [|c sub]; [congruence|]. simpl. lia.
Qed.

Lemma join_cons sep x l :
  l <> [] -> Py.join sep (x :: l) = x +:+ sep +:+ Py.join sep l.
Proof. destruct l; [congruence | reflexivity]. Qed.

(** What [replace] and [count] do to a string, for a non-empty target:
    the string is a chain of segments free of the target and joined by
    it; [replace] joins the same segments by the new text, [count] is
    the number of joints.  The fuel of the two functions, the length of
    the string, is enough. *)
Lemma replace_count_segments_from fuel sub new s :
  sub <> "" -> String.length s <= fuel ->
  exists segs,
    s = Py.join sub segs
    /\ Py.replace_from fuel sub new s = Py.join new segs
    /\ S (Py.count_from fuel sub s) = length segs
    /\ Forall (fun g => Py.contains sub g = false) segs.
Proof.
  intros Hne. revert s. induction fuel as [|n IH]; intros s Hlen.
  - destruct s; [|simpl in Hlen; lia].
    exists [""]. repeat split. constructor; [|constructor].
    destruct sub; [congruence | reflexivity].
  - simpl. destruct (Py.find sub s) as [[b a]|] eqn:F.
    + pose proof (find_after_shorter _ _ _ _ Hne F) as Hlt.
      destruct (IH a ltac:(lia)) as (segs & Hs & Hr & Hc & Hall).
      assert (Hsegs : segs <> []) by (destruct segs; [discriminate | congruence]).
      exists (b :: segs). rewrite !join_cons by exact Hsegs.
      rewrite <- Hs, <- Hr. repeat split.
      * apply find_split, F.
      * simpl. rewrite Hc. reflexivity.
      * constructor; [apply (find_before_absent _ _ _ _ Hne F) | exact Hall].
    + exists [s]. repeat split. constructor; [|constructor].
      unfold Py.contains. rewrite F. reflexivity.
Qed.

Lemma replace_count_segments sub new s :
  sub <> "" ->
  exists segs,
    s = Py.join sub segs
    /\ Py.replace sub new s = Py.join new segs
    /\ S (Py.count sub s) = length segs
    /\ Forall (fun g => Py.contains sub g = false) segs.
Proof.
  intros Hne.
  destruct (replace_count_segments_from (String.length s) sub new s Hne (le_n _))
    as (segs & H1 & H2 & H3 & H4).
  exists segs. unfold Py.replace, Py.count.
  destruct sub; [congruence|]. repeat split; assumption.
Qed.

End StringFacts.

(** ** The replace operation *)

Section Replace.
Context `{Runtime}.

Lemma replace_loop_literal tgt new lines acc n old :
  exists old',
    Editor.replace_loop false tgt new lines acc n old
    = inr (acc ++ map (Py.replace tgt new) lines,
           n + sum_list (map (Py.count tgt) lines), old').
Proof.
  revert acc n old. induction lines as [|line lines IH]; intros acc n old.
  - exists old. simpl. rewrite app_nil_r, Nat.add_0_r. reflexivity.
  - cbn [Editor.replace_loop map sum_list sum_list_with].
    destruct (Py.contains tgt line) eqn:C.
    + destruct (IH (acc ++ [Py.replace tgt new line]) (n + Py.count tgt line)
                  (Some line)) as [old' ->].
      exists old'. rewrite <- app_assoc, Nat.add_assoc. reflexivity.
    + destruct (IH (acc ++ [line]) n old) as [old' ->].
      exists old'. rewrite (absent_count _ _ C), (absent_replace _ new _ C).
      rewrite <- app_assoc. reflexivity.
Qed.

(** C6. A replace operation with a literal target replaces every
    occurrence of the target on every line of the buffer, and its
    modified count is the number of occurrences summed over all lines;
    on the buffer holding the line [foo foo] with target [foo] and
    content [bar] it yields [bar bar] and counts 2. *)
Theorem replace_literal_every_occurrence lines tgt new opts :
  default false (Editor.is_regex opts) = false ->
  (exists old,
     Editor.replace_content lines tgt new opts
     = inr (map (Py.replace tgt new) lines,
            sum_list (map (Py.count tgt) lines), old))
  /\ Editor.replace_content [ln "foo foo"] "foo" "bar" opts
     = inr ([ln "bar bar"], 2, Some (ln "foo foo")).
Proof.
  intros Hlit. unfold Editor.replace_content. rewrite Hlit. split.
  - destruct (replace_loop_literal tgt new lines [] 0 None) as [old E].
    exists old. exact E.
  - reflexivity.
Qed.

End Replace.

Lemma replace_literal_every_occurrence_witness :
  default false (Editor.is_regex Editor.no_options) = false
  /\ exists old,
       Editor.replace_content (H := posix_runtime)
         [ln "foo foo"; ln "none"; ln "a foo"] "foo" "bar" Editor.no_options
       = inr ([ln "bar bar"; ln "none"; ln "a bar"], 3, old).
Proof.
  split; [reflexivity|].
  exact (proj1 (replace_literal_every_occurrence (H := posix_runtime)
                  [ln "foo foo"; ln "none"; ln "a foo"] "foo" "bar"
                  Editor.no_options eq_refl)).
Defined.

(** ** The rewrite operation *)

Section Rewrite.
Context `{Runtime}.

(** The loop over the markers of the original line leaves the
    replacement text as it is. *)
Lemma keep_markers_id elems new_line : Editor.keep_markers elems new_line = new_line.
Proof.
  revert new_line. induction elems as [|e elems IH]; intros new_line; [reflexivity|].
  simpl. rewrite replace_same. destruct (Py.contains e new_line); apply IH.
Qed.

Lemma rewrite_loop_whole_line tgt new lines acc ch old :
  exists old',
    Editor.rewrite_loop false tgt new lines acc ch old
    = (acc ++ map (fun l => if Py.contains tgt l then new else l) lines,
       ch || existsb (Py.contains tgt) lines, old').
Proof.
  revert acc ch old. induction lines as [|line lines IH]; intros acc ch old.
  - exists old. simpl. rewrite app_nil_r, orb_false_r. reflexivity.
  - cbn [Editor.rewrite_loop map existsb]. rewrite andb_false_r.
    destruct (Py.contains tgt line) eqn:C.
    + destruct (IH (acc ++ [new]) true (Some line)) as [old' ->].
      exists old'. rewrite <- app_assoc, orb_true_r. reflexivity.
    + destruct (IH (acc ++ [line]) ch old) as [old' ->].
      exists old'. rewrite <- app_assoc. reflexivity.
Qed.

Lemma rewrite_loop_preserving tgt new lines acc ch old :
  exists old',
    Editor.rewrite_loop true tgt new lines acc ch old
    = (acc ++ map (fun l => if Py.contains tgt l then Py.replace tgt new l else l) lines,
       ch || existsb (Py.contains tgt) lines, old').
Proof.
  revert acc ch old. induction lines as [|line lines IH]; intros acc ch old.
  - exists old. simpl. rewrite app_nil_r, orb_false_r. reflexivity.
  - cbn [Editor.rewrite_loop map existsb]. rewrite andb_true_r, keep_markers_id.
    destruct (Py.contains tgt line) eqn:C.
    + destruct (IH (acc ++ [Py.replace tgt new line]) true (Some line)) as [old' ->].
      exists old'. rewrite <- app_assoc, orb_true_r. reflexivity.
    + destruct (IH (acc ++ [line]) ch old) as [old' ->].
      exists old'. rewrite <- app_assoc. reflexivity.
Qed.

(** C9. With [preserve_format] false a rewrite operation replaces
    every line that contains the target, whole, by the content, and
    leaves the other lines.  With [preserve_format] true or absent the
    marker step performs no substitution: whatever markers the original
    line has, the replacement text comes out of it character for
    character as it went in, and the target is then replaced by it
    inside the line. *)
Theorem rewrite_whole_line_or_markers_untouched lines tgt new regex :
  (exists old,
     Editor.rewrite_content lines tgt new
       {| Editor.is_regex := regex; Editor.preserve_format := Some false |}
     = (map (fun l => if Py.contains tgt l then new else l) lines,
        existsb (Py.contains tgt) lines, old))
  /\ (forall line, Editor.keep_markers (Editor.md_elements line) new = new)
  /\ (exists old,
        Editor.rewrite_content lines tgt new
          {| Editor.is_regex := regex; Editor.preserve_format := Some true |}
        = (map (fun l => if Py.contains tgt l then Py.replace tgt new l else l) lines,
           existsb (Py.contains tgt) lines, old))
  /\ (exists old,
        Editor.rewrite_content lines tgt new
          {| Editor.is_regex := regex; Editor.preserve_format := None |}
        = (map (fun l => if Py.contains tgt l then Py.replace tgt new l else l) lines,
           existsb (Py.contains tgt) lines, old)).
Proof.
  split; [|split; [|split]].
  - apply (rewrite_loop_whole_line tgt new lines [] false None).
  - intros line. apply keep_markers_id.
  - apply (rewrite_loop_preserving tgt new lines [] false None).
  - apply (rewrite_loop_preserving tgt new lines [] false None).
Qed.

(** The rewrite of a line holding a bold span, both ways. *)
Example rewrite_bold_line :
  Editor.rewrite_content [ln "see **old** text"] "old" "**new**"
    {| Editor.is_regex := None; Editor.preserve_format := None |}
  = ([ln "see ****new**** text"], true, Some (ln "see **old** text"))
  /\ Editor.rewrite_content [ln "see **old** text"] "old" "**new**"
       {| Editor.is_regex := None; Editor.preserve_format := Some false |}
     = (["**new**"], true, Some (ln "see **old** text")).
Proof. split; reflexivity. Qed.

End Rewrite.

(** ** The insert operation *)

Section Insert.
Context `{Runtime}.

(** A buffer with one matching line: the new line follows it. *)
Example insert_after_single_match :
  Editor.insert_content [ln "intro"; ln "- item one"; ln "end"] "item" "NEW"
    "after" Editor.no_options
  = inr ([ln "intro"; ln "- item one"; ln "NEW"; ln "end"], true).
Proof. reflexivity. Qed.

(** Lines without the target go through the loop as they are. *)
Lemma insert_loop_no_match tgt cont pos i lines acc ch :
  Forall (fun l => Py.contains tgt l = false) lines ->
  Editor.insert_loop false tgt cont pos i lines acc ch = inr (acc ++ lines, ch).
Proof.
  intros Hall. revert i acc. induction Hall as [|l lines Hl _ IH]; intros i acc.
  - simpl. rewrite app_nil_r. reflexivity.
  - cbn [Editor.insert_loop]. rewrite Hl, IH, <- app_assoc. reflexivity.
Qed.

(** X8. With one matching line in the buffer, whatever surrounds it, the
    new line comes right after it, as the specification has it. *)
Lemma insert_after_one_match tgt cont before line after opts :
  default false (Editor.is_regex opts) = false ->
  Forall (fun l => Py.contains tgt l = false) before ->
  Py.contains tgt line = true ->
  Forall (fun l => Py.contains tgt l = false) after ->
  Editor.insert_content (before ++ line :: after) tgt cont "after" opts
  = inr (before ++ line :: (cont +:+ Editor.NL) :: after, true)
  /\ Spec.insert_after tgt cont (before ++ line :: after)
     = before ++ line :: (cont +:+ Editor.NL) :: after.
Proof.
  intros Hlit Hb Hl Ha. unfold Editor.insert_content. rewrite Hlit. split.
  - assert (G : forall i acc ch, length acc = i ->
        Editor.insert_loop false tgt cont "after" i (before ++ line :: after) acc ch
        = inr (acc ++ before ++ line :: (cont +:+ Editor.NL) :: after, true)).
    { clear Hlit. induction Hb as [|l before Hl0 _ IH]; intros i acc ch Hi.
      - cbn [app Editor.insert_loop]. rewrite Hl.
        change (String.eqb "after" "before") with false. cbv iota.
        replace (Py.insert (i + 1) (cont +:+ Editor.NL) (acc ++ [line]))
          with (acc ++ [line; cont +:+ Editor.NL]).
        + rewrite insert_loop_no_match by exact Ha.
          rewrite <- app_assoc. reflexivity.
        + unfold Py.insert.
          rewrite firstn_all2, skipn_all2 by (rewrite length_app; simpl; lia).
          rewrite <- app_assoc. reflexivity.
      - cbn [app Editor.insert_loop]. rewrite Hl0.
        rewrite IH by (rewrite length_app; simpl; lia).
        rewrite <- app_assoc. reflexivity. }
    apply (G 0 [] false eq_refl).
  - unfold Spec.insert_after. rewrite flat_map_app. cbn [flat_map]. rewrite Hl.
    assert (N : forall ls, Forall (fun l => Py.contains tgt l = false) ls ->
              flat_map (fun l => if Py.contains tgt l
                                 then [l; cont +:+ Editor.NL] else [l]) ls = ls).
    { intros ls Hls. induction Hls as [|l ls Hl0 _ IH]; [reflexivity|].
      cbn [flat_map]. rewrite Hl0, IH. reflexivity. }
    rewrite (N _ Hb), (N _ Ha). reflexivity.
Qed.

(** C2. On a buffer with two matching lines the loop of
    [_insert_content] puts the second new line in front of the second
    matching line: the index it inserts at is the line's index in the
    original buffer, which the first insertion has left one short.  The
    specification's insert-after puts each new line behind its match. *)
Theorem insert_after_second_match_misplaced :
  Editor.insert_content [ln "- item one"; ln "- item two"] "item" "NEW"
    "after" Editor.no_options
  = inr ([ln "- item one"; ln "NEW"; ln "NEW"; ln "- item two"], true)
  /\ Spec.insert_after "item" "NEW" [ln "- item one"; ln "- item two"]
     = [ln "- item one"; ln "NEW"; ln "- item two"; ln "NEW"].
Proof. split; reflexivity. Qed.

End Insert.

(** ** Heading levels of the markup to document converter *)

Section Headings.
Context `{Runtime}.

(** A heading line without further [#]: the level is the number of
    leading [#]. *)
Example heading_level_plain :
  Spec.final_document "/book/ch.md" [ln "## Scope"] empty_world
  = inr [Heading "Scope" 2].
Proof. reflexivity. Qed.

Lemma find_hash s :
  match Py.find "#" s with
  | Some (_, a) =>
      Converter.hashes s = S (Converter.hashes a)
      /\ String.length a < String.length s
  | None => Converter.hashes s = 0
  end.
Proof.
  induction s as [|c s IH]; [reflexivity|].
  cbn [Py.find Py.startswith Converter.hashes].
  destruct (Ascii.eqb "#" c) eqn:E.
  - destruct s; simpl; split; lia.
  - destruct (Py.find "#" s) as [[b a]|].
    + destruct IH as [IH1 IH2]. simpl. split; lia.
    + simpl. exact IH.
Qed.

Lemma count_from_hashes fuel s :
  String.length s <= fuel -> Py.count_from fuel "#" s = Converter.hashes s.
Proof.
  revert s. induction fuel as [|n IH]; intros s Hlen.
  - destruct s; [reflexivity | simpl in Hlen; lia].
  - cbn [Py.count_from]. pose proof (find_hash s) as F.
    destruct (Py.find "#" s) as [[b a]|].
    + destruct F as [F1 F2]. rewrite IH by lia. symmetry. exact F1.
    + symmetry. exact F.
Qed.

(** X15. The level the converter computes: the leading [#] and the [#] of
    the heading's text, together. *)
Lemma heading_level_all_hashes line :
  Converter.heading_level line
  = Converter.leading_hashes line + Converter.hashes (Py.lstrip_char "#" line).
Proof.
  unfold Converter.heading_level, Py.count.
  rewrite count_from_hashes by lia.
  unfold Py.lstrip_char. induction line as [|c line IH]; [reflexivity|].
  cbn [Converter.hashes Converter.leading_hashes Py.lstrip_by].
  destruct (Ascii.eqb "#" c) eqn:E.
  - rewrite IH. reflexivity.
  - cbn [Converter.hashes]. rewrite E. reflexivity.
Qed.

(** C3. The converter takes for the level of a heading the number of
    all [#] characters of the line: the line [# C# notes], which starts
    with one [#], becomes a heading of level 2. *)
Theorem heading_level_counts_every_hash :
  Converter.leading_hashes "# C# notes" = 1
  /\ Converter.heading_level "# C# notes" = 2
  /\ Spec.final_document "/book/ch.md" [ln "# C# notes"] empty_world
     = inr [Heading "C# notes" 2].
Proof. repeat split; reflexivity. Qed.

End Headings.

(** ** The splitter on well-formed documents *)

Section SplitWellFormed.
Context `{Runtime}.

Ltac norm_str :=
  repeat first [rewrite app_assoc_s | rewrite app_String | rewrite app_empty_l].
Ltac norm_str_in H :=
  repeat first [rewrite app_assoc_s in H | rewrite app_String in H
               | rewrite app_empty_l in H].

Lemma rev_acc_app l cur acc :
  Py.rev_acc (Py.rev_acc l cur) acc = Py.rev_acc cur (l +:+ acc).
Proof.
  revert cur acc. induction l as [|c l IH]; intros cur acc; [reflexivity|].
  simpl. rewrite IH. reflexivity.
Qed.

Lemma rev_acc_tail cur acc : Py.rev_acc cur acc = Py.rev cur +:+ acc.
Proof.
  unfold Py.rev. revert acc. induction cur as [|c cur IH]; intros acc; [reflexivity|].
  simpl. rewrite (IH (String c acc)), (IH (String c "")), app_assoc_s. reflexivity.
Qed.

(** The text gathered so far, after the characters of [l] have been
    pushed on it. *)
Lemma rev_pushed l cur : Py.rev (Py.rev_acc l cur) = Py.rev cur +:+ l.
Proof.
  unfold Py.rev at 1. rewrite rev_acc_app, app_empty_r. apply rev_acc_tail.
Qed.

Lemma rev_cons c cur : Py.rev (String c cur) = Py.rev cur +:+ String c "".
Proof. exact (rev_pushed (String c "") cur). Qed.

Lemma span_app f a b :
  Layout.all_chars f a = true ->
  match b with "" => True | String c _ => f c = false end ->
  Splitter.span f (a +:+ b) = (a, b).
Proof.
  intros Ha Hb. induction a as [|c a IH].
  - rewrite app_empty_l. destruct b as [|c b]; [reflexivity|].
    simpl. rewrite Hb. reflexivity.
  - simpl in Ha. apply andb_true_iff in Ha as [Hc Ha].
    rewrite app_String. simpl. rewrite Hc, (IH Ha). reflexivity.
Qed.

Lemma drop_all s : Py.drop (String.length s) s = "".
Proof. induction s as [|c s IH]; [reflexivity | exact IH]. Qed.

(** The pattern does not match at a plain line. *)
Lemma match_h1_plain l s :
  Layout.plain_line l = true ->
  Splitter.match_h1 (l +:+ String Py.LF s) = None.
Proof.
  unfold Layout.plain_line. intros Hp. apply andb_true_iff in Hp as [_ Hp].
  destruct l as [|c l]; [reflexivity|].
  rewrite app_String. unfold Splitter.match_h1.
  destruct (Ascii.eqb c "#"); [|reflexivity].
  destruct l as [|c' l]; [discriminate|].
  rewrite app_String. simpl. apply negb_true_iff in Hp. rewrite Hp. reflexivity.
Qed.

(** The pattern matches a well-formed heading line, and the group is
    its title. *)
Lemma well_formed_parts c :
  Layout.well_formed c = true ->
  Layout.space c <> ""
  /\ Layout.all_chars Py.isspace (Layout.space c) = true
  /\ match Layout.title c with "" => False | String a _ => Py.isspace a = false end
  /\ Layout.all_chars Splitter.not_lf (Layout.title c) = true
  /\ forallb Layout.plain_line (Layout.body c) = true.
Proof.
  unfold Layout.well_formed. intros Hw.
  apply andb_true_iff in Hw as [Hw Hbody].
  apply andb_true_iff in Hw as [Hw Hnolf].
  apply andb_true_iff in Hw as [Hw Hfirst].
  apply andb_true_iff in Hw as [Hne Hsp].
  repeat split; try assumption.
  - destruct (Layout.space c); [discriminate | congruence].
  - clear - Hsp. induction (Layout.space c) as [|a sp IH]; [reflexivity|].
    simpl in *. apply andb_true_iff in Hsp as [Ha Hs].
    apply andb_true_iff in Ha as [Ha _]. rewrite Ha. apply IH, Hs.
  - destruct (Layout.title c); [discriminate|]. apply negb_true_iff, Hfirst.
Qed.

(** The pattern matches a well-formed heading line, and the group is
    its title. *)
Lemma match_h1_heading c s :
  Layout.well_formed c = true ->
  Splitter.match_h1 (String "#" (Layout.space c +:+ Layout.title c +:+ String Py.LF s))
  = Some (Layout.title c, String Py.LF s).
Proof.
  intros Hw. destruct (well_formed_parts c Hw) as (Hne & Hsp & Hfirst & Hnolf & _).
  unfold Splitter.match_h1. change (Ascii.eqb "#" "#") with true. cbv iota.
  rewrite (span_app Py.isspace (Layout.space c) (Layout.title c +:+ String Py.LF s)).
  - destruct (String.length (Layout.space c)) as [|j] eqn:Hlen.
    { destruct (Layout.space c); [congruence | discriminate]. }
    cbn [Splitter.backtrack]. rewrite <- Hlen, drop_all, app_empty_l.
    unfold Splitter.title_at.
    rewrite (span_app Splitter.not_lf (Layout.title c) (String Py.LF s));
      [|assumption|reflexivity].
    destruct (Layout.title c); [contradiction | reflexivity].
  - exact Hsp.
  - destruct (Layout.title c) as [|a t]; [contradiction|].
    rewrite app_String. exact Hfirst.
Qed.

Lemma re_split_step (fuel : nat) (bol : bool) (cur : string) (c : ascii) (t : string) :
  (if bol then Splitter.match_h1 (String c t) else None) = None ->
  Splitter.re_split_from (S fuel) bol cur (String c t)
  = Splitter.re_split_from fuel (Ascii.eqb c Py.LF) (String c cur) t.
Proof. intros Hm. cbn [Splitter.re_split_from]. rewrite Hm. reflexivity. Qed.

(** Inside a line the scan goes on to the line feed and past it. *)
Lemma scan_to_line_end l s fuel cur :
  Layout.all_chars Splitter.not_lf l = true ->
  String.length (l +:+ String Py.LF s) < fuel ->
  exists fuel' cur',
    String.length s < fuel'
    /\ Py.rev cur' = Py.rev cur +:+ l +:+ String Py.LF ""
    /\ Splitter.re_split_from fuel false cur (l +:+ String Py.LF s)
       = Splitter.re_split_from fuel' true cur' s.
Proof.
  revert fuel cur. induction l as [|c l IH]; intros fuel cur Hl Hf.
  - norm_str. norm_str_in Hf. destruct fuel as [|f]; [simpl in Hf; lia|].
    exists f, (String Py.LF cur). split; [simpl in Hf; lia|]. split.
    + apply rev_cons.
    + apply re_split_step. reflexivity.
  - simpl in Hl. apply andb_true_iff in Hl as [Hc Hl].
    norm_str. norm_str_in Hf. destruct fuel as [|f]; [simpl in Hf; lia|].
    destruct (IH f (String c cur) Hl ltac:(simpl in Hf; lia)) as (f' & cur' & Hf' & Hr & E).
    exists f', cur'. split; [exact Hf'|]. split.
    + rewrite Hr, rev_cons, !app_assoc_s. reflexivity.
    + rewrite re_split_step by reflexivity.
      unfold Splitter.not_lf in Hc. apply negb_true_iff in Hc. rewrite Hc. exact E.
Qed.

(** A plain line at the start of a line is scanned over. *)
Lemma scan_plain_line l s fuel cur :
  Layout.plain_line l = true ->
  String.length (ln l +:+ s) < fuel ->
  exists fuel' cur',
    String.length s < fuel'
    /\ Py.rev cur' = Py.rev cur +:+ ln l
    /\ Splitter.re_split_from fuel true cur (ln l +:+ s)
       = Splitter.re_split_from fuel' true cur' s.
Proof.
  intros Hp Hf. pose proof (match_h1_plain l s Hp) as Hm.
  unfold ln in *. norm_str. norm_str_in Hf.
  pose proof Hp as Hp'. unfold Layout.plain_line in Hp'.
  apply andb_true_iff in Hp' as [Hl _].
  destruct l as [|c l].
  - norm_str. norm_str_in Hf. norm_str_in Hm.
    destruct fuel as [|f]; [simpl in Hf; lia|].
    exists f, (String Py.LF cur). split; [simpl in Hf; lia|]. split.
    + apply rev_cons.
    + apply re_split_step. exact Hm.
  - simpl in Hl. apply andb_true_iff in Hl as [Hc Hl].
    norm_str. norm_str_in Hf. norm_str_in Hm.
    destruct fuel as [|f]; [simpl in Hf; lia|].
    destruct (scan_to_line_end l s f (String c cur) Hl ltac:(simpl in Hf; lia))
      as (f' & cur' & Hf' & Hr & E).
    exists f', cur'. split; [exact Hf'|]. split.
    + rewrite Hr, rev_cons, !app_assoc_s. reflexivity.
    + rewrite re_split_step by exact Hm.
      unfold Splitter.not_lf in Hc. apply negb_true_iff in Hc. rewrite Hc. exact E.
Qed.

Lemma scan_plain_lines ls s fuel cur :
  forallb Layout.plain_line ls = true ->
  String.length (Layout.lines_text ls +:+ s) < fuel ->
  exists fuel' cur',
    String.length s < fuel'
    /\ Py.rev cur' = Py.rev cur +:+ Layout.lines_text ls
    /\ Splitter.re_split_from fuel true cur (Layout.lines_text ls +:+ s)
       = Splitter.re_split_from fuel' true cur' s.
Proof.
  revert fuel cur. induction ls as [|l ls IH]; intros fuel cur Hp Hf.
  - exists fuel, cur. unfold Layout.lines_text in *. cbn [map Py.concat] in *.
    norm_str_in Hf. norm_str. rewrite app_empty_r. repeat split. exact Hf.
  - simpl in Hp. apply andb_true_iff in Hp as [Hl Hp].
    unfold Layout.lines_text in *. cbn [map Py.concat] in *.
    rewrite app_assoc_s. rewrite app_assoc_s in Hf.
    destruct (scan_plain_line l _ fuel cur Hl Hf) as (f1 & cur1 & Hf1 & Hr1 & E1).
    destruct (IH f1 cur1 Hp Hf1) as (f2 & cur2 & Hf2 & Hr2 & E2).
    exists f2, cur2. split; [exact Hf2|]. split.
    + rewrite Hr2, Hr1, app_assoc_s. reflexivity.
    + rewrite E1. exact E2.
Qed.

(** From the start of a chapter on, the sections are the titles and
    the bodies of the chapters, after the text gathered so far. *)
Lemma re_split_chapters chapters fuel cur :
  forallb Layout.well_formed chapters = true ->
  String.length (Py.concat (map Layout.chapter_text chapters)) < fuel ->
  Splitter.re_split_from fuel true cur (Py.concat (map Layout.chapter_text chapters))
  = Py.rev cur :: Layout.sections_of chapters.
Proof.
  revert fuel cur. induction chapters as [|c chapters IH]; intros fuel cur Hw Hf.
  - destruct fuel as [|f]; [simpl in Hf; lia|]. reflexivity.
  - simpl in Hw. apply andb_true_iff in Hw as [Hc Hw].
    destruct (well_formed_parts c Hc) as (_ & _ & _ & _ & Hbody).
    cbn [map Py.concat] in Hf |- *.
    set (rest := Py.concat (map Layout.chapter_text chapters)) in *.
    unfold Layout.chapter_text, ln in Hf |- *.
    norm_str. norm_str_in Hf.
    destruct fuel as [|f]; [simpl in Hf; lia|].
    cbn [Splitter.re_split_from].
    rewrite (match_h1_heading c _ Hc).
    unfold Layout.sections_of. cbn [flat_map app]. f_equal. f_equal.
    assert (Hlen : String.length (String Py.LF (Layout.lines_text (Layout.body c) +:+ rest)) < f).
    { repeat (rewrite length_app_s in Hf || cbn [String.length] in Hf).
      cbn [String.length]. rewrite length_app_s. lia. }
    destruct f as [|f]; [simpl in Hlen; lia|].
    rewrite re_split_step by reflexivity.
    change (Ascii.eqb Py.LF Py.LF) with true.
    destruct (scan_plain_lines (Layout.body c) rest f (String Py.LF "") Hbody
                ltac:(simpl in Hlen; lia)) as (f' & cur' & Hf' & Hr & E).
    rewrite E, (IH f' cur' Hw Hf'), Hr. reflexivity.
Qed.

(** The sections of a well-formed document: the preamble, then title
    and body of each chapter. *)
Lemma re_split_document preamble chapters :
  forallb Layout.plain_line preamble = true ->
  forallb Layout.well_formed chapters = true ->
  Splitter.re_split_h1 (Layout.document preamble chapters)
  = Layout.lines_text preamble :: Layout.sections_of chapters.
Proof.
  intros Hp Hw. unfold Splitter.re_split_h1, Layout.document.
  destruct (scan_plain_lines preamble (Py.concat (map Layout.chapter_text chapters))
              _ "" Hp (Nat.lt_succ_diag_r _)) as (f' & cur' & Hf' & Hr & E).
  rewrite E, (re_split_chapters chapters f' cur' Hw Hf'), Hr. reflexivity.
Qed.

Lemma span_split f t : t = fst (Splitter.span f t) +:+ snd (Splitter.span f t).
Proof.
  induction t as [|c t IH]; [reflexivity|].
  simpl. destruct (f c); [|reflexivity].
  destruct (Splitter.span f t) as [a b]. simpl in *. rewrite app_String, <- IH.
  reflexivity.
Qed.

Lemma length_drop j s : String.length (Py.drop j s) <= String.length s.
Proof.
  revert s. induction j as [|j IH]; intros s; [reflexivity|].
  destruct s as [|c s]; [reflexivity|]. simpl. specialize (IH s). lia.
Qed.

Lemma title_at_shorter q title rest :
  Splitter.title_at q = Some (title, rest) -> String.length rest < String.length q.
Proof.
  unfold Splitter.title_at. pose proof (span_split Splitter.not_lf q) as Hq.
  destruct (Splitter.span Splitter.not_lf q) as [a b]. simpl in Hq.
  destruct a as [|c a]; [discriminate|]. intros E. injection E as <- <-.
  rewrite Hq, length_app_s. simpl. lia.
Qed.

Lemma backtrack_shorter j ws r title rest :
  Splitter.backtrack j ws r = Some (title, rest) ->
  String.length rest < String.length ws + String.length r.
Proof.
  induction j as [|j IH]; [discriminate|].
  cbn [Splitter.backtrack].
  destruct (Splitter.title_at (Py.drop (S j) ws +:+ r)) as [[t' r']|] eqn:T.
  - intros E. injection E as <- <-. apply title_at_shorter in T.
    rewrite length_app_s in T. pose proof (length_drop (S j) ws). lia.
  - exact IH.
Qed.

(** A match of the heading pattern consumes text. *)
Lemma match_h1_shorter s title rest :
  Splitter.match_h1 s = Some (title, rest) -> String.length rest < String.length s.
Proof.
  unfold Splitter.match_h1. destruct s as [|c t]; [discriminate|].
  destruct (Ascii.eqb c "#"); [|discriminate].
  pose proof (span_split Py.isspace t) as Ht.
  destruct (Splitter.span Py.isspace t) as [ws r]. simpl in Ht.
  intros B. apply backtrack_shorter in B.
  rewrite Ht. cbn [String.length]. rewrite length_app_s. lia.
Qed.

(** The scan of [re.split] ends before its fuel does: any fuel above
    the length of the text gives the same sections. *)
Lemma re_split_fuel fuel1 fuel2 bol cur s :
  String.length s < fuel1 -> String.length s < fuel2 ->
  Splitter.re_split_from fuel1 bol cur s = Splitter.re_split_from fuel2 bol cur s.
Proof.
  revert fuel2 bol cur s. induction fuel1 as [|f1 IH]; intros fuel2 bol cur s H1 H2; [lia|].
  destruct fuel2 as [|f2]; [lia|].
  cbn [Splitter.re_split_from].
  destruct (if bol then Splitter.match_h1 s else None) as [[title rest]|] eqn:M.
  - destruct bol; [|discriminate]. apply match_h1_shorter in M.
    f_equal. f_equal. apply IH; lia.
  - destruct s as [|c t]; [reflexivity|]. simpl in H1, H2. apply IH; lia.
Qed.

Lemma sections_of_length chapters :
  length (Layout.sections_of chapters) = length chapters * 2.
Proof.
  unfold Layout.sections_of. induction chapters as [|c cs IH]; [reflexivity|].
  cbn [flat_map app length]. rewrite IH. reflexivity.
Qed.

Lemma odd_half n : (n * 2 + 1) / 2 = n.
Proof. rewrite Nat.div_add_l by lia. simpl. lia. Qed.

(** The loop writes the files of the chapters, one after the other. *)
Lemma write_chapters_sections md_path chapters n output_files w :
  Forall (fun p => can_write (abspath p) = true)
    (map fst (Layout.chapter_files md_path n chapters)) ->
  Splitter.write_chapters md_path (n * 2 + 1) (Layout.sections_of chapters)
    output_files w
  = (inr (output_files ++ map fst (Layout.chapter_files md_path n chapters)),
     Layout.written (Layout.chapter_files md_path n chapters) w).
Proof.
  revert n output_files w. induction chapters as [|c cs IH];
    intros n output_files w Hcan.
  - simpl. rewrite app_nil_r. reflexivity.
  - cbn [Layout.chapter_files map fst] in Hcan.
    inversion Hcan as [|? ? Hc Hrest]; subst.
    unfold Layout.sections_of. cbn [flat_map app]. fold (Layout.sections_of cs).
    cbn [Splitter.write_chapters].
    unfold bind at 1. unfold Splitter.write_chapter.
    unfold bind at 1. unfold write_text at 1. rewrite odd_half, Hc.
    unfold bind at 1. unfold path_exists at 1. cbn [files].
    rewrite lookup_insert_eq.
    rewrite bool_decide_eq_true_2 by (eexists; reflexivity).
    cbn [negb]. unfold ret at 1.
    replace (n * 2 + 1 + 2) with (S n * 2 + 1) by lia.
    rewrite (IH _ _ _ Hrest). cbn [Layout.chapter_files map fst Layout.written].
    rewrite <- app_assoc. reflexivity.
Qed.

(** X1. On a well-formed document, a preamble of plain lines and [k]
    well-formed chapters, whose chapter files can all be written, the
    splitter succeeds, reports and writes [k] files, one per chapter and
    in order, each made of [# ], the chapter's title, a blank line, and
    the text that follows the heading line; nothing of the preamble goes
    into them. *)
Theorem split_well_formed_document md_path preamble chapters w :
  files w !! abspath md_path = Some (Text (Layout.document preamble chapters)) ->
  forallb Layout.plain_line preamble = true ->
  forallb Layout.well_formed chapters = true ->
  Forall (fun p => can_write (abspath p) = true)
    (map fst (Layout.chapter_files md_path 0 chapters)) ->
  Splitter.split_markdown md_path w
  = (Success {| Splitter.split_files :=
                  map fst (Layout.chapter_files md_path 0 chapters);
                Splitter.chapters_reported := length chapters |},
     Layout.written (Layout.chapter_files md_path 0 chapters)
       {| files := files w; trace := trace w ++ [EvRead (abspath md_path)] |}).
Proof.
  intros Hfile Hp Hw Hcan.
  unfold Splitter.split_markdown, catch, Splitter.split_markdown_body.
  unfold bind at 1. unfold path_exists. rewrite Hfile.
  rewrite bool_decide_eq_true_2 by (eexists; reflexivity). cbn [negb].
  unfold bind at 1. unfold read_text. rewrite Hfile.
  rewrite (re_split_document preamble chapters Hp Hw). cbn [tail].
  unfold bind at 1.
  rewrite (write_chapters_sections md_path chapters 0 [] _ Hcan).
  unfold ret. cbn [app length].
  rewrite sections_of_length.
  replace (S (length chapters * 2) / 2) with (length chapters)
    by (replace (S (length chapters * 2)) with (length chapters * 2 + 1) by lia;
        symmetry; apply odd_half).
  reflexivity.
Qed.

End SplitWellFormed.

(** ** The chapter splitter *)

Section Splitting.

(** The theorem on a preamble line and two chapters. *)
Lemma split_well_formed_document_witness :
  let chapters := [ {| Layout.space := " "; Layout.title := "One"; Layout.body := ["a"] |};
                    {| Layout.space := " "; Layout.title := "Two"; Layout.body := ["b"] |} ] in
  let w := one_file "/book/draft.md" (Layout.document ["preamble"] chapters) in
  Layout.document ["preamble"] chapters
  = ln "preamble" +:+ ln "# One" +:+ ln "a" +:+ ln "# Two" +:+ ln "b"
  /\ Forall (fun p => can_write (Runtime := posix_runtime)
                       (abspath (Runtime := posix_runtime) p) = true)
       (map fst (Layout.chapter_files "/book/draft.md" 0 chapters))
  /\ fst (Splitter.split_markdown (H := posix_runtime) "/book/draft.md" w)
     = Success {| Splitter.split_files := ["/book/01-One.md"; "/book/02-Two.md"];
                  Splitter.chapters_reported := 2 |}.
Proof.
  intros chapters w. split; [reflexivity|].
  assert (Hcan : Forall (fun p => can_write (Runtime := posix_runtime)
                                    (abspath (Runtime := posix_runtime) p) = true)
                   (map fst (Layout.chapter_files "/book/draft.md" 0 chapters)))
    by (repeat constructor).
  split; [exact Hcan|].
  rewrite (split_well_formed_document (H := posix_runtime) "/book/draft.md"
             ["preamble"] chapters w eq_refl eq_refl eq_refl Hcan).
  reflexivity.
Defined.

(** A document with a preamble and two chapters. *)
Example split_two_chapters :
  let content := ln "preamble" +:+ ln "# One" +:+ ln "a" +:+ ln "# Two" +:+ ln "b" in
  let out := Splitter.split_markdown (H := posix_runtime) "/book/draft.md"
               (one_file "/book/draft.md" content) in
  Splitter.top_level_headings content = 2
  /\ fst out = Success {| Splitter.split_files := ["/book/01-One.md"; "/book/02-Two.md"];
                          Splitter.chapters_reported := 2 |}
  /\ files (snd out) !! "/book/01-One.md"
     = Some (Text (ln "# One" +:+ ln "" +:+ ln "" +:+ ln "a"))
  /\ files (snd out) !! "/book/02-Two.md"
     = Some (Text (ln "# Two" +:+ ln "" +:+ ln "" +:+ ln "b")).
Proof. vm_compute. repeat split; reflexivity. Qed.

(** C5. A heading line with an empty title, [# ] and nothing more, is
    no top-level heading with a title, yet the pattern of the splitter
    lets its white space run over the line feeds and takes the next
    line of text for the title.  The document below has one top-level
    heading with a title, [# B]; the splitter writes two chapter files,
    and the first is made of [intro], a line that precedes that
    heading. *)
Theorem split_empty_heading_takes_next_line :
  let content := ln "# " +:+ ln "" +:+ ln "intro" +:+ ln ""
                 +:+ ln "# B" +:+ ln "" +:+ ln "text" in
  let out := Splitter.split_markdown (H := posix_runtime) "/book/draft.md"
               (one_file "/book/draft.md" content) in
  Splitter.top_level_headings content = 1
  /\ Splitter.re_split_h1 content
     = [""; "intro"; ln "" +:+ ln ""; "B"; ln "" +:+ ln "" +:+ ln "text"]
  /\ fst out = Success {| Splitter.split_files := ["/book/01-intro.md"; "/book/02-B.md"];
                          Splitter.chapters_reported := 2 |}
  /\ files (snd out) !! "/book/01-intro.md"
     = Some (Text (ln "# intro" +:+ ln "" +:+ ln "" +:+ ln ""))
  /\ files (snd out) !! "/book/02-B.md"
     = Some (Text (ln "# B" +:+ ln "" +:+ ln "" +:+ ln "" +:+ ln "text")).
Proof. vm_compute. repeat split; reflexivity. Qed.

(** The same with a bare [#] line. *)
Example split_lone_hash_takes_next_line :
  Splitter.re_split_h1 (ln "#" +:+ ln "intro" +:+ ln "# B" +:+ ln "text")
  = [""; "intro"; ln ""; "B"; ln "" +:+ ln "text"].
Proof. reflexivity. Qed.

End Splitting.

(** ** The chapter merger *)

Section Merging.
Context `{Runtime}.

(** Validation only looks: it leaves the world as it found it. *)
Lemma validate_paths_pure paths acc w :
  snd (Merger.validate_paths paths acc w) = w.
Proof.
  revert acc. induction paths as [|p paths IH]; intros acc; [reflexivity|].
  cbn [Merger.validate_paths]. unfold bind, path_exists.
  destruct (bool_decide _); [|reflexivity].
  cbn [negb]. destruct (Merger.has_md_extension _); [|reflexivity].
  cbn [negb]. apply IH.
Qed.

Lemma validate_paths_rejects paths acc w p :
  In p paths ->
  files w !! abspath (abspath p) = None
  \/ Merger.has_md_extension (abspath p) = false ->
  exists e q,
    Merger.validate_paths paths acc w = (inl e, w)
    /\ In q paths
    /\ (e = FileNotFoundError (abspath q) \/ e = NotMarkdown (abspath q)).
Proof.
  revert acc. induction paths as [|a paths IH]; intros acc Hin Hbad; [destruct Hin|].
  cbn [Merger.validate_paths]. unfold bind, path_exists.
  destruct (bool_decide (is_Some (files w !! abspath (abspath a)))) eqn:Ex.
  - cbn [negb]. destruct (Merger.has_md_extension (abspath a)) eqn:Md.
    + cbn [negb]. destruct Hin as [-> | Hin].
      * exfalso. apply bool_decide_eq_true in Ex. destruct Hbad as [Hn | Hm].
        -- rewrite Hn in Ex. destruct Ex as [? ?]. discriminate.
        -- rewrite Hm in Md. discriminate.
      * destruct (IH (acc ++ [abspath a]) Hin Hbad) as (e & q & E & Hq & D).
        exists e, q. split; [exact E|]. split; [right; exact Hq | exact D].
    + exists (NotMarkdown (abspath a)), a.
      split; [reflexivity|]. split; [left; reflexivity | right; reflexivity].
  - exists (FileNotFoundError (abspath a)), a.
    split; [reflexivity|]. split; [left; reflexivity | left; reflexivity].
Qed.

(** C1, as the code has it. The merger never rejects a list for
    being empty.  Where the output path can be written, merging an empty
    list of paths succeeds: it reports zero merged chapters and writes
    an empty file at the output path.  Where it cannot, the call fails
    with the error of [open], which is no error about the argument, and
    no file changes. *)
Theorem merge_empty_list_writes_empty_file out w :
  Merger.call (Some (Merger.PathList [])) out w
  = if can_write (abspath (default "merged.md" out))
    then (Success {| Merger.merged_path := abspath (default "merged.md" out);
                     Merger.merged_count := 0;
                     Merger.merged_files := [] |},
          {| files := <[abspath (default "merged.md" out) := Text ""]> (files w);
             trace := trace w ++ [EvWrite (abspath (default "merged.md" out))] |})
    else (Failed (OSError (default "merged.md" out)), w).
Proof.
  unfold Merger.call, catch, Merger.merge_chapters.
  cbn [Merger.validate_paths Merger.merge_loop]. unfold bind, ret, write_text.
  destruct (can_write (abspath (default "merged.md" out))); reflexivity.
Qed.

(** C8. The merger checks every path, for existence and for the
    markup extension (on the absolute path, whatever the case of its
    letters), before it reads or writes: when some path of the list is
    missing or has another extension, the tool fails with an error
    naming an offending path, and the world, its files and the trace of
    reads and writes, is as before. *)
Theorem merge_validates_before_any_io paths out w p :
  In p paths ->
  files w !! abspath (abspath p) = None
  \/ Merger.has_md_extension (abspath p) = false ->
  exists e q,
    Merger.call (Some (Merger.PathList paths)) out w = (Failed e, w)
    /\ In q paths
    /\ (e = FileNotFoundError (abspath q) \/ e = NotMarkdown (abspath q)).
Proof.
  intros Hin Hbad.
  destruct (validate_paths_rejects paths [] w p Hin Hbad) as (e & q & E & Hq & D).
  exists e, q. split; [|split; assumption].
  unfold Merger.call, catch, Merger.merge_chapters, bind. rewrite E. reflexivity.
Qed.

End Merging.

(** C1, refuted as stated: on an empty list the merger does not fail,
    and the output file is there afterwards. *)
Lemma merge_empty_list_not_rejected :
  let out := Merger.call (H := posix_runtime) (Some (Merger.PathList []))
               (Some "/book/merged.md") empty_world in
  ~ ((exists e, fst out = Failed e /\ class_of e = InvalidArgument)
     /\ files (snd out) !! "/book/merged.md" = None).
Proof.
  vm_compute. intros [[e [He _]] _]. discriminate He.
Qed.

(** A list with one [.txt] path among existing files: rejected, nothing
    read, nothing written. *)
Lemma merge_validates_before_any_io_witness :
  let w := {| files := {[ "/book/01-a.md" := Text "A"; "/book/notes.txt" := Text "N" ]};
              trace := [] |} in
  In "/book/notes.txt" ["/book/01-a.md"; "/book/notes.txt"]
  /\ (files w !! "/book/notes.txt" = None
      \/ Merger.has_md_extension "/book/notes.txt" = false)
  /\ exists e q,
       Merger.call (H := posix_runtime)
         (Some (Merger.PathList ["/book/01-a.md"; "/book/notes.txt"])) None w
       = (Failed e, w)
       /\ In q ["/book/01-a.md"; "/book/notes.txt"]
       /\ (e = FileNotFoundError q \/ e = NotMarkdown q).
Proof.
  intros w.
  assert (Hin : In "/book/notes.txt" ["/book/01-a.md"; "/book/notes.txt"])
    by (right; left; reflexivity).
  assert (Hbad : files w !! "/book/notes.txt" = None
                 \/ Merger.has_md_extension "/book/notes.txt" = false)
    by (right; reflexivity).
  split; [exact Hin|]. split; [exact Hbad|].
  exact (merge_validates_before_any_io (H := posix_runtime)
           ["/book/01-a.md"; "/book/notes.txt"] None w "/book/notes.txt" Hin Hbad).
Defined.

(** Two chapters merged in order, with the rule between them. *)
Example merge_two_chapters :
  let w := {| files := {[ "/book/01-a.md" := Text (ln "# A"); "/book/02-b.md" := Text (ln "# B") ]};
              trace := [] |} in
  let out := Merger.call (H := posix_runtime)
               (Some (Merger.PathList ["/book/01-a.md"; "/book/02-b.md"]))
               (Some "/book/all.md") w in
  fst out = Success {| Merger.merged_path := "/book/all.md"; Merger.merged_count := 2;
                       Merger.merged_files := ["01-a.md"; "02-b.md"] |}
  /\ files (snd out) !! "/book/all.md" = Some (Text ("# A" +:+ Merger.RULE +:+ "# B"))
  /\ trace (snd out) = [EvRead "/book/01-a.md"; EvRead "/book/02-b.md"; EvWrite "/book/all.md"].
Proof. vm_compute. repeat split; reflexivity. Qed.

(** ** Batches of edit operations *)

Section Batches.
Context `{Runtime}.

Ltac run_monad :=
  unfold bind, lift, ret, raise, log_edit_operation in *; cbn [fst snd files trace] in *.

(** An operation of unknown type raises, whatever the buffer. *)
Lemma apply_operation_unknown p op buffer w :
  Editor.known_type (Editor.op_type op) = false ->
  Editor.apply_operation p op buffer w
  = (inl (UnknownOperation (Editor.op_type op)), w).
Proof.
  unfold Editor.known_type. intros Hk.
  apply orb_false_elim in Hk as [Hk Hw]. apply orb_false_elim in Hk as [Hr Hi].
  unfold Editor.apply_operation. rewrite Hr, Hi, Hw. reflexivity.
Qed.

(** An operation touches the buffer and the trace, never the files. *)
Lemma apply_operation_files p op buffer w :
  files (snd (Editor.apply_operation p op buffer w)) = files w.
Proof.
  unfold Editor.apply_operation. run_monad.
  destruct (String.eqb (Editor.op_type op) "replace").
  - destruct (Editor.replace_content _ _ _ _) as [e|[[nc mc] oc]]; [reflexivity|].
    destruct (0 <? mc); reflexivity.
  - destruct (String.eqb (Editor.op_type op) "insert").
    + destruct (Editor.insert_content _ _ _ _ _) as [e|[nc ch]]; [reflexivity|].
      destruct ch; reflexivity.
    + destruct (String.eqb (Editor.op_type op) "rewrite"); [|reflexivity].
      destruct (Editor.rewrite_content _ _ _ _) as [[nc ch] oc].
      destruct ch; reflexivity.
Qed.

Lemma operations_loop_files p ops buffer m ds w :
  files (snd (Editor.operations_loop p ops buffer m ds w)) = files w.
Proof.
  revert buffer m ds w. induction ops as [|op ops IH]; intros buffer m ds w; [reflexivity|].
  cbn [Editor.operations_loop]. unfold bind.
  pose proof (apply_operation_files p op buffer w) as Hf.
  destruct (Editor.apply_operation p op buffer w) as [[e|[[nc ch] d]] w1]; cbn [snd] in Hf.
  - exact Hf.
  - rewrite IH. exact Hf.
Qed.

(** The loop over a concatenation runs the first part, then the second
    from where the first one stopped; an exception ends it. *)
Lemma operations_loop_app p pre rest buffer m ds w :
  Editor.operations_loop p (pre ++ rest) buffer m ds w
  = match Editor.operations_loop p pre buffer m ds w with
    | (inr (buffer', m', ds'), w') => Editor.operations_loop p rest buffer' m' ds' w'
    | (inl e, w') => (inl e, w')
    end.
Proof.
  revert buffer m ds w. induction pre as [|op pre IH]; intros buffer m ds w; [reflexivity|].
  cbn [app Editor.operations_loop]. unfold bind.
  destruct (Editor.apply_operation p op buffer w) as [[e|[[nc ch] d]] w1]; [reflexivity|].
  apply IH.
Qed.

(** The loop stops at an operation of unknown type, with the
    exception and the world it has there; what follows is not run. *)
Lemma operations_loop_unknown p pre bad post buffer m ds w :
  Editor.known_type (Editor.op_type bad) = false ->
  exists e w',
    Editor.operations_loop p (pre ++ bad :: post) buffer m ds w = (inl e, w')
    /\ Editor.operations_loop p (pre ++ [bad]) buffer m ds w = (inl e, w')
    /\ (e = UnknownOperation (Editor.op_type bad)
        \/ Editor.operations_loop p pre buffer m ds w = (inl e, w')).
Proof.
  intros Hk. rewrite !operations_loop_app.
  destruct (Editor.operations_loop p pre buffer m ds w) as [[e|[[b1 m1] ds1]] w1].
  - exists e, w1. repeat split. right. reflexivity.
  - exists (UnknownOperation (Editor.op_type bad)), w1.
    cbn [Editor.operations_loop]. unfold bind.
    rewrite (apply_operation_unknown p bad b1 w1 Hk).
    repeat split. left. reflexivity.
Qed.

(** C4. An operation whose type is none of replace, insert and rewrite
    makes the batch fail, and the file system after the failure is the
    one before the batch: the edited file is not written, whatever the
    operations before it did to the buffer.  The failure comes at that
    operation: the operations after it do not matter, and the error
    names the unknown type unless the batch had failed before reaching
    it. *)
Theorem unknown_operation_aborts_unwritten p pre bad post w :
  Editor.known_type (Editor.op_type bad) = false ->
  exists e w',
    Editor.process_operations p (pre ++ bad :: post) w = (Failed e, w')
    /\ files w' = files w
    /\ Editor.process_operations p (pre ++ [bad]) w = (Failed e, w')
    /\ (e = UnknownOperation (Editor.op_type bad)
        \/ Editor.process_operations p pre w = (Failed e, w')).
Proof.
  intros Hk.
  unfold Editor.process_operations, catch, Editor.process_operations_body.
  unfold bind at 1 5 9. unfold path_exists.
  destruct (bool_decide (is_Some (files w !! abspath p))); cbn [negb].
  2:{ exists (FileNotFoundError p), w. unfold raise. repeat split. right. reflexivity. }
  unfold bind at 1 4 7. unfold read_text.
  destruct (files w !! abspath p) as [[text|d]|].
  - set (w1 := {| files := files w; trace := trace w ++ [EvRead (abspath p)] |}).
    destruct (operations_loop_unknown p pre bad post (Py.readlines text) false [] w1 Hk)
      as (e & w' & E1 & E2 & D).
    exists e, w'. unfold bind. rewrite E1, E2.
    pose proof (operations_loop_files p (pre ++ bad :: post) (Py.readlines text) false [] w1) as Hf.
    rewrite E1 in Hf. cbn [snd] in Hf.
    repeat split; [exact Hf|].
    destruct D as [-> | D]; [left; reflexivity | right; rewrite D; reflexivity].
  - exists (UnicodeDecodeError p), w. repeat split. right. reflexivity.
  - exists (FileNotFoundError p), w. repeat split. right. reflexivity.
Qed.

End Batches.

Lemma unknown_operation_aborts_unwritten_witness :
  let w := one_file "/book/ch.md" (ln "foo") in
  let fix_op := {| Editor.op_type := "replace"; Editor.target := "foo";
                   Editor.content := "bar"; Editor.position := None;
                   Editor.op_options := Editor.no_options |} in
  let bad := {| Editor.op_type := "delete"; Editor.target := "foo";
                Editor.content := ""; Editor.position := None;
                Editor.op_options := Editor.no_options |} in
  Editor.known_type (Editor.op_type bad) = false
  /\ exists e w',
       Editor.process_operations (H := posix_runtime) "/book/ch.md"
         ([fix_op] ++ bad :: []) w = (Failed e, w')
       /\ files w' = files w
       /\ Editor.process_operations (H := posix_runtime) "/book/ch.md"
            ([fix_op] ++ [bad]) w = (Failed e, w')
       /\ (e = UnknownOperation (Editor.op_type bad)
           \/ Editor.process_operations (H := posix_runtime) "/book/ch.md"
                [fix_op] w = (Failed e, w')).
Proof.
  intros w fix_op bad. split; [reflexivity|].
  exact (unknown_operation_aborts_unwritten (H := posix_runtime) "/book/ch.md"
           [fix_op] bad [] w eq_refl).
Defined.

(** The same batch, run: the replace is applied and logged, the
    unknown type is reported, and the file still reads [foo]. *)
Example unknown_operation_after_replace :
  let w := one_file "/book/ch.md" (ln "foo") in
  let out := Editor.call (H := posix_runtime) (Some "/book/ch.md")
      (Some [ {| Editor.op_type := "replace"; Editor.target := "foo";
                 Editor.content := "bar"; Editor.position := None;
                 Editor.op_options := Editor.no_options |};
              {| Editor.op_type := "delete"; Editor.target := "foo";
                 Editor.content := ""; Editor.position := None;
                 Editor.op_options := Editor.no_options |} ]) w in
  fst out = Failed (UnknownOperation "delete")
  /\ files (snd out) !! "/book/ch.md" = Some (Text (ln "foo"))
  /\ trace (snd out) = [EvRead "/book/ch.md";
                        EvLog "/book/ch.md" "replace" "foo" "bar" None].
Proof. vm_compute. repeat split; reflexivity. Qed.

Section Totals.
Context `{Runtime}.

Lemma sum_modified_snoc ds d :
  Editor.sum_modified (ds ++ [d]) = Editor.sum_modified ds + Editor.counted d.
Proof.
  unfold Editor.sum_modified. induction ds as [|x ds IH]; simpl; [lia|].
  rewrite IH. lia.
Qed.

(** A positive count comes with the line it was last taken from. *)
Lemma replace_loop_old regex tgt new lines acc n old nl n' old' :
  Editor.replace_loop regex tgt new lines acc n old = inr (nl, n', old') ->
  (0 < n -> is_Some old) -> 0 < n' -> is_Some old'.
Proof.
  revert acc n old. induction lines as [|line lines IH]; intros acc n old E Hn.
  - simpl in E. injection E as <- <- <-. exact Hn.
  - cbn [Editor.replace_loop] in E. destruct regex.
    + destruct (re_findall_count tgt line) as [[|k]|]; [| |discriminate].
      * apply (IH _ _ _ E Hn).
      * destruct (re_sub tgt new line); [|discriminate].
        apply (IH _ _ _ E). intros _. eexists. reflexivity.
    + destruct (Py.contains tgt line).
      * apply (IH _ _ _ E). intros _. eexists. reflexivity.
      * apply (IH _ _ _ E Hn).
Qed.

(** One turn of the batch adds to the total what its record counts. *)
Lemma apply_operation_total p op rest buffer w nc ch d w1 :
  Editor.apply_operation p op buffer w = (inr (nc, ch, d), w1) ->
  Spec.replace_total (op :: rest) buffer
  = Editor.counted d + Spec.replace_total rest nc.
Proof.
  unfold Editor.apply_operation, bind, lift, ret, raise, log_edit_operation.
  cbn [Spec.replace_total].
  destruct (String.eqb (Editor.op_type op) "replace") eqn:Hr.
  - destruct (Editor.replace_content buffer _ _ _) as [e|[[nc0 mc] oc]] eqn:RC;
      [discriminate|].
    assert (Hold : 0 < mc -> is_Some oc).
    { apply (replace_loop_old _ _ _ _ _ _ _ _ _ _ RC). intros Hlt. inversion Hlt. }
    assert (Hc : forall pos num,
      Editor.counted
        {| Editor.d_type := Editor.op_type op; Editor.d_target := Editor.target op;
           Editor.d_content := Editor.content op; Editor.d_position := pos;
           Editor.d_old_content := if 0 <? mc then oc else None;
           Editor.d_modified_count := Some mc; Editor.d_line_number := num |} = mc).
    { intros pos num. unfold Editor.counted.
      cbn [Editor.d_type Editor.d_old_content Editor.d_modified_count].
      rewrite Hr. destruct (0 <? mc) eqn:Hmc.
      - apply Nat.ltb_lt in Hmc. destruct (Hold Hmc) as [x ->]. reflexivity.
      - apply Nat.ltb_ge in Hmc. reflexivity || (simpl; lia). }
    destruct (0 <? mc) eqn:Hmc; intros E; injection E as <- _ <- _;
      cbn [Editor.d_type Editor.d_target Editor.d_content Editor.d_position
           Editor.d_old_content Editor.d_modified_count];
      rewrite <- Hmc, Hc; reflexivity.
  - destruct (String.eqb (Editor.op_type op) "insert") eqn:Hi.
    + destruct (Editor.insert_content buffer _ _ _ _) as [e|[nc0 ch0]];
        [discriminate|].
      destruct ch0; intros E; injection E as <- _ <- _;
        unfold Editor.counted; cbn; rewrite Hr; reflexivity.
    + destruct (String.eqb (Editor.op_type op) "rewrite") eqn:Hw; [|discriminate].
      destruct (Editor.rewrite_content buffer _ _ _) as [[nc0 ch0] oc].
      destruct ch0; intros E; injection E as <- _ <- _;
        unfold Editor.counted; cbn; rewrite Hr; reflexivity.
Qed.

Lemma operations_loop_total p ops buffer m ds w buffer' m' ds' w' :
  Editor.operations_loop p ops buffer m ds w = (inr (buffer', m', ds'), w') ->
  Editor.sum_modified ds' = Editor.sum_modified ds + Spec.replace_total ops buffer.
Proof.
  revert buffer m ds w. induction ops as [|op ops IH]; intros buffer m ds w E.
  - simpl in E. injection E as _ _ <- _. simpl. lia.
  - cbn [Editor.operations_loop] in E. unfold bind in E.
    destruct (Editor.apply_operation p op buffer w) as [[e|[[nc ch] d]] w1] eqn:A;
      [discriminate|].
    rewrite (IH _ _ _ _ E), sum_modified_snoc.
    rewrite (apply_operation_total p op ops buffer w nc ch d w1 A). lia.
Qed.

Lemma insert_loop_literal_total tgt cont pos i lines acc ch :
  exists r, Editor.insert_loop false tgt cont pos i lines acc ch = inr r.
Proof.
  revert i acc ch. induction lines as [|l lines IH]; intros i acc ch.
  - eexists. reflexivity.
  - cbn [Editor.insert_loop]. destruct (Py.contains tgt l); apply IH.
Qed.

(** An operation of a known type with a literal target goes through. *)
Lemma apply_operation_literal_total p op buffer w :
  Editor.known_type (Editor.op_type op) = true ->
  default false (Editor.is_regex (Editor.op_options op)) = false ->
  exists r w', Editor.apply_operation p op buffer w = (inr r, w').
Proof.
  intros Hk Hlit.
  unfold Editor.apply_operation, bind, lift, ret, raise, log_edit_operation.
  destruct (String.eqb (Editor.op_type op) "replace") eqn:Hr.
  - unfold Editor.replace_content. rewrite Hlit.
    destruct (replace_loop_literal (Editor.target op) (Editor.content op) buffer [] 0 None)
      as [old ->].
    destruct (0 <? _); eexists; eexists; reflexivity.
  - destruct (String.eqb (Editor.op_type op) "insert") eqn:Hi.
    + unfold Editor.insert_content. rewrite Hlit.
      destruct (insert_loop_literal_total (Editor.target op) (Editor.content op)
                  (default "after" (Editor.position op)) 0 buffer [] false)
        as [[nc ch] ->].
      destruct ch; eexists; eexists; reflexivity.
    + destruct (String.eqb (Editor.op_type op) "rewrite") eqn:Hw.
      * destruct (Editor.rewrite_content buffer _ _ _) as [[nc ch] oc].
        destruct ch; eexists; eexists; reflexivity.
      * unfold Editor.known_type in Hk. rewrite Hr, Hi, Hw in Hk. discriminate.
Qed.

Lemma operations_loop_literal_total p ops buffer m ds w :
  Forall (fun op => Editor.known_type (Editor.op_type op) = true
                    /\ default false (Editor.is_regex (Editor.op_options op)) = false)
    ops ->
  exists r w', Editor.operations_loop p ops buffer m ds w = (inr r, w').
Proof.
  intros Hall. revert buffer m ds w.
  induction Hall as [|op ops [Hk Hlit] _ IH]; intros buffer m ds w.
  - eexists; eexists; reflexivity.
  - cbn [Editor.operations_loop]. unfold bind.
    destruct (apply_operation_literal_total p op buffer w Hk Hlit)
      as ([[nc ch] d] & w1 & ->).
    apply IH.
Qed.

(** C7. When a batch completes, the modified positions it reports are
    the sum of the match counts of its replace operations, each taken
    on the buffer as the operations before it left it; insert and
    rewrite operations pass the buffer on and add nothing. *)
Theorem modified_positions_sums_replace_counts p ops w r w' :
  Editor.process_operations p ops w = (Success r, w') ->
  exists text,
    files w !! abspath p = Some (Text text)
    /\ Editor.modified_positions r = Spec.replace_total ops (Py.readlines text).
Proof.
  unfold Editor.process_operations, catch, Editor.process_operations_body.
  unfold bind at 1. unfold path_exists.
  destruct (bool_decide (is_Some (files w !! abspath p))); cbn [negb];
    [|discriminate].
  unfold bind at 1. unfold read_text.
  destruct (files w !! abspath p) as [[text|d]|]; [|discriminate|discriminate].
  unfold bind at 1.
  destruct (Editor.operations_loop p ops (Py.readlines text) false [] _)
    as [[e|[[nc md] ds]] w1] eqn:L; [discriminate|].
  unfold bind, ret, write_text. intros E.
  exists text. split; [reflexivity|].
  pose proof (operations_loop_total _ _ _ _ _ _ _ _ _ _ L) as T.
  cbn in T.
  destruct md; [destruct (can_write (abspath p)); [|discriminate]|];
    injection E as <- _; cbn; exact T.
Qed.

End Totals.

(** A batch of a replace, an insert and a rewrite on a two-line file:
    the three replaced occurrences are the modified positions. *)
Lemma modified_positions_sums_replace_counts_witness :
  let w := one_file "/book/ch.md" (ln "foo foo" +:+ ln "a foo") in
  let ops :=
    [ {| Editor.op_type := "replace"; Editor.target := "foo";
         Editor.content := "bar"; Editor.position := None;
         Editor.op_options := Editor.no_options |};
      {| Editor.op_type := "insert"; Editor.target := "a bar";
         Editor.content := "NEW"; Editor.position := Some "before";
         Editor.op_options := Editor.no_options |};
      {| Editor.op_type := "rewrite"; Editor.target := "bar bar";
         Editor.content := "baz"; Editor.position := None;
         Editor.op_options := Editor.no_options |} ] in
  exists r w',
    Editor.process_operations (H := posix_runtime) "/book/ch.md" ops w = (Success r, w')
    /\ Editor.modified_positions r = 3
    /\ files w' !! "/book/ch.md" = Some (Text (ln "baz" +:+ ln "NEW" +:+ ln "a bar"))
    /\ exists text,
         files w !! "/book/ch.md" = Some (Text text)
         /\ Editor.modified_positions r
            = Spec.replace_total (H := posix_runtime) ops (Py.readlines text).
Proof.
  intros w ops.
  destruct (Editor.process_operations (H := posix_runtime) "/book/ch.md" ops w)
    as [[r|e] w'] eqn:E.
  - exists r, w'. split; [reflexivity|].
    pose proof E as E2. vm_compute in E2. injection E2 as <- <-.
    split; [reflexivity|]. split; [vm_compute; reflexivity|].
    exact (modified_positions_sums_replace_counts (H := posix_runtime)
             "/book/ch.md" ops w _ _ E).
  - vm_compute in E. discriminate E.
Defined.

(** ** Tables at the end of a markup file *)

Section TrailingTable.
Context `{Runtime}.

(** A table row only grows the pending buffer. *)
Lemma step_table_row md_path st raw w :
  Converter.is_table_row (Py.strip raw) = true ->
  exists rows,
    Converter.step md_path st raw w
    = (inr {| Converter.doc := Converter.doc st;
              Converter.current_para := Converter.current_para st;
              Converter.in_table := true;
              Converter.table_rows := rows |}, w).
Proof.
  intros Hrow. unfold Converter.step. rewrite Hrow. eexists. reflexivity.
Qed.

Lemma convert_table_rows md_path tbl st w :
  Forall (fun raw => Converter.is_table_row (Py.strip raw) = true) tbl ->
  exists st',
    Converter.convert_lines md_path tbl st w = (inr st', w)
    /\ Converter.doc st' = Converter.doc st.
Proof.
  intros Hall. revert st. induction Hall as [|raw tbl Hrow _ IH]; intros st.
  - exists st. split; reflexivity.
  - cbn [Converter.convert_lines]. unfold bind.
    destruct (step_table_row md_path st raw w Hrow) as [rows ->].
    destruct (IH {| Converter.doc := Converter.doc st;
                    Converter.current_para := Converter.current_para st;
                    Converter.in_table := true;
                    Converter.table_rows := rows |}) as (st' & E & D).
    exists st'. split; [exact E | exact D].
Qed.

Lemma convert_lines_app md_path pre rest st w :
  Converter.convert_lines md_path (pre ++ rest) st w
  = match Converter.convert_lines md_path pre st w with
    | (inr st', w') => Converter.convert_lines md_path rest st' w'
    | (inl e, w') => (inl e, w')
    end.
Proof.
  revert st w. induction pre as [|raw pre IH]; intros st w; [reflexivity|].
  cbn [app Converter.convert_lines]. unfold bind.
  destruct (Converter.step md_path st raw w) as [[e|st1] w1]; [reflexivity|].
  apply IH.
Qed.

(** C10. Table rows that run to the last line of the markup file
    leave no trace in the document: the pending table is flushed only by
    a later line that is no table row, so the document of the lines
    [pre ++ tbl], where every line of [tbl] is a table row, is the
    document of [pre] alone; a file of table rows only gives an empty
    document. *)
Theorem trailing_table_rows_dropped md_path pre tbl w :
  Forall (fun raw => Converter.is_table_row (Py.strip raw) = true) tbl ->
  Spec.final_document md_path (pre ++ tbl) w = Spec.final_document md_path pre w
  /\ Spec.final_document md_path tbl w = inr [].
Proof.
  intros Hall. unfold Spec.final_document. split.
  - rewrite convert_lines_app.
    destruct (Converter.convert_lines md_path pre Converter.initial w)
      as [[e|st1] w1]; [reflexivity|].
    destruct (convert_table_rows md_path tbl st1 w1 Hall) as (st' & -> & ->).
    reflexivity.
  - destruct (convert_table_rows md_path tbl Converter.initial w Hall)
      as (st' & -> & ->).
    reflexivity.
Qed.

End TrailingTable.

(** A heading followed by a three-row table that ends the file: the
    document holds the heading only; one blank line more and the table
    is there. *)
Lemma trailing_table_rows_dropped_witness :
  let tbl := [ln "| a | b |"; ln "| --- | --- |"; "| 1 | 2 |"] in
  Forall (fun raw => Converter.is_table_row (Py.strip raw) = true) tbl
  /\ Spec.final_document (H := posix_runtime) "/book/ch.md" ([ln "# T"] ++ tbl) empty_world
     = inr [Heading "T" 1]
  /\ Spec.final_document (H := posix_runtime) "/book/ch.md"
       ([ln "# T"] ++ tbl ++ [ln ""]) empty_world
     = inr [Heading "T" 1; TableBlock ["a"; "b"] [["1"; "2"]]].
Proof.
  intros tbl.
  assert (Hall : Forall (fun raw => Converter.is_table_row (Py.strip raw) = true) tbl)
    by (repeat constructor).
  split; [exact Hall|]. split; [|reflexivity].
  rewrite (proj1 (trailing_table_rows_dropped (H := posix_runtime) "/book/ch.md"
                    [ln "# T"] tbl empty_world Hall)).
  reflexivity.
Defined.

(** * Further properties of the tools *)

(** ** What the insert operation keeps *)

Section InsertKeeps.
Context `{Runtime}.

Lemma py_insert_sublist {A} i (x : A) l : sublist l (Py.insert i x l).
Proof.
  unfold Py.insert. rewrite <- (firstn_skipn i l) at 1.
  apply sublist_app; [reflexivity|]. apply sublist_cons. reflexivity.
Qed.

Lemma py_insert_perm {A} i (x : A) l : Py.insert i x l ≡ₚ x :: l.
Proof.
  unfold Py.insert. rewrite <- Permutation_middle.
  rewrite (firstn_skipn i l). reflexivity.
Qed.

Lemma insert_loop_keeps regex tgt cont pos i lines acc ch new_lines changed :
  Editor.insert_loop regex tgt cont pos i lines acc ch = inr (new_lines, changed) ->
  exists k,
    new_lines ≡ₚ repeat (cont +:+ Editor.NL) k ++ acc ++ lines
    /\ sublist (acc ++ lines) new_lines
    /\ k <= length lines
    /\ changed = ch || (0 <? k).
Proof.
  revert i acc ch. induction lines as [|line lines IH]; intros i acc ch E.
  - simpl in E. injection E as <- <-. exists 0.
    rewrite app_nil_r, orb_false_r. repeat split; reflexivity.
  - cbn [Editor.insert_loop] in E.
    destruct (if regex then re_search tgt line else Some (Py.contains tgt line))
      as [[|]|]; [| |discriminate].
    + apply IH in E as (k & P & Hsub & K & C). exists (S k).
      set (acc' := if String.eqb pos "before"
                   then Py.insert i (cont +:+ Editor.NL) (acc ++ [line])
                   else Py.insert (i + 1) (cont +:+ Editor.NL) (acc ++ [line])) in *.
      assert (Pa : acc' ≡ₚ (cont +:+ Editor.NL) :: acc ++ [line])
        by (unfold acc'; destruct (String.eqb pos "before"); apply py_insert_perm).
      assert (Sa : sublist (acc ++ [line]) acc')
        by (unfold acc'; destruct (String.eqb pos "before"); apply py_insert_sublist).
      split; [|split; [|split]].
      * etransitivity; [exact P|]. cbn [repeat].
        etransitivity;
          [apply Permutation_app_head, Permutation_app_tail; exact Pa|].
        simpl. rewrite <- Permutation_middle, <- app_assoc. reflexivity.
      * etransitivity; [|exact Hsub].
        replace (acc ++ line :: lines) with ((acc ++ [line]) ++ lines)
          by (rewrite <- app_assoc; reflexivity).
        apply sublist_app; [exact Sa | reflexivity].
      * simpl. lia.
      * rewrite C. simpl. rewrite orb_true_r. reflexivity.
    + apply IH in E as (k & P & Hsub & K & C). exists k.
      rewrite <- app_assoc in P, Hsub. repeat split; try assumption. simpl. lia.
Qed.

(** X10. An insert operation, literal or by pattern, before or after, loses
    no line and reorders none: the new buffer holds the old lines in
    their order, plus some number of copies of the new line, at most one
    per old line; it reports a change exactly when it added a copy. *)
Theorem insert_keeps_every_line lines tgt cont pos opts new_lines changed :
  Editor.insert_content lines tgt cont pos opts = inr (new_lines, changed) ->
  exists k,
    new_lines ≡ₚ repeat (cont +:+ Editor.NL) k ++ lines
    /\ sublist lines new_lines
    /\ k <= length lines
    /\ changed = (0 <? k).
Proof.
  unfold Editor.insert_content. intros E.
  apply insert_loop_keeps in E as (k & P & Hsub & K & C).
  exists k. repeat split; assumption.
Qed.

End InsertKeeps.

Lemma insert_keeps_every_line_witness :
  let lines := [ln "- item one"; ln "text"; ln "- item two"] in
  exists new_lines changed k,
    Editor.insert_content (H := posix_runtime) lines "item" "NEW" "before"
      Editor.no_options = inr (new_lines, changed)
    /\ new_lines ≡ₚ repeat ("NEW" +:+ Editor.NL) k ++ lines
    /\ sublist lines new_lines
    /\ k <= length lines
    /\ changed = (0 <? k).
Proof.
  intros lines.
  destruct (Editor.insert_content (H := posix_runtime) lines "item" "NEW" "before"
              Editor.no_options) as [e|[new_lines changed]] eqn:E.
  - vm_compute in E. discriminate E.
  - destruct (insert_keeps_every_line (H := posix_runtime) lines "item" "NEW"
                "before" Editor.no_options new_lines changed E) as (k & P).
    exists new_lines, changed, k. split; [reflexivity | exact P].
Defined.

(** ** What a batch of edits does to the files *)

Section Persistence.
Context `{Runtime}.

Lemma writes_app t1 t2 : writes (t1 ++ t2) = writes t1 + writes t2.
Proof. unfold writes. rewrite filter_app, length_app. reflexivity. Qed.

Lemma writes_log a b c d n : writes [EvLog a b c d n] = 0.
Proof. reflexivity. Qed.

Lemma writes_read a : writes [EvRead a] = 0.
Proof. reflexivity. Qed.

Lemma writes_write a : writes [EvWrite a] = 1.
Proof. reflexivity. Qed.

(** One operation leaves the files alone and writes nothing. *)
Lemma apply_operation_trace p op buffer w :
  files (snd (Editor.apply_operation p op buffer w)) = files w
  /\ writes (trace (snd (Editor.apply_operation p op buffer w))) = writes (trace w).
Proof.
  unfold Editor.apply_operation, bind, lift, ret, raise, log_edit_operation.
  destruct (String.eqb (Editor.op_type op) "replace").
  - destruct (Editor.replace_content _ _ _ _) as [e|[[nc mc] oc]]; [split; reflexivity|].
    destruct (0 <? mc); cbn [snd files trace]; rewrite ?writes_app, ?writes_log;
      split; reflexivity || lia.
  - destruct (String.eqb (Editor.op_type op) "insert").
    + destruct (Editor.insert_content _ _ _ _ _) as [e|[nc ch]]; [split; reflexivity|].
      destruct ch; cbn [snd files trace]; rewrite ?writes_app, ?writes_log;
        split; reflexivity || lia.
    + destruct (String.eqb (Editor.op_type op) "rewrite"); [|split; reflexivity].
      destruct (Editor.rewrite_content _ _ _ _) as [[nc ch] oc].
      destruct ch; cbn [snd files trace]; rewrite ?writes_app, ?writes_log;
        split; reflexivity || lia.
Qed.

Lemma operations_loop_trace p ops buffer m ds w :
  files (snd (Editor.operations_loop p ops buffer m ds w)) = files w
  /\ writes (trace (snd (Editor.operations_loop p ops buffer m ds w)))
     = writes (trace w).
Proof.
  revert buffer m ds w. induction ops as [|op ops IH]; intros buffer m ds w;
    [split; reflexivity|].
  cbn [Editor.operations_loop]. unfold bind.
  pose proof (apply_operation_trace p op buffer w) as [Hf Ht].
  destruct (Editor.apply_operation p op buffer w) as [[e|[[nc ch] d]] w1];
    cbn [snd] in Hf, Ht.
  - split; assumption.
  - destruct (IH nc (m || ch) (ds ++ [d]) w1) as [Hf' Ht'].
    split; congruence.
Qed.

(** X11. However a batch fails, a missing file, an unknown operation type,
    a pattern that does not compile, a file that cannot be opened for
    writing, the file system is as before, and nothing was written. *)
Theorem failed_batch_leaves_files p ops w e w' :
  Editor.process_operations p ops w = (Failed e, w') ->
  files w' = files w /\ writes (trace w') = writes (trace w).
Proof.
  unfold Editor.process_operations, catch, Editor.process_operations_body.
  unfold bind at 1. unfold path_exists.
  destruct (bool_decide (is_Some (files w !! abspath p))); cbn [negb].
  2:{ unfold raise. intros E. injection E as _ <-. split; reflexivity. }
  unfold bind at 1. unfold read_text.
  destruct (files w !! abspath p) as [[text|d]|].
  - unfold bind at 1.
    set (w1 := {| files := files w; trace := trace w ++ [EvRead (abspath p)] |}).
    pose proof (operations_loop_trace p ops (Py.readlines text) false [] w1) as [Hf Ht].
    destruct (Editor.operations_loop p ops (Py.readlines text) false [] w1)
      as [[e1|[[nc md] ds]] w2]; cbn [snd] in Hf, Ht.
    + intros E. injection E as _ <-. split; [exact Hf|].
      rewrite Ht. unfold w1. cbn [trace]. rewrite writes_app, writes_read. lia.
    + unfold bind, ret, write_text.
      destruct md; [destruct (can_write (abspath p))|]; try discriminate.
      intros E. injection E as _ <-. split; [exact Hf|].
      rewrite Ht. unfold w1. cbn [trace]. rewrite writes_app, writes_read. lia.
  - intros E. injection E as _ <-. split; reflexivity.
  - intros E. injection E as _ <-. split; reflexivity.
Qed.

(** X12. A batch that completes changes no file but the edited one, and
    that one by a single write, made exactly when the batch reports
    [modified]. *)
Theorem completed_batch_writes_once p ops w r w' :
  Editor.process_operations p ops w = (Success r, w') ->
  exists text,
    files w' = (if Editor.modified r
                then <[abspath p := Text text]> (files w) else files w)
    /\ writes (trace w')
       = writes (trace w) + (if Editor.modified r then 1 else 0).
Proof.
  unfold Editor.process_operations, catch, Editor.process_operations_body.
  unfold bind at 1. unfold path_exists.
  destruct (bool_decide (is_Some (files w !! abspath p))); cbn [negb];
    [|discriminate].
  unfold bind at 1. unfold read_text.
  destruct (files w !! abspath p) as [[text|d]|]; [|discriminate|discriminate].
  unfold bind at 1.
  set (w1 := {| files := files w; trace := trace w ++ [EvRead (abspath p)] |}).
  pose proof (operations_loop_trace p ops (Py.readlines text) false [] w1) as [Hf Ht].
  destruct (Editor.operations_loop p ops (Py.readlines text) false [] w1)
    as [[e1|[[nc md] ds]] w2]; cbn [snd] in Hf, Ht; [discriminate|].
  unfold bind, ret, write_text.
  assert (Hw1 : writes (trace w1) = writes (trace w))
    by (unfold w1; cbn [trace]; rewrite writes_app, writes_read; lia).
  destruct md; [destruct (can_write (abspath p)); [|discriminate]|];
    intros E; injection E as <- <-; exists (Py.concat nc);
    cbn [Editor.modified files trace].
  - rewrite Hf, writes_app, writes_write, Ht, Hw1. split; reflexivity.
  - rewrite Hf, Ht, Hw1. split; [reflexivity | lia].
Qed.

End Persistence.

Lemma failed_batch_leaves_files_witness :
  let w := one_file "/book/ch.md" (ln "foo") in
  let ops := [ {| Editor.op_type := "replace"; Editor.target := "foo";
                  Editor.content := "bar"; Editor.position := None;
                  Editor.op_options := Editor.no_options |};
               {| Editor.op_type := "append"; Editor.target := "";
                  Editor.content := "x"; Editor.position := None;
                  Editor.op_options := Editor.no_options |} ] in
  exists e w',
    Editor.process_operations (H := posix_runtime) "/book/ch.md" ops w = (Failed e, w')
    /\ files w' = files w /\ writes (trace w') = writes (trace w).
Proof.
  intros w ops.
  destruct (Editor.process_operations (H := posix_runtime) "/book/ch.md" ops w)
    as [[r|e] w'] eqn:E.
  - vm_compute in E. discriminate E.
  - exists e, w'. split; [reflexivity|].
    exact (failed_batch_leaves_files (H := posix_runtime) "/book/ch.md" ops w e w' E).
Defined.

Lemma completed_batch_writes_once_witness :
  let w := one_file "/book/ch.md" (ln "foo" +:+ ln "end") in
  let ops := [ {| Editor.op_type := "insert"; Editor.target := "foo";
                  Editor.content := "NEW"; Editor.position := Some "before";
                  Editor.op_options := Editor.no_options |} ] in
  exists r w' text,
    Editor.process_operations (H := posix_runtime) "/book/ch.md" ops w = (Success r, w')
    /\ Editor.modified r = true
    /\ files w' = (if Editor.modified r
                   then <["/book/ch.md" := Text text]> (files w) else files w)
    /\ writes (trace w')
       = writes (trace w) + (if Editor.modified r then 1 else 0).
Proof.
  intros w ops.
  destruct (Editor.process_operations (H := posix_runtime) "/book/ch.md" ops w)
    as [[r|e] w'] eqn:E.
  - destruct (completed_batch_writes_once (H := posix_runtime) "/book/ch.md" ops w r w' E)
      as (text & P).
    exists r, w', text. split; [reflexivity|]. split; [|exact P].
    vm_compute in E. injection E as <- _. reflexivity.
  - vm_compute in E. discriminate E.
Defined.

(** ** Operations that find nothing, and line counts *)

Section NoMatch.
Context `{Runtime}.

Lemma replace_loop_no_match tgt new lines acc n old :
  Forall (fun l => Py.contains tgt l = false) lines ->
  Editor.replace_loop false tgt new lines acc n old = inr (acc ++ lines, n, old).
Proof.
  intros Hall. revert acc. induction Hall as [|l lines Hl _ IH]; intros acc.
  - simpl. rewrite app_nil_r. reflexivity.
  - cbn [Editor.replace_loop]. rewrite Hl, IH, <- app_assoc. reflexivity.
Qed.

Lemma rewrite_loop_no_match preserve tgt new lines acc ch old :
  Forall (fun l => Py.contains tgt l = false) lines ->
  Editor.rewrite_loop preserve tgt new lines acc ch old = (acc ++ lines, ch, old).
Proof.
  intros Hall. revert acc. induction Hall as [|l lines Hl _ IH]; intros acc.
  - simpl. rewrite app_nil_r. reflexivity.
  - cbn [Editor.rewrite_loop]. rewrite Hl, IH, <- app_assoc. reflexivity.
Qed.

Lemma apply_operation_no_match p op buffer w :
  finds_nothing buffer op ->
  exists d,
    Editor.apply_operation p op buffer w = (inr (buffer, false, d), w)
    /\ Editor.counted d = 0.
Proof.
  intros (Hk & Hlit & Hall).
  unfold Editor.apply_operation, bind, lift, ret, raise.
  destruct (String.eqb (Editor.op_type op) "replace") eqn:Hr.
  - unfold Editor.replace_content. rewrite Hlit, (replace_loop_no_match _ _ _ _ _ _ Hall).
    cbn [app Nat.ltb Nat.leb]. eexists. split; [reflexivity|].
    unfold Editor.counted. cbn. rewrite Hr. reflexivity.
  - destruct (String.eqb (Editor.op_type op) "insert") eqn:Hi.
    + unfold Editor.insert_content. rewrite Hlit, (insert_loop_no_match _ _ _ _ _ _ _ Hall).
      cbn [app]. eexists. split; [reflexivity|].
      unfold Editor.counted. cbn. rewrite Hr. reflexivity.
    + destruct (String.eqb (Editor.op_type op) "rewrite") eqn:Hw.
      * unfold Editor.rewrite_content. rewrite (rewrite_loop_no_match _ _ _ _ _ _ _ Hall).
        cbn [app]. eexists. split; [reflexivity|].
        unfold Editor.counted. cbn. rewrite Hr. reflexivity.
      * unfold Editor.known_type in Hk. rewrite Hr, Hi, Hw in Hk. discriminate.
Qed.

Lemma operations_loop_no_match p ops buffer m ds w :
  Forall (finds_nothing buffer) ops ->
  exists ds',
    Editor.operations_loop p ops buffer m ds w = (inr (buffer, m, ds ++ ds'), w)
    /\ length ds' = length ops
    /\ Editor.sum_modified (ds ++ ds') = Editor.sum_modified ds.
Proof.
  intros Hall. revert m ds. induction Hall as [|op ops Hop _ IH]; intros m ds.
  - exists []. rewrite app_nil_r. repeat split.
  - cbn [Editor.operations_loop]. unfold bind.
    destruct (apply_operation_no_match p op buffer w Hop) as (d & -> & Hd).
    destruct (IH (m || false) (ds ++ [d])) as (ds' & E & L & S0).
    exists (d :: ds'). rewrite orb_false_r in *.
    rewrite <- app_assoc in E, S0. split; [exact E|]. split; [simpl; lia|].
    cbn [app] in S0. rewrite S0, sum_modified_snoc, Hd. lia.
Qed.

(** X13. A batch none of whose operations finds its target, the empty batch
    among them, succeeds, reports no modification and no modified
    position, and leaves the file as it is: it is read, and neither
    written nor logged. *)
Theorem batch_without_match_writes_nothing p ops w text :
  files w !! abspath p = Some (Text text) ->
  Forall (finds_nothing (Py.readlines text)) ops ->
  exists ds,
    Editor.process_operations p ops w
    = (Success {| Editor.edited_path := p; Editor.modified := false;
                  Editor.modified_positions := 0; Editor.details := ds |},
       {| files := files w; trace := trace w ++ [EvRead (abspath p)] |})
    /\ length ds = length ops.
Proof.
  intros Hfile Hall.
  unfold Editor.process_operations, catch, Editor.process_operations_body.
  unfold bind at 1. unfold path_exists. rewrite Hfile.
  rewrite bool_decide_eq_true_2 by (eexists; reflexivity). cbn [negb].
  unfold bind at 1. unfold read_text. rewrite Hfile.
  unfold bind at 1.
  destruct (operations_loop_no_match p ops (Py.readlines text) false []
              {| files := files w; trace := trace w ++ [EvRead (abspath p)] |} Hall)
    as (ds & -> & L & S0).
  unfold bind, ret. cbn [app] in *. exists ds. rewrite S0. split; [reflexivity | exact L].
Qed.

Lemma replace_loop_length regex tgt new lines acc n old new_lines n' old' :
  Editor.replace_loop regex tgt new lines acc n old = inr (new_lines, n', old') ->
  length new_lines = length acc + length lines.
Proof.
  revert acc n old. induction lines as [|line lines IH]; intros acc n old E.
  - simpl in E. injection E as <- _ _. simpl. lia.
  - cbn [Editor.replace_loop] in E. destruct regex.
    + destruct (re_findall_count tgt line) as [[|k]|]; [| |discriminate].
      * apply IH in E. rewrite E, length_app. simpl. lia.
      * destruct (re_sub tgt new line); [|discriminate].
        apply IH in E. rewrite E, length_app. simpl. lia.
    + destruct (Py.contains tgt line); apply IH in E;
        rewrite E, length_app; simpl; lia.
Qed.

Lemma rewrite_loop_length preserve tgt new lines acc ch old :
  length (fst (fst (Editor.rewrite_loop preserve tgt new lines acc ch old)))
  = length acc + length lines.
Proof.
  revert acc ch old. induction lines as [|line lines IH]; intros acc ch old.
  - simpl. lia.
  - cbn [Editor.rewrite_loop].
    destruct (Py.contains tgt line && preserve); [|destruct (Py.contains tgt line)];
      rewrite IH, length_app; simpl; lia.
Qed.

(** X5. Replace, literal or by pattern, and rewrite give back as many
    lines as they were given. *)
Theorem replace_and_rewrite_keep_line_count lines tgt new opts new_lines n old :
  Editor.replace_content lines tgt new opts = inr (new_lines, n, old) ->
  length new_lines = length lines
  /\ length (fst (fst (Editor.rewrite_content lines tgt new opts))) = length lines.
Proof.
  intros E. split.
  - apply replace_loop_length in E. exact E.
  - unfold Editor.rewrite_content. rewrite rewrite_loop_length. reflexivity.
Qed.

Lemma concat_app l1 l2 : Py.concat (l1 ++ l2) = Py.concat l1 +:+ Py.concat l2.
Proof.
  induction l1 as [|x l1 IH]; [reflexivity|].
  cbn [app Py.concat]. rewrite IH, app_assoc_s. reflexivity.
Qed.

(** X7. With [preserve_format] false the rewritten line is the content and
    nothing more: the line feed of the original line is gone, so in the
    text that is written the content runs into the line that follows. *)
Theorem rewrite_whole_line_drops_line_feed before line after tgt new regex :
  Forall (fun l => Py.contains tgt l = false) before ->
  Py.contains tgt line = true ->
  Forall (fun l => Py.contains tgt l = false) after ->
  exists old,
    Editor.rewrite_content (before ++ line :: after) tgt new
      {| Editor.is_regex := regex; Editor.preserve_format := Some false |}
    = (before ++ new :: after, true, old)
    /\ Py.concat (before ++ new :: after)
       = Py.concat before +:+ new +:+ Py.concat after.
Proof.
  intros Hb Hl Ha. unfold Editor.rewrite_content. cbn [default Editor.preserve_format].
  assert (G : forall acc ch old,
    Editor.rewrite_loop false tgt new (before ++ line :: after) acc ch old
    = (acc ++ before ++ new :: after, true, Some line)).
  { induction Hb as [|l before Hl0 _ IH]; intros acc ch old.
    - cbn [app Editor.rewrite_loop]. rewrite Hl. cbn [andb].
      rewrite (rewrite_loop_no_match _ _ _ _ _ _ _ Ha), <- app_assoc. reflexivity.
    - cbn [app Editor.rewrite_loop]. rewrite Hl0. cbn [andb].
      rewrite IH, <- app_assoc. reflexivity. }
  exists (Some line). split; [apply (G [] false None)|].
  rewrite concat_app. reflexivity.
Qed.

End NoMatch.

Lemma batch_without_match_writes_nothing_witness :
  let w := one_file "/book/ch.md" (ln "alpha" +:+ ln "beta") in
  let ops := [ {| Editor.op_type := "replace"; Editor.target := "gamma";
                  Editor.content := "x"; Editor.position := None;
                  Editor.op_options := Editor.no_options |};
               {| Editor.op_type := "insert"; Editor.target := "delta";
                  Editor.content := "y"; Editor.position := None;
                  Editor.op_options := Editor.no_options |} ] in
  Forall (finds_nothing (Py.readlines (ln "alpha" +:+ ln "beta"))) ops
  /\ exists ds,
       Editor.process_operations (H := posix_runtime) "/book/ch.md" ops w
       = (Success {| Editor.edited_path := "/book/ch.md"; Editor.modified := false;
                     Editor.modified_positions := 0; Editor.details := ds |},
          {| files := files w; trace := trace w ++ [EvRead "/book/ch.md"] |})
       /\ length ds = length ops.
Proof.
  intros w ops.
  assert (Hall : Forall (finds_nothing (Py.readlines (ln "alpha" +:+ ln "beta"))) ops).
  { repeat constructor. }
  split; [exact Hall|].
  exact (batch_without_match_writes_nothing (H := posix_runtime) "/book/ch.md" ops w
           (ln "alpha" +:+ ln "beta") eq_refl Hall).
Defined.

Lemma replace_and_rewrite_keep_line_count_witness :
  let lines := [ln "foo foo"; ln "bar"; ln "foo"] in
  exists new_lines n old,
    Editor.replace_content (H := posix_runtime) lines "foo" "x" Editor.no_options
    = inr (new_lines, n, old)
    /\ length new_lines = length lines
    /\ length (fst (fst (Editor.rewrite_content lines "foo" "x" Editor.no_options)))
       = length lines.
Proof.
  intros lines.
  destruct (Editor.replace_content (H := posix_runtime) lines "foo" "x" Editor.no_options)
    as [e|[[new_lines n] old]] eqn:E.
  - vm_compute in E. discriminate E.
  - exists new_lines, n, old. split; [reflexivity|].
    exact (replace_and_rewrite_keep_line_count (H := posix_runtime) lines "foo" "x"
             Editor.no_options new_lines n old E).
Defined.

Lemma rewrite_whole_line_drops_line_feed_witness :
  Forall (fun l => Py.contains "TODO" l = false) [ln "intro"]
  /\ Py.contains "TODO" (ln "TODO: write") = true
  /\ Forall (fun l => Py.contains "TODO" l = false) [ln "end"]
  /\ exists old,
       Editor.rewrite_content ([ln "intro"] ++ ln "TODO: write" :: [ln "end"]) "TODO" "Done."
         {| Editor.is_regex := None; Editor.preserve_format := Some false |}
       = ([ln "intro"] ++ "Done." :: [ln "end"], true, old)
       /\ Py.concat ([ln "intro"] ++ "Done." :: [ln "end"])
          = Py.concat [ln "intro"] +:+ "Done." +:+ Py.concat [ln "end"].
Proof.
  assert (Hb : Forall (fun l => Py.contains "TODO" l = false) [ln "intro"])
    by (repeat constructor).
  assert (Ha : Forall (fun l => Py.contains "TODO" l = false) [ln "end"])
    by (repeat constructor).
  split; [exact Hb|]. split; [reflexivity|]. split; [exact Ha|].
  exact (rewrite_whole_line_drops_line_feed [ln "intro"] (ln "TODO: write") [ln "end"]
           "TODO" "Done." None Hb eq_refl Ha).
Defined.

(** ** Insert with a single match *)

Section InsertOne.
Context `{Runtime}.

(** X9. With one matching line in the buffer and position [before], the
    new line comes right before it. *)
Theorem insert_before_one_match tgt cont before line after opts :
  default false (Editor.is_regex opts) = false ->
  Forall (fun l => Py.contains tgt l = false) before ->
  Py.contains tgt line = true ->
  Forall (fun l => Py.contains tgt l = false) after ->
  Editor.insert_content (before ++ line :: after) tgt cont "before" opts
  = inr (before ++ (cont +:+ Editor.NL) :: line :: after, true).
Proof.
  intros Hlit Hb Hl Ha. unfold Editor.insert_content. rewrite Hlit.
  assert (G : forall i acc ch, length acc = i ->
      Editor.insert_loop false tgt cont "before" i (before ++ line :: after) acc ch
      = inr (acc ++ before ++ (cont +:+ Editor.NL) :: line :: after, true)).
  { clear Hlit. induction Hb as [|l before Hl0 _ IH]; intros i acc ch Hi.
    - cbn [app Editor.insert_loop]. rewrite Hl.
      change (String.eqb "before" "before") with true. cbv iota.
      replace (Py.insert i (cont +:+ Editor.NL) (acc ++ [line]))
        with (acc ++ [cont +:+ Editor.NL; line]).
      + rewrite insert_loop_no_match by exact Ha.
        rewrite <- app_assoc. reflexivity.
      + unfold Py.insert. subst i.
        rewrite firstn_app, skipn_app, firstn_all, skipn_all, Nat.sub_diag.
        simpl. rewrite app_nil_r. reflexivity.
    - cbn [app Editor.insert_loop]. rewrite Hl0.
      rewrite IH by (rewrite length_app; simpl; lia).
      rewrite <- app_assoc. reflexivity. }
  apply (G 0 [] false eq_refl).
Qed.

End InsertOne.

Lemma insert_before_one_match_witness :
  default false (Editor.is_regex Editor.no_options) = false
  /\ Forall (fun l => Py.contains "## Scope" l = false) [ln "# Title"; ln ""]
  /\ Py.contains "## Scope" (ln "## Scope") = true
  /\ Forall (fun l => Py.contains "## Scope" l = false) [ln "text"]
  /\ Editor.insert_content (H := posix_runtime)
       ([ln "# Title"; ln ""] ++ ln "## Scope" :: [ln "text"]) "## Scope" "NEW"
       "before" Editor.no_options
     = inr ([ln "# Title"; ln ""] ++ ("NEW" +:+ Editor.NL) :: ln "## Scope" :: [ln "text"],
            true).
Proof.
  assert (Hb : Forall (fun l => Py.contains "## Scope" l = false) [ln "# Title"; ln ""])
    by (repeat constructor).
  assert (Ha : Forall (fun l => Py.contains "## Scope" l = false) [ln "text"])
    by (repeat constructor).
  split; [reflexivity|]. split; [exact Hb|]. split; [reflexivity|]. split; [exact Ha|].
  exact (insert_before_one_match (H := posix_runtime) "## Scope" "NEW"
           [ln "# Title"; ln ""] (ln "## Scope") [ln "text"] Editor.no_options
           eq_refl Hb eq_refl Ha).
Defined.

Lemma insert_after_one_match_witness :
  default false (Editor.is_regex Editor.no_options) = false
  /\ Forall (fun l => Py.contains "## Scope" l = false) [ln "# Title"; ln ""]
  /\ Py.contains "## Scope" (ln "## Scope") = true
  /\ Forall (fun l => Py.contains "## Scope" l = false) [ln "text"]
  /\ Editor.insert_content (H := posix_runtime)
       ([ln "# Title"; ln ""] ++ ln "## Scope" :: [ln "text"]) "## Scope" "NEW"
       "after" Editor.no_options
     = inr ([ln "# Title"; ln ""] ++ ln "## Scope" :: ("NEW" +:+ Editor.NL) :: [ln "text"],
            true).
Proof.
  assert (Hb : Forall (fun l => Py.contains "## Scope" l = false) [ln "# Title"; ln ""])
    by (repeat constructor).
  assert (Ha : Forall (fun l => Py.contains "## Scope" l = false) [ln "text"])
    by (repeat constructor).
  split; [reflexivity|]. split; [exact Hb|]. split; [reflexivity|]. split; [exact Ha|].
  exact (proj1 (insert_after_one_match (H := posix_runtime) "## Scope" "NEW"
                  [ln "# Title"; ln ""] (ln "## Scope") [ln "text"] Editor.no_options
                  eq_refl Hb eq_refl Ha)).
Defined.

(** ** What the markup to document converter builds *)

Section Building.
Context `{Runtime}.

Lemma blank_not_table raw :
  Markup.blank_line raw = true -> Converter.is_table_row (Py.strip raw) = false.
Proof.
  unfold Markup.blank_line. intros Hb. apply String.eqb_eq in Hb. rewrite Hb. reflexivity.
Qed.

Lemma heading_not_table line :
  Py.startswith "#" line = true -> Converter.is_table_row line = false.
Proof.
  destruct line as [|c line]; [discriminate|]. cbn [Py.startswith].
  destruct (Ascii.eqb "#" c) eqn:E; [|discriminate].
  apply Ascii.eqb_eq in E. subst c. reflexivity.
Qed.

Lemma forallb_mapped {A B} (f : B -> bool) (g : A -> B) l :
  forallb f (map g l) = forallb (fun x => f (g x)) l.
Proof. induction l as [|x l IH]; [reflexivity|]. simpl. rewrite IH. reflexivity. Qed.

(** Table lines in a row: the first opens a buffer, the others fill it. *)
Lemma convert_table_lines md_path rows st w :
  Forall (fun raw => Markup.table_line raw = true) rows ->
  Converter.in_table st = true ->
  Converter.convert_lines md_path rows st w
  = (inr {| Converter.doc := Converter.doc st;
            Converter.current_para := Converter.current_para st;
            Converter.in_table := true;
            Converter.table_rows := Converter.table_rows st ++ map Markup.cells rows |}, w).
Proof.
  intros Hall. revert st. induction Hall as [|raw rows Hrow _ IH]; intros st Hin.
  - simpl. rewrite app_nil_r. destruct st. simpl in Hin. subst. reflexivity.
  - cbn [Converter.convert_lines]. unfold bind, Converter.step.
    unfold Markup.table_line in Hrow. rewrite Hrow, Hin. unfold ret.
    rewrite IH by reflexivity. cbn [Converter.doc Converter.current_para
      Converter.table_rows map]. rewrite <- app_assoc. reflexivity.
Qed.

Lemma set_cells_fits cols i row :
  i + length row <= cols ->
  forallb Converter.xml_compatible row = true ->
  Converter.set_cells cols i row = None.
Proof.
  revert i. induction row as [|cell row IH]; intros i Hlen Hx; [reflexivity|].
  cbn [forallb] in Hx. apply andb_true_iff in Hx as [Hc Hx].
  cbn [length] in Hlen. cbn [Converter.set_cells].
  replace (cols <=? i) with false by (symmetry; apply Nat.leb_gt; lia).
  rewrite Hc. apply IH; [lia | exact Hx].
Qed.

Lemma set_rows_fit cols rows :
  forallb (fun row => length row <=? cols) rows = true ->
  forallb (forallb Converter.xml_compatible) rows = true ->
  Converter.set_rows cols rows = None.
Proof.
  induction rows as [|row rows IH]; intros Hlen Hx; [reflexivity|].
  cbn [forallb] in Hlen, Hx.
  apply andb_true_iff in Hlen as [Hl Hlen]. apply andb_true_iff in Hx as [Hr Hx].
  apply Nat.leb_le in Hl. cbn [Converter.set_rows].
  rewrite set_cells_fits by (assumption || (simpl; lia)). apply IH; assumption.
Qed.

(** The end of a table whose rows fit the header and whose cells the
    document format takes. *)
Lemma flush_table_fits header rule body d :
  forallb Converter.xml_compatible header = true ->
  forallb (fun row => length row <=? length header) body = true ->
  forallb (forallb Converter.xml_compatible) body = true ->
  Converter.flush_table (header :: rule :: body) d
  = inr (d ++ [TableBlock header (map (Converter.fill_row (length header)) body)]).
Proof.
  intros Hh Hlen Hx. cbn [Converter.flush_table].
  rewrite set_cells_fits by (assumption || (simpl; lia)).
  rewrite set_rows_fit by assumption. reflexivity.
Qed.

Lemma convert_lines_one md_path raw st w :
  Converter.convert_lines md_path [raw] st w = Converter.step md_path st raw w.
Proof.
  cbn [Converter.convert_lines]. unfold bind, ret.
  destruct (Converter.step md_path st raw w) as [[e|st'] w']; reflexivity.
Qed.

(** X16. A table is a run of table lines that stands at the start of
    the file or after a line that is no table line, and it ends at the
    first line that is no table line, whatever that line is.  Of its
    rows the first gives the header and the rows from the third on the
    body, padded to the width of the header; the second row, meant for
    the rule of dashes, is dropped whatever it holds.  The line that
    ends the table is then handled as any line is, with the table
    already in the document and the paragraph that was open before the
    table still open.  A table of one row is dropped whole.  The cells
    of the header and of the body are cells the document format takes,
    and no row of the body is longer than the header. *)
Theorem table_lines_parsed md_path pre st w1 r0 r1 body next w :
  Converter.convert_lines md_path pre Converter.initial w = (inr st, w1) ->
  Converter.in_table st = false ->
  Forall (fun raw => Markup.table_line raw = true) (r0 :: r1 :: body) ->
  Markup.table_line next = false ->
  forallb (fun raw => length (Markup.cells raw) <=? length (Markup.cells r0)) body = true ->
  forallb (fun raw => forallb Converter.xml_compatible (Markup.cells raw)) (r0 :: body)
  = true ->
  Converter.convert_lines md_path (pre ++ r0 :: r1 :: body ++ [next]) Converter.initial w
  = Converter.step md_path
      {| Converter.doc :=
           Converter.doc st
           ++ [TableBlock (Markup.cells r0)
                 (map (fun raw => Converter.fill_row (length (Markup.cells r0))
                                    (Markup.cells raw)) body)];
         Converter.current_para := Converter.current_para st;
         Converter.in_table := false;
         Converter.table_rows := map Markup.cells (r0 :: r1 :: body) |} next w1
  /\ Converter.convert_lines md_path (pre ++ [r0; next]) Converter.initial w
     = Converter.step md_path
         {| Converter.doc := Converter.doc st;
            Converter.current_para := Converter.current_para st;
            Converter.in_table := false;
            Converter.table_rows := [Markup.cells r0] |} next w1.
Proof.
  intros Hpre Hin Hall Hnext Hfit Hxml.
  inversion Hall as [|? ? H0 Hrest]; subst.
  cbn [forallb] in Hxml. apply andb_true_iff in Hxml as [Hx0 Hxb].
  unfold Markup.table_line in Hnext, H0.
  assert (First : forall rest,
    Converter.convert_lines md_path (r0 :: rest) st w1
    = Converter.convert_lines md_path rest
        {| Converter.doc := Converter.doc st;
           Converter.current_para := Converter.current_para st;
           Converter.in_table := true;
           Converter.table_rows := [Markup.cells r0] |} w1).
  { intros rest. cbn [Converter.convert_lines]. unfold bind at 1. unfold Converter.step.
    rewrite H0, Hin. reflexivity. }
  split.
  - rewrite convert_lines_app, Hpre, First.
    change (r1 :: body ++ [next]) with ((r1 :: body) ++ [next]).
    rewrite convert_lines_app, (convert_table_lines md_path (r1 :: body)) by
      (assumption || reflexivity).
    cbn [Converter.doc Converter.current_para Converter.table_rows map app].
    rewrite convert_lines_one. unfold Converter.step. rewrite Hnext.
    cbn [Converter.in_table Converter.table_rows Converter.doc Converter.current_para].
    rewrite flush_table_fits;
      [|exact Hx0|rewrite forallb_mapped; exact Hfit|rewrite forallb_mapped; exact Hxb].
    rewrite map_map. reflexivity.
  - rewrite convert_lines_app, Hpre, First, convert_lines_one.
    unfold Converter.step. rewrite Hnext. reflexivity.
Qed.

End Building.

Section Paragraphs.
Context `{Runtime}.

Lemma add_run_at d runs tail t :
  Converter.add_run (length d) t (d ++ Paragraph runs :: tail)
  = d ++ Paragraph (runs ++ [t]) :: tail.
Proof.
  unfold Converter.add_run. induction d as [|b d IH]; [reflexivity|].
  cbn [length app]. cbn [alter list_alter]. f_equal. exact IH.
Qed.

Lemma text_line_parts raw :
  Markup.text_line raw = true ->
  Converter.is_table_row (Py.strip raw) = false
  /\ Py.startswith "#" (Py.strip raw) = false
  /\ Py.startswith "![" (Py.strip raw) = false
  /\ String.eqb (Py.strip raw) "" = false
  /\ Converter.xml_compatible (Py.strip raw) = true.
Proof.
  unfold Markup.text_line. intros Ht.
  apply andb_true_iff in Ht as [Ht H5].
  apply andb_true_iff in Ht as [Ht H4]. apply andb_true_iff in Ht as [Ht H3].
  apply andb_true_iff in Ht as [H1 H2].
  repeat split; try (apply negb_true_iff; assumption). exact H5.
Qed.

(** A text line starts a paragraph when none is open. *)
Lemma step_text_opens md_path st raw w :
  Markup.text_line raw = true ->
  Converter.in_table st = false -> Converter.current_para st = None ->
  Converter.step md_path st raw w
  = (inr {| Converter.doc := Converter.doc st ++ [Paragraph [Py.strip raw]];
            Converter.current_para := Some (length (Converter.doc st));
            Converter.in_table := false;
            Converter.table_rows := Converter.table_rows st |}, w).
Proof.
  intros Ht Hin Hc. destruct (text_line_parts raw Ht) as (H1 & H2 & H3 & H4 & H5).
  unfold Converter.step. rewrite H1, Hin. unfold bind, ret.
  rewrite H2, H3, H4, H5, Hc. reflexivity.
Qed.

(** A text line adds a run to the paragraph that is open. *)
Lemma step_text_adds md_path st raw w i :
  Markup.text_line raw = true ->
  Converter.in_table st = false -> Converter.current_para st = Some i ->
  Converter.step md_path st raw w
  = (inr {| Converter.doc :=
              Converter.add_run i (String Py.LF (Py.strip raw)) (Converter.doc st);
            Converter.current_para := Some i;
            Converter.in_table := false;
            Converter.table_rows := Converter.table_rows st |}, w).
Proof.
  intros Ht Hin Hc. destruct (text_line_parts raw Ht) as (H1 & H2 & H3 & H4 & H5).
  unfold Converter.step. rewrite H1, Hin. unfold bind, ret.
  rewrite H2, H3, H4, H5, Hc. reflexivity.
Qed.

Lemma convert_text_more md_path rest d runs tail rows w :
  Forall (fun raw => Markup.text_line raw = true) rest ->
  Converter.convert_lines md_path rest
    {| Converter.doc := d ++ Paragraph runs :: tail;
       Converter.current_para := Some (length d);
       Converter.in_table := false; Converter.table_rows := rows |} w
  = (inr {| Converter.doc :=
              d ++ Paragraph (runs ++ map (fun raw => String Py.LF (Py.strip raw)) rest)
                   :: tail;
            Converter.current_para := Some (length d);
            Converter.in_table := false; Converter.table_rows := rows |}, w).
Proof.
  intros Hall. revert runs. induction Hall as [|raw rest Ht _ IH]; intros runs.
  - simpl. rewrite app_nil_r. reflexivity.
  - cbn [Converter.convert_lines]. unfold bind.
    rewrite (step_text_adds md_path
               {| Converter.doc := d ++ Paragraph runs :: tail;
                  Converter.current_para := Some (length d);
                  Converter.in_table := false; Converter.table_rows := rows |}
               raw w (length d) Ht eq_refl eq_refl).
    cbn [Converter.doc Converter.table_rows]. rewrite add_run_at, IH.
    cbn [map]. rewrite <- app_assoc. reflexivity.
Qed.

(** A block of text lines from a state with no open paragraph. *)
Lemma convert_text_block md_path first rest d rows w :
  Forall (fun raw => Markup.text_line raw = true) (first :: rest) ->
  Converter.convert_lines md_path (first :: rest)
    {| Converter.doc := d; Converter.current_para := None;
       Converter.in_table := false; Converter.table_rows := rows |} w
  = (inr {| Converter.doc := d ++ [Paragraph (Markup.runs_of first rest)];
            Converter.current_para := Some (length d);
            Converter.in_table := false; Converter.table_rows := rows |}, w).
Proof.
  intros Hall. inversion Hall as [|? ? Hf Hrest]; subst.
  cbn [Converter.convert_lines]. unfold bind at 1.
  rewrite (step_text_opens md_path
             {| Converter.doc := d; Converter.current_para := None;
                Converter.in_table := false; Converter.table_rows := rows |}
             first w Hf eq_refl eq_refl).
  cbn [Converter.doc Converter.table_rows].
  rewrite (convert_text_more md_path rest d [Py.strip first] [] rows w Hrest).
  reflexivity.
Qed.

Lemma convert_lines_cons md_path raw rest st w :
  Converter.convert_lines md_path (raw :: rest) st w
  = match Converter.step md_path st raw w with
    | (inr st', w') => Converter.convert_lines md_path rest st' w'
    | (inl e, w') => (inl e, w')
    end.
Proof. reflexivity. Qed.

Lemma step_blank md_path d cp rows raw w :
  Markup.blank_line raw = true ->
  Converter.step md_path
    {| Converter.doc := d; Converter.current_para := cp;
       Converter.in_table := false; Converter.table_rows := rows |} raw w
  = (inr {| Converter.doc := d; Converter.current_para := None;
            Converter.in_table := false; Converter.table_rows := rows |}, w).
Proof.
  intros Hb. pose proof (blank_not_table raw Hb) as Hnt.
  unfold Markup.blank_line in Hb. apply String.eqb_eq in Hb.
  unfold Converter.step. rewrite Hnt, Hb. reflexivity.
Qed.

(** X17. Text lines, which are lines of characters the document
    format takes, that follow one another make one paragraph, a run per
    line, each run after the first starting with a line feed; a blank
    line between two blocks of text lines makes them two paragraphs. *)
Theorem text_lines_make_paragraphs md_path a more blank b more' w :
  Forall (fun raw => Markup.text_line raw = true) (a :: more) ->
  Markup.blank_line blank = true ->
  Forall (fun raw => Markup.text_line raw = true) (b :: more') ->
  Spec.final_document md_path (a :: more) w = inr [Paragraph (Markup.runs_of a more)]
  /\ Spec.final_document md_path ((a :: more) ++ blank :: b :: more') w
     = inr [Paragraph (Markup.runs_of a more); Paragraph (Markup.runs_of b more')].
Proof.
  intros Ha Hblank Hb. unfold Spec.final_document, Converter.initial. split.
  - rewrite (convert_text_block md_path a more [] [] w Ha). reflexivity.
  - rewrite convert_lines_app, (convert_text_block md_path a more [] [] w Ha).
    rewrite convert_lines_cons, (step_blank md_path _ _ _ blank w Hblank).
    rewrite (convert_text_block md_path b more' _ [] w Hb). reflexivity.
Qed.

Lemma heading_line_parts raw :
  Markup.heading_line raw = true ->
  Converter.is_table_row (Py.strip raw) = false
  /\ Py.startswith "#" (Py.strip raw) = true
  /\ (Converter.heading_level (Py.strip raw) <=? 9) = true
  /\ Converter.xml_compatible (Py.strip (Py.lstrip_char "#" (Py.strip raw))) = true.
Proof.
  unfold Markup.heading_line. intros Hh. apply andb_true_iff in Hh as [Hh H3].
  apply andb_true_iff in Hh as [H1 H2].
  split; [apply heading_not_table, H1 | repeat split; assumption].
Qed.

(** X18. A heading does not close the open paragraph: text lines that follow
    a heading at once, with no blank line between, become runs of the
    paragraph that stands before the heading.  The text lines and the
    text of the heading are of characters the document format takes,
    and the level of the heading is at most 9. *)
Theorem text_after_heading_joins_paragraph_before md_path a more h after w :
  Forall (fun raw => Markup.text_line raw = true) (a :: more) ->
  Markup.heading_line h = true ->
  Forall (fun raw => Markup.text_line raw = true) after ->
  Spec.final_document md_path ((a :: more) ++ h :: after) w
  = inr [Paragraph (Markup.runs_of a (more ++ after));
         Heading (Py.strip (Py.lstrip_char "#" (Py.strip h)))
           (Converter.heading_level (Py.strip h))].
Proof.
  intros Ha Hh Hafter. destruct (heading_line_parts h Hh) as (H1 & H2 & H3 & H4).
  unfold Spec.final_document, Converter.initial.
  rewrite convert_lines_app, (convert_text_block md_path a more [] [] w Ha).
  rewrite convert_lines_cons.
  unfold Converter.step at 1. rewrite H1. cbn [Converter.in_table Converter.doc].
  unfold bind at 1. unfold ret at 1. rewrite H2.
  unfold bind at 1. unfold lift, Converter.add_heading. rewrite H3, H4.
  unfold ret at 1. cbn [app Converter.current_para Converter.table_rows length].
  pose proof (convert_text_more md_path after [] (Markup.runs_of a more)
                [Heading (Py.strip (Py.lstrip_char "#" (Py.strip h)))
                   (Converter.heading_level (Py.strip h))] [] w Hafter) as E.
  cbn [app length] in E. rewrite E.
  unfold Markup.runs_of. rewrite map_app. reflexivity.
Qed.

End Paragraphs.

(** A table after a heading and a line of text, ended by a line of
    text: the line of text after the table goes on in the paragraph
    that stands before the table. *)
Lemma table_lines_parsed_witness :
  let pre := [ln "# Parts"; ln "intro"] in
  let st := {| Converter.doc := [Heading "Parts" 1; Paragraph ["intro"]];
               Converter.current_para := Some 1;
               Converter.in_table := false; Converter.table_rows := [] |} in
  let r0 := ln "| Name | Qty |" in
  let r1 := ln "| not | a rule |" in
  let body := [ln "| nut | 4 |"; ln "| bolt |"] in
  let next := ln "after" in
  Converter.convert_lines (H := posix_runtime) "/book/ch.md" pre Converter.initial
    empty_world = (inr st, empty_world)
  /\ Forall (fun raw => Markup.table_line raw = true) (r0 :: r1 :: body)
  /\ Markup.table_line next = false
  /\ Spec.final_document (H := posix_runtime) "/book/ch.md"
       (pre ++ r0 :: r1 :: body ++ [next]) empty_world
     = inr [Heading "Parts" 1; Paragraph ["intro"; String Py.LF "after"];
            TableBlock ["Name"; "Qty"] [["nut"; "4"]; ["bolt"; ""]]]
  /\ Converter.convert_lines (H := posix_runtime) "/book/ch.md"
       (pre ++ r0 :: r1 :: body ++ [next]) Converter.initial empty_world
     = Converter.step (H := posix_runtime) "/book/ch.md"
         {| Converter.doc :=
              Converter.doc st
              ++ [TableBlock (Markup.cells r0)
                    (map (fun raw => Converter.fill_row (length (Markup.cells r0))
                                       (Markup.cells raw)) body)];
            Converter.current_para := Converter.current_para st;
            Converter.in_table := false;
            Converter.table_rows := map Markup.cells (r0 :: r1 :: body) |}
         next empty_world
  /\ Converter.convert_lines (H := posix_runtime) "/book/ch.md"
       (pre ++ [r0; next]) Converter.initial empty_world
     = Converter.step (H := posix_runtime) "/book/ch.md"
         {| Converter.doc := Converter.doc st;
            Converter.current_para := Converter.current_para st;
            Converter.in_table := false;
            Converter.table_rows := [Markup.cells r0] |} next empty_world.
Proof.
  intros pre st r0 r1 body next.
  assert (Hpre : Converter.convert_lines (H := posix_runtime) "/book/ch.md" pre
                   Converter.initial empty_world = (inr st, empty_world))
    by (vm_compute; reflexivity).
  assert (Hall : Forall (fun raw => Markup.table_line raw = true) (r0 :: r1 :: body))
    by (repeat constructor).
  assert (Hnext : Markup.table_line next = false) by reflexivity.
  split; [exact Hpre|]. split; [exact Hall|]. split; [exact Hnext|].
  split; [vm_compute; reflexivity|].
  exact (table_lines_parsed (H := posix_runtime) "/book/ch.md" pre st empty_world
           r0 r1 body next empty_world Hpre eq_refl Hall Hnext eq_refl eq_refl).
Defined.

Lemma text_lines_make_paragraphs_witness :
  Forall (fun raw => Markup.text_line raw = true) [ln "one"; ln "two"]
  /\ Markup.blank_line (ln "  ") = true
  /\ Forall (fun raw => Markup.text_line raw = true) [ln "three"]
  /\ Spec.final_document (H := posix_runtime) "/book/ch.md" [ln "one"; ln "two"] empty_world
     = inr [Paragraph ["one"; ln "" +:+ "two"]]
  /\ Spec.final_document (H := posix_runtime) "/book/ch.md"
       ([ln "one"; ln "two"] ++ ln "  " :: [ln "three"]) empty_world
     = inr [Paragraph ["one"; ln "" +:+ "two"]; Paragraph ["three"]].
Proof.
  assert (Ha : Forall (fun raw => Markup.text_line raw = true) [ln "one"; ln "two"])
    by (repeat constructor).
  assert (Hb : Forall (fun raw => Markup.text_line raw = true) [ln "three"])
    by (repeat constructor).
  split; [exact Ha|]. split; [reflexivity|]. split; [exact Hb|].
  exact (text_lines_make_paragraphs (H := posix_runtime) "/book/ch.md"
           (ln "one") [ln "two"] (ln "  ") (ln "three") [] empty_world Ha eq_refl Hb).
Defined.

Lemma text_after_heading_joins_paragraph_before_witness :
  Forall (fun raw => Markup.text_line raw = true) [ln "intro"]
  /\ Markup.heading_line (ln "## Scope") = true
  /\ Forall (fun raw => Markup.text_line raw = true) [ln "body"]
  /\ Spec.final_document (H := posix_runtime) "/book/ch.md"
       ([ln "intro"] ++ ln "## Scope" :: [ln "body"]) empty_world
     = inr [Paragraph ["intro"; ln "" +:+ "body"]; Heading "Scope" 2].
Proof.
  assert (Ha : Forall (fun raw => Markup.text_line raw = true) [ln "intro"])
    by (repeat constructor).
  assert (Hb : Forall (fun raw => Markup.text_line raw = true) [ln "body"])
    by (repeat constructor).
  split; [exact Ha|]. split; [reflexivity|]. split; [exact Hb|].
  exact (text_after_heading_joins_paragraph_before (H := posix_runtime) "/book/ch.md"
           (ln "intro") [] (ln "## Scope") [ln "body"] empty_world Ha eq_refl Hb).
Defined.

(** ** What the merger writes *)

Section MergeContent.
Context `{Runtime}.

Lemma join_cons_concat sep c cs :
  Py.join sep (c :: cs) = c +:+ Py.concat (map (fun x => sep +:+ x) cs).
Proof.
  revert c. induction cs as [|d cs IH]; intros c.
  - simpl. rewrite app_empty_r. reflexivity.
  - rewrite join_cons by discriminate. rewrite IH. cbn [map Py.concat].
    rewrite app_assoc_s. reflexivity.
Qed.

Lemma validate_paths_accepts paths contents acc w :
  Forall2 (mergeable w) paths contents ->
  Merger.validate_paths paths acc w = (inr (acc ++ map abspath paths), w).
Proof.
  intros Hall. revert acc. induction Hall as [|p c paths contents [Hf Hm] _ IH]; intros acc.
  - simpl. rewrite app_nil_r. reflexivity.
  - cbn [Merger.validate_paths]. unfold bind, path_exists. rewrite Hf.
    rewrite bool_decide_eq_true_2 by (eexists; reflexivity). cbn [negb].
    rewrite Hm. cbn [negb]. rewrite IH. cbn [map]. rewrite <- app_assoc. reflexivity.
Qed.

Lemma merge_loop_reads paths contents i merged w :
  Forall2 (mergeable w) paths contents ->
  Merger.merge_loop (S i) (map abspath paths) merged w
  = (inr (merged +:+ Py.concat (map (fun c => Merger.RULE +:+ Py.strip c) contents)),
     {| files := files w;
        trace := trace w ++ map (fun p => EvRead (abspath (abspath p))) paths |}).
Proof.
  intros Hall. revert i merged w Hall. revert contents.
  induction paths as [|p paths IH]; intros contents i merged w Hall.
  - inversion Hall; subst. simpl. rewrite app_empty_r, app_nil_r.
    destruct w. reflexivity.
  - inversion Hall as [|? c ? cs [Hf Hm] Hrest]; subst.
    cbn [map Merger.merge_loop]. unfold bind at 1. unfold read_text. rewrite Hf.
    cbn [Nat.ltb Nat.leb].
    set (w1 := {| files := files w; trace := trace w ++ [EvRead (abspath (abspath p))] |}).
    assert (Hrest1 : Forall2 (mergeable w1) paths cs) by exact Hrest.
    rewrite (IH cs (S i) _ w1 Hrest1). unfold w1.
    cbn [files trace map Py.concat]. rewrite <- app_assoc, !app_assoc_s. reflexivity.
Qed.

(** X24. Merging files that all exist as text and carry the markup
    extension, into an output path that can be written, succeeds: the
    output file holds their texts, each stripped of the white space
    around it, in the order given and joined by the rule; every input is
    read once, in order, before the one write; the names of the inputs
    are reported. *)
Theorem merge_joins_stripped_texts paths contents out w :
  Forall2 (mergeable w) paths contents ->
  can_write (abspath (default "merged.md" out)) = true ->
  Merger.call (Some (Merger.PathList paths)) out w
  = (Success {| Merger.merged_path := abspath (default "merged.md" out);
                Merger.merged_count := length paths;
                Merger.merged_files := map (fun p => Path.basename (abspath p)) paths |},
     {| files := <[abspath (default "merged.md" out)
                  := Text (Py.join Merger.RULE (map Py.strip contents))]> (files w);
        trace := trace w ++ map (fun p => EvRead (abspath (abspath p))) paths
                 ++ [EvWrite (abspath (default "merged.md" out))] |}).
Proof.
  intros Hall Hcan.
  unfold Merger.call, catch, Merger.merge_chapters. unfold bind at 1.
  rewrite (validate_paths_accepts paths contents [] w Hall). cbn [app].
  unfold bind at 1.
  assert (L : Merger.merge_loop 0 (map abspath paths) "" w
    = (inr (Py.join Merger.RULE (map Py.strip contents)),
       {| files := files w;
          trace := trace w ++ map (fun p => EvRead (abspath (abspath p))) paths |})).
  { destruct Hall as [|p c paths contents [Hf Hm] Hrest].
    - simpl. rewrite app_nil_r. destruct w. reflexivity.
    - cbn [map Merger.merge_loop]. unfold bind at 1. unfold read_text. rewrite Hf.
      cbn [Nat.ltb Nat.leb]. rewrite app_empty_l.
      set (w1 := {| files := files w; trace := trace w ++ [EvRead (abspath (abspath p))] |}).
      assert (Hrest1 : Forall2 (mergeable w1) paths contents) by exact Hrest.
      rewrite (merge_loop_reads paths contents 0 _ w1 Hrest1). unfold w1.
      cbn [files trace map]. rewrite join_cons_concat, map_map, <- app_assoc. reflexivity. }
  rewrite L. unfold bind, write_text, ret. cbn [files trace]. rewrite Hcan.
  rewrite length_map, map_map, <- app_assoc. reflexivity.
Qed.

(** X25. Whatever the paths, the merger changes no file but its output
    file, and on failure it changes none: when a file cannot be read
    after others were, or the output file cannot be opened, no part of
    the merge is written. *)
Theorem merge_changes_only_output paths out w :
  match Merger.call paths out w with
  | (Success _, w') =>
      exists text,
        files w' = <[abspath (default "merged.md" out) := Text text]> (files w)
        /\ writes (trace w') = writes (trace w) + 1
  | (Failed _, w') => files w' = files w /\ writes (trace w') = writes (trace w)
  end.
Proof.
  assert (V : forall ps acc, snd (Merger.validate_paths ps acc w) = w)
    by (intros; apply validate_paths_pure).
  assert (L : forall ps i m w0,
    files (snd (Merger.merge_loop i ps m w0)) = files w0
    /\ writes (trace (snd (Merger.merge_loop i ps m w0))) = writes (trace w0)).
  { induction ps as [|q ps IH]; intros i m w0; [split; reflexivity|].
    cbn [Merger.merge_loop]. unfold bind, read_text.
    destruct (files w0 !! abspath q) as [[t|d]|]; [|split; reflexivity|split; reflexivity].
    destruct (IH (S i) ((if 0 <? i then m +:+ Merger.RULE else m) +:+ Py.strip t)
                {| files := files w0; trace := trace w0 ++ [EvRead (abspath q)] |})
      as [Hf Ht].
    rewrite Hf, Ht. cbn [files trace]. rewrite writes_app, writes_read.
    split; [reflexivity | lia]. }
  unfold Merger.call, catch.
  destruct paths as [[ps|]|]; [| split; reflexivity | split; reflexivity].
  unfold Merger.merge_chapters. unfold bind at 1.
  specialize (V ps []).
  destruct (Merger.validate_paths ps [] w) as [[e|valid] w1]; cbn [snd] in V; subst w1;
    [split; reflexivity|].
  unfold bind at 1. specialize (L valid 0 "" w).
  destruct (Merger.merge_loop 0 valid "" w) as [[e|merged] w2]; cbn [snd] in L;
    destruct L as [Hf Ht]; [split; assumption|].
  unfold bind, write_text, ret.
  destruct (can_write (abspath (default "merged.md" out))); [|split; assumption].
  exists merged. cbn [files trace].
  rewrite Hf, writes_app, writes_write, Ht. split; reflexivity.
Qed.

End MergeContent.

Lemma merge_joins_stripped_texts_witness :
  let w := {| files := {[ "/book/01-a.md" := Text (ln "# A" +:+ ln "");
                          "/book/02-b.md" := Text (ln "" +:+ ln "# B") ]};
              trace := [] |} in
  Forall2 (mergeable (H := posix_runtime) w) ["/book/01-a.md"; "/book/02-b.md"]
    [ln "# A" +:+ ln ""; ln "" +:+ ln "# B"]
  /\ can_write (Runtime := posix_runtime) "/book/all.md" = true
  /\ Merger.call (H := posix_runtime)
       (Some (Merger.PathList ["/book/01-a.md"; "/book/02-b.md"])) (Some "/book/all.md") w
     = (Success {| Merger.merged_path := "/book/all.md"; Merger.merged_count := 2;
                   Merger.merged_files := ["01-a.md"; "02-b.md"] |},
        {| files := <["/book/all.md" := Text ("# A" +:+ Merger.RULE +:+ "# B")]> (files w);
           trace := [EvRead "/book/01-a.md"; EvRead "/book/02-b.md";
                     EvWrite "/book/all.md"] |}).
Proof.
  intros w.
  assert (Hall : Forall2 (mergeable (H := posix_runtime) w)
                   ["/book/01-a.md"; "/book/02-b.md"]
                   [ln "# A" +:+ ln ""; ln "" +:+ ln "# B"]).
  { repeat constructor. }
  split; [exact Hall|]. split; [reflexivity|].
  exact (merge_joins_stripped_texts (H := posix_runtime)
           ["/book/01-a.md"; "/book/02-b.md"] [ln "# A" +:+ ln ""; ln "" +:+ ln "# B"]
           (Some "/book/all.md") w Hall eq_refl).
Defined.

(** ** File names of the splitter *)

Section FileNames.

Lemma safe_char_allowed c : allowed_char (Splitter.safe_char c) = true.
Proof.
  unfold Splitter.safe_char.
  change (Py.isword c || Ascii.eqb c "-" || Ascii.eqb c "_" || Ascii.eqb c "."
          || Ascii.eqb c " ") with (allowed_char c).
  destruct (allowed_char c) eqn:E; [exact E | vm_compute; reflexivity].
Qed.

Lemma absent_char (c : ascii) s :
  Layout.all_chars (fun a => negb (Ascii.eqb c a)) s = true ->
  Py.contains (String c "") s = false.
Proof.
  unfold Py.contains. induction s as [|a s IH]; intros Hs; [reflexivity|].
  cbn [Layout.all_chars] in Hs. apply andb_true_iff in Hs as [Ha Hs].
  apply negb_true_iff in Ha.
  cbn [Py.find Py.startswith]. rewrite Ha.
  specialize (IH Hs). destruct (Py.find (String c "") s); [discriminate | reflexivity].
Qed.

(** X4. The sanitised title keeps its length, consists of permitted
    characters only and so holds no slash, and sanitising it again
    changes nothing. *)
Theorem safe_title_is_safe title :
  Layout.all_chars allowed_char (Splitter.safe_title title) = true
  /\ String.length (Splitter.safe_title title) = String.length title
  /\ Py.contains "/" (Splitter.safe_title title) = false
  /\ Splitter.safe_title (Splitter.safe_title title) = Splitter.safe_title title.
Proof.
  split; [|split; [|split]].
  - induction title as [|c t IH]; [reflexivity|].
    cbn [Splitter.safe_title Layout.all_chars]. rewrite safe_char_allowed, IH. reflexivity.
  - induction title as [|c t IH]; [reflexivity|].
    cbn [Splitter.safe_title String.length]. rewrite IH. reflexivity.
  - apply (absent_char "/").
    induction title as [|c t IH]; [reflexivity|].
    cbn [Splitter.safe_title Layout.all_chars]. rewrite IH, andb_true_r.
    apply negb_true_iff.
    destruct (Ascii.eqb "/" (Splitter.safe_char c)) eqn:E; [|reflexivity].
    apply Ascii.eqb_eq in E. pose proof (safe_char_allowed c) as S0.
    rewrite <- E in S0. vm_compute in S0. discriminate S0.
  - induction title as [|c t IH]; [reflexivity|].
    cbn [Splitter.safe_title]. rewrite IH. f_equal.
    unfold Splitter.safe_char at 1.
    change (Py.isword (Splitter.safe_char c) || Ascii.eqb (Splitter.safe_char c) "-"
            || Ascii.eqb (Splitter.safe_char c) "_" || Ascii.eqb (Splitter.safe_char c) "."
            || Ascii.eqb (Splitter.safe_char c) " ")
      with (allowed_char (Splitter.safe_char c)).
    rewrite safe_char_allowed. reflexivity.
Qed.

End FileNames.

Section DistinctFiles.
Context `{Runtime}.

Lemma digits_of_uint d : Layout.all_chars is_digit (NilEmpty.string_of_uint d) = true.
Proof. induction d; cbn [NilEmpty.string_of_uint Layout.all_chars]; rewrite ?IHd; reflexivity. Qed.

Lemma format_02d_digits n : Layout.all_chars is_digit (Py.format_02d n) = true.
Proof.
  unfold Py.format_02d.
  destruct (String.length (NilEmpty.string_of_uint (Nat.to_uint n)) <? 2).
  - rewrite app_String, app_empty_l. cbn [Layout.all_chars].
    rewrite digits_of_uint. reflexivity.
  - apply digits_of_uint.
Qed.

(** The number of a chapter can be read back from its two or more
    digits. *)
Lemma format_02d_value n : decimal_value (Py.format_02d n) = Some n.
Proof.
  unfold Py.format_02d, decimal_value.
  destruct (String.length (NilEmpty.string_of_uint (Nat.to_uint n)) <? 2).
  - rewrite app_String, app_empty_l. cbn [NilEmpty.uint_of_string].
    rewrite NilEmpty.usu. cbn [uint_of_char option_map]. f_equal.
    change (Nat.of_uint (Decimal.D0 (Nat.to_uint n))) with (Nat.of_uint (Nat.to_uint n)).
    apply Unsigned.of_to.
  - rewrite NilEmpty.usu. cbn [option_map]. f_equal. apply Unsigned.of_to.
Qed.

(** Two numerals followed by a hyphen and whatever: the numerals are
    the same when the texts are. *)
Lemma numeral_prefix a b x y :
  Layout.all_chars is_digit a = true -> Layout.all_chars is_digit b = true ->
  a +:+ String "-" x = b +:+ String "-" y -> a = b.
Proof.
  revert b. induction a as [|c a IH]; intros b Ha Hb E.
  - destruct b as [|d b]; [reflexivity|].
    rewrite app_empty_l, app_String in E. injection E as E _. subst d.
    cbn [Layout.all_chars] in Hb. discriminate Hb.
  - destruct b as [|d b].
    + rewrite app_empty_l, app_String in E. injection E as E _. subst c.
      cbn [Layout.all_chars] in Ha. discriminate Ha.
    + rewrite !app_String in E. injection E as -> E.
      cbn [Layout.all_chars] in Ha, Hb.
      apply andb_true_iff in Ha as [_ Ha]. apply andb_true_iff in Hb as [_ Hb].
      f_equal. apply (IH b Ha Hb E).
Qed.

Lemma app_cancel_l (p a b : string) : p +:+ a = p +:+ b -> a = b.
Proof.
  induction p as [|c p IH]; [rewrite !app_empty_l; auto|].
  rewrite !app_String. intros E. injection E as E. apply IH, E.
Qed.

(** In a given directory the file name decides the path, for names
    that do not start with a slash. *)
Lemma join_cancel dir f g :
  Py.startswith "/" f = false -> Py.startswith "/" g = false ->
  Path.join dir f = Path.join dir g -> f = g.
Proof.
  unfold Path.join. intros Hf Hg. rewrite Hf, Hg.
  destruct dir as [|c dir]; [auto|].
  destruct (Py.endswith "/" (String c dir)).
  - apply app_cancel_l.
  - intros E. apply app_cancel_l in E. apply (app_cancel_l "/") in E. exact E.
Qed.

Lemma digits_no_slash s x :
  Layout.all_chars is_digit s = true -> Py.startswith "/" (s +:+ String "-" x) = false.
Proof.
  destruct s as [|c s]; [reflexivity|]. cbn [Layout.all_chars]. intros Hs.
  apply andb_true_iff in Hs as [Hc _]. rewrite app_String. cbn [Py.startswith].
  destruct (Ascii.eqb "/" c) eqn:E; [|reflexivity].
  apply Ascii.eqb_eq in E. subst c. discriminate Hc.
Qed.

(** Equal chapter paths have equal chapter numbers. *)
Lemma chapter_path_number md_path i k t t' :
  chapter_path md_path i t = chapter_path md_path k t' -> i / 2 = k / 2.
Proof.
  unfold chapter_path. intros E.
  rewrite !(app_String "-" "") , !app_empty_l in E.
  apply join_cancel in E; try (apply digits_no_slash, format_02d_digits).
  apply numeral_prefix in E; try apply format_02d_digits.
  pose proof (format_02d_value (i / 2 + 1)) as Vi.
  rewrite E, format_02d_value in Vi.
  assert (V : k / 2 + 1 = i / 2 + 1) by congruence. lia.
Qed.

Lemma chapter_paths_from md_path j titles p :
  In p (chapter_paths md_path j titles) ->
  exists k t, p = chapter_path md_path k t /\ j / 2 <= k / 2.
Proof.
  revert j. induction titles as [|t titles IH]; intros j Hin; [destruct Hin|].
  cbn [chapter_paths] in Hin. destruct Hin as [<- | Hin].
  - exists j, t. split; [reflexivity | lia].
  - destruct (IH (j + 2) Hin) as (k & t' & -> & Hk).
    exists k, t'. split; [reflexivity|].
    replace (j + 2) with (j + 1 * 2) in Hk by lia.
    rewrite Nat.div_add in Hk by lia. lia.
Qed.

Lemma chapter_paths_distinct md_path i titles : NoDup (chapter_paths md_path i titles).
Proof.
  revert i. induction titles as [|t titles IH]; intros i; [constructor|].
  cbn [chapter_paths]. apply NoDup_cons_2; [|apply IH].
  intros Hin. apply list_elem_of_In in Hin.
  destruct (chapter_paths_from md_path (i + 2) titles _ Hin) as (k & t' & E & Hk).
  apply chapter_path_number in E.
  replace (i + 2) with (i + 1 * 2) in Hk by lia.
  rewrite Nat.div_add in Hk by lia. lia.
Qed.

(** One turn of the loop of the splitter: the chapter file is
    written where it can be, and the turn fails where it cannot. *)
Lemma write_chapter_outcome md_path i t c w :
  Splitter.write_chapter md_path i t c w
  = if can_write (abspath (chapter_path md_path i t))
    then (inr (chapter_path md_path i t),
          {| files := <[abspath (chapter_path md_path i t)
                       := Text ("# " +:+ Py.strip t +:+ String Py.LF (String Py.LF c))]>
                        (files w);
             trace := trace w ++ [EvWrite (abspath (chapter_path md_path i t))] |})
    else (inl (OSError (chapter_path md_path i t)), w).
Proof.
  unfold Splitter.write_chapter. fold (chapter_path md_path i t).
  unfold bind at 1. unfold write_text at 1.
  destruct (can_write (abspath (chapter_path md_path i t))); [|reflexivity].
  unfold bind, path_exists. cbn [files]. rewrite lookup_insert_eq.
  rewrite bool_decide_eq_true_2 by (eexists; reflexivity). reflexivity.
Qed.

(** The paths the loop of the splitter returns. *)
Lemma write_chapters_paths md_path i sections out w out' w' :
  Splitter.write_chapters md_path i sections out w = (inr out', w') ->
  exists titles,
    out' = out ++ chapter_paths md_path i titles
    /\ length titles = (length sections + 1) / 2.
Proof.
  revert i out w.
  induction sections as [sections IH] using (induction_ltof1 _ (@length _)).
  unfold ltof in IH. intros i out w E.
  destruct sections as [|t [|c rest]].
  - cbn in E. injection E as <- _. exists []. rewrite app_nil_r. split; reflexivity.
  - cbn [Splitter.write_chapters] in E. unfold bind at 1 in E.
    rewrite write_chapter_outcome in E.
    destruct (can_write (abspath (chapter_path md_path i t))); [|discriminate].
    unfold ret in E. injection E as <- _. exists [t]. split; reflexivity.
  - cbn [Splitter.write_chapters] in E. unfold bind at 1 in E.
    rewrite write_chapter_outcome in E.
    destruct (can_write (abspath (chapter_path md_path i t))); [|discriminate].
    apply IH in E as (titles & -> & L); [|simpl; lia].
    exists (t :: titles). rewrite <- app_assoc. split; [reflexivity|].
    cbn [length]. rewrite L.
    replace (S (S (length rest)) + 1) with (length rest + 1 + 1 * 2) by lia.
    rewrite Nat.div_add by lia. lia.
Qed.

Lemma re_split_from_length fuel bol cur s :
  0 < length (Splitter.re_split_from fuel bol cur s).
Proof.
  revert bol cur s. induction fuel as [|f IH]; intros bol cur s; [simpl; lia|].
  cbn [Splitter.re_split_from].
  destruct (if bol then Splitter.match_h1 s else None) as [[t r]|]; [simpl; lia|].
  destruct s as [|c s]; [simpl; lia | apply IH].
Qed.

(** X2. Whatever the document, a split that succeeds returns as many
    paths as it reports chapters, and no path twice: the number in front
    of each file name keeps chapters with the same title apart. *)
Theorem split_files_are_distinct md_path w r w' :
  Splitter.split_markdown md_path w = (Success r, w') ->
  NoDup (Splitter.split_files r)
  /\ length (Splitter.split_files r) = Splitter.chapters_reported r.
Proof.
  unfold Splitter.split_markdown, catch, Splitter.split_markdown_body.
  unfold bind at 1. unfold path_exists.
  destruct (bool_decide (is_Some (files w !! abspath md_path))); cbn [negb];
    [|discriminate].
  unfold bind at 1. unfold read_text.
  destruct (files w !! abspath md_path) as [[content|d]|]; [|discriminate|discriminate].
  unfold bind at 1.
  destruct (Splitter.write_chapters md_path 1 (tail (Splitter.re_split_h1 content)) [] _)
    as [[e|out] w1] eqn:W; [discriminate|].
  unfold ret. intros E. injection E as <- _. cbn [Splitter.split_files Splitter.chapters_reported].
  apply write_chapters_paths in W as (titles & -> & L). cbn [app].
  split; [apply chapter_paths_distinct|].
  assert (Len : forall n t, length (chapter_paths md_path n t) = length t).
  { intros n t. revert n. induction t as [|x t IHt]; intros n; [reflexivity|].
    cbn [chapter_paths length]. rewrite IHt. reflexivity. }
  rewrite Len, L.
  pose proof (re_split_from_length (S (String.length content)) true "" content) as P.
  unfold Splitter.re_split_h1.
  destruct (Splitter.re_split_from (S (String.length content)) true "" content)
    as [|s0 rest]; [simpl in P; lia|].
  cbn [tail length]. replace (length rest + 1) with (S (length rest)) by lia. reflexivity.
Qed.

End DistinctFiles.

(** Two chapters with the same title go to two files. *)
Lemma split_files_are_distinct_witness :
  let w := one_file "/book/draft.md" (ln "# A" +:+ ln "one" +:+ ln "# A" +:+ ln "two") in
  let r := {| Splitter.split_files := ["/book/01-A.md"; "/book/02-A.md"];
              Splitter.chapters_reported := 2 |} in
  fst (Splitter.split_markdown (H := posix_runtime) "/book/draft.md" w) = Success r
  /\ NoDup (Splitter.split_files r)
  /\ length (Splitter.split_files r) = Splitter.chapters_reported r.
Proof.
  intros w r.
  assert (E : Splitter.split_markdown (H := posix_runtime) "/book/draft.md" w
              = (Success r, snd (Splitter.split_markdown (H := posix_runtime)
                                   "/book/draft.md" w)))
    by (vm_compute; reflexivity).
  split; [rewrite E; reflexivity|].
  exact (split_files_are_distinct (H := posix_runtime) "/book/draft.md" w r _ E).
Defined.


(** ** Tables from the document to the markup and back *)

Section TableRoundTrip.
Context `{Runtime}.

Lemma rev_acc_app2 x y acc : Py.rev_acc (x +:+ y) acc = Py.rev_acc y (Py.rev_acc x acc).
Proof.
  revert acc. induction x as [|c x IH]; intros acc; [reflexivity|].
  rewrite app_String. simpl. apply IH.
Qed.

Lemma rev_snoc x b : Py.rev (x +:+ String b "") = String b (Py.rev x).
Proof. unfold Py.rev. rewrite rev_acc_app2. reflexivity. Qed.

Lemma rev_involutive s : Py.rev (Py.rev s) = s.
Proof. unfold Py.rev at 2. rewrite rev_pushed. reflexivity. Qed.

Lemma length_rev_acc s acc :
  String.length (Py.rev_acc s acc) = String.length s + String.length acc.
Proof.
  revert acc. induction s as [|c s IH]; intros acc; [reflexivity|].
  simpl. rewrite IH. simpl. lia.
Qed.

Lemma length_lstrip f s : String.length (Py.lstrip_by f s) <= String.length s.
Proof.
  induction s as [|c s IH]; [reflexivity|].
  cbn [Py.lstrip_by]. destruct (f c); simpl; lia.
Qed.

Lemma length_rstrip f s : String.length (Py.rstrip_by f s) <= String.length s.
Proof.
  unfold Py.rstrip_by, Py.rev. rewrite length_rev_acc.
  pose proof (length_lstrip f (Py.rev_acc s "")) as L.
  rewrite length_rev_acc in L. simpl in *. lia.
Qed.

(** A string that [strip] leaves alone is left alone by both of its
    halves. *)
Lemma strip_fixed s :
  Py.strip s = s ->
  Py.lstrip_by Py.isspace s = s /\ Py.rstrip_by Py.isspace s = s.
Proof.
  unfold Py.strip. intros E.
  assert (L : Py.lstrip_by Py.isspace s = s).
  { pose proof (length_rstrip Py.isspace (Py.lstrip_by Py.isspace s)) as L1.
    pose proof (length_lstrip Py.isspace s) as L2. rewrite E in L1.
    destruct s as [|c s]; [reflexivity|].
    cbn [Py.lstrip_by] in *. destruct (Py.isspace c); [|reflexivity].
    pose proof (length_lstrip Py.isspace s). simpl in L1. lia. }
  rewrite L in E. split; [exact L | exact E].
Qed.

Lemma rstrip_snoc_space f s a : f a = true ->
  Py.rstrip_by f (s +:+ String a "") = Py.rstrip_by f s.
Proof.
  intros Ha. unfold Py.rstrip_by. rewrite rev_snoc. cbn [Py.lstrip_by].
  rewrite Ha. reflexivity.
Qed.

Lemma rstrip_snoc_keep f s b : f b = false ->
  Py.rstrip_by f (s +:+ String b "") = s +:+ String b "".
Proof.
  intros Hb. unfold Py.rstrip_by. rewrite rev_snoc. cbn [Py.lstrip_by].
  rewrite Hb. rewrite <- rev_snoc. apply rev_involutive.
Qed.

(** A clean cell comes back from between its two blanks. *)
Lemma strip_padded c :
  Py.strip c = c -> Py.strip (" " +:+ c +:+ " ") = c.
Proof.
  intros E. destruct (strip_fixed c E) as [L R].
  unfold Py.strip. rewrite app_String, app_empty_l.
  cbn [Py.lstrip_by]. change (Py.isspace " ") with true. cbv iota.
  destruct c as [|a x]; [reflexivity|].
  cbn [Py.lstrip_by] in L. rewrite app_String. cbn [Py.lstrip_by].
  destruct (Py.isspace a) eqn:Ea.
  - pose proof (length_lstrip Py.isspace x) as Lx. rewrite L in Lx. simpl in Lx. lia.
  - rewrite <- app_String, rstrip_snoc_space by reflexivity. exact R.
Qed.

Lemma all_chars_app f a b :
  Layout.all_chars f (a +:+ b) = Layout.all_chars f a && Layout.all_chars f b.
Proof.
  induction a as [|c a IH]; [reflexivity|].
  rewrite app_String. cbn [Layout.all_chars]. rewrite IH, andb_assoc. reflexivity.
Qed.

Ltac norm_app :=
  repeat first [rewrite app_assoc_s | rewrite app_String | rewrite app_empty_l].

Lemma join_padded c cs :
  " " +:+ Py.join " | " (c :: cs) +:+ " |"
  = Py.concat (map (fun c => " " +:+ c +:+ " |") (c :: cs)).
Proof.
  revert c. induction cs as [|d cs IH]; intros c.
  - cbn [Py.join map Py.concat]. rewrite app_empty_r. norm_app. reflexivity.
  - rewrite join_cons by discriminate.
    change (map (fun c0 => " " +:+ c0 +:+ " |") (c :: d :: cs))
      with ((" " +:+ c +:+ " |") :: map (fun c0 => " " +:+ c0 +:+ " |") (d :: cs)).
    cbn [Py.concat]. rewrite <- (IH d). norm_app. reflexivity.
Qed.

Lemma row_line_text cells :
  cells <> [] -> ToMarkdown.row_line cells = ln (Markup.row_text cells).
Proof.
  intros Hne. destruct cells as [|c cs]; [congruence|].
  unfold ToMarkdown.row_line, Markup.row_text, ln.
  rewrite <- join_padded. norm_app. reflexivity.
Qed.

Lemma clean_cell_parts c :
  Markup.clean_cell c = true ->
  Py.strip c = c
  /\ Layout.all_chars (fun a => negb (Ascii.eqb a "|")) c = true
  /\ Layout.all_chars Splitter.not_lf c = true.
Proof.
  unfold Markup.clean_cell. intros Hc. apply andb_true_iff in Hc as [Hc _].
  apply andb_true_iff in Hc as [Hs Ha].
  apply String.eqb_eq in Hs. split; [exact Hs|].
  clear Hs. induction c as [|a c IH]; [split; reflexivity|].
  cbn [Layout.all_chars] in *. apply andb_true_iff in Ha as [Ha Hc].
  apply andb_true_iff in Ha as [H1 H2]. destruct (IH Hc) as [I1 I2].
  rewrite H1, H2, I1, I2. split; reflexivity.
Qed.

Lemma clean_cells_xml cells :
  Forall (fun c => Markup.clean_cell c = true) cells ->
  forallb Converter.xml_compatible cells = true.
Proof.
  intros Hall. induction Hall as [|c cells Hc _ IH]; [reflexivity|].
  cbn [forallb]. rewrite IH, andb_true_r.
  unfold Markup.clean_cell in Hc. apply andb_true_iff in Hc as [_ Hx]. exact Hx.
Qed.

Lemma clean_rows_xml rows :
  Forall (Forall (fun c => Markup.clean_cell c = true)) rows ->
  forallb (forallb Converter.xml_compatible) rows = true.
Proof.
  intros Hall. induction Hall as [|row rows Hr _ IH]; [reflexivity|].
  cbn [forallb]. rewrite IH, (clean_cells_xml row Hr). reflexivity.
Qed.

Lemma drop_app x y : Py.drop (String.length x) (x +:+ y) = y.
Proof. induction x as [|c x IH]; [reflexivity | exact IH]. Qed.

Lemma startswith_refl p : Py.startswith p p = true.
Proof.
  induction p as [|c p IH]; [reflexivity|]. simpl. rewrite Ascii.eqb_refl. exact IH.
Qed.

Lemma endswith_app y p : Py.endswith p (y +:+ p) = true.
Proof.
  unfold Py.endswith. rewrite length_app_s.
  replace (String.length y + String.length p - String.length p) with (String.length y) by lia.
  rewrite drop_app, startswith_refl. apply Nat.leb_le. lia.
Qed.

(** A row text ends with a pipe. *)
Lemma row_text_ends cells : exists y, Markup.row_text cells = y +:+ "|".
Proof.
  unfold Markup.row_text.
  assert (C : forall c cs, exists z,
    Py.concat (map (fun c0 => " " +:+ c0 +:+ " |") (c :: cs)) = z +:+ "|").
  { intros c cs. revert c. induction cs as [|d cs IH]; intros c.
    - exists (" " +:+ c +:+ " "). cbn [map Py.concat]. rewrite app_empty_r.
      norm_app. reflexivity.
    - destruct (IH d) as [z E].
      exists ((" " +:+ c +:+ " |") +:+ z).
      change (map (fun c0 => " " +:+ c0 +:+ " |") (c :: d :: cs))
        with ((" " +:+ c +:+ " |") :: map (fun c0 => " " +:+ c0 +:+ " |") (d :: cs)).
      cbn [Py.concat]. rewrite E. norm_app. reflexivity. }
  destruct cells as [|c cs].
  - exists "". reflexivity.
  - destruct (C c cs) as [z E]. exists (String "|" z). rewrite E. reflexivity.
Qed.

(** Stripping a row line gives the row text, which is a table row. *)
Lemma strip_row_line cells :
  Py.strip (ln (Markup.row_text cells)) = Markup.row_text cells
  /\ Converter.is_table_row (Markup.row_text cells) = true.
Proof.
  destruct (row_text_ends cells) as [y E]. split.
  - unfold Py.strip, ln.
    assert (L : Py.lstrip_by Py.isspace (Markup.row_text cells +:+ String Py.LF "")
                = Markup.row_text cells +:+ String Py.LF "") by reflexivity.
    rewrite L, rstrip_snoc_space by reflexivity.
    rewrite E. apply rstrip_snoc_keep. reflexivity.
  - unfold Converter.is_table_row. rewrite E at 2. rewrite endswith_app, andb_true_r.
    reflexivity.
Qed.

Lemma split_pipe_piece x rest :
  Layout.all_chars (fun a => negb (Ascii.eqb a "|")) x = true ->
  Py.split_char "|" (x +:+ String "|" rest) = x :: Py.split_char "|" rest.
Proof.
  induction x as [|a x IH]; intros Hx.
  - rewrite app_empty_l. reflexivity.
  - cbn [Layout.all_chars] in Hx. apply andb_true_iff in Hx as [Ha Hx].
    apply negb_true_iff in Ha. rewrite app_String. cbn [Py.split_char].
    rewrite Ha, (IH Hx). reflexivity.
Qed.

Lemma split_row_text cells :
  Forall (fun c => Markup.clean_cell c = true) cells ->
  Py.split_char "|" (Py.concat (map (fun c => " " +:+ c +:+ " |") cells))
  = map (fun c => " " +:+ c +:+ " ") cells ++ [""].
Proof.
  intros Hall. induction Hall as [|c cs Hc _ IH]; [reflexivity|].
  cbn [map Py.concat app].
  destruct (clean_cell_parts c Hc) as (_ & Hp & _).
  replace ((" " +:+ c +:+ " |") +:+ Py.concat (map (fun c0 => " " +:+ c0 +:+ " |") cs))
    with ((" " +:+ c +:+ " ") +:+ String "|" (Py.concat (map (fun c0 => " " +:+ c0 +:+ " |") cs)))
    by (norm_app; reflexivity).
  rewrite split_pipe_piece, IH; [reflexivity|].
  rewrite app_String, app_empty_l. cbn [Layout.all_chars].
  rewrite all_chars_app, Hp. reflexivity.
Qed.

(** The cells read from a row text are the cells it was made of. *)
Lemma cells_of_row_text cells :
  Forall (fun c => Markup.clean_cell c = true) cells ->
  Converter.row_cells (Markup.row_text cells) = cells.
Proof.
  intros Hall. unfold Converter.row_cells, Markup.row_text.
  cbn [Py.split_char]. change (Ascii.eqb "|" "|") with true. cbv iota.
  rewrite (split_row_text cells Hall). unfold Py.middle. cbn [tail].
  rewrite removelast_last, map_map.
  induction Hall as [|c cs Hc _ IH]; [reflexivity|].
  cbn [map]. destruct (clean_cell_parts c Hc) as (Hs & _ & _).
  rewrite (strip_padded c Hs), IH. reflexivity.
Qed.

Lemma readlines_acc_line l cur rest :
  Layout.all_chars Splitter.not_lf l = true ->
  Py.readlines_acc cur (l +:+ String Py.LF rest)
  = Py.rev (String Py.LF (Py.rev_acc l cur)) :: Py.readlines_acc "" rest.
Proof.
  revert cur. induction l as [|c l IH]; intros cur Hl.
  - rewrite app_empty_l. cbn [Py.readlines_acc Py.rev_acc].
    change (Ascii.eqb Py.LF Py.LF) with true. reflexivity.
  - cbn [Layout.all_chars] in Hl. apply andb_true_iff in Hl as [Hc Hl].
    unfold Splitter.not_lf in Hc. apply negb_true_iff in Hc.
    rewrite app_String. cbn [Py.readlines_acc Py.rev_acc]. rewrite Hc. apply IH, Hl.
Qed.

(** Reading back lines that were each written with a line feed. *)
Lemma readlines_lines ls :
  Forall (fun l => Layout.all_chars Splitter.not_lf l = true) ls ->
  Py.readlines (Py.concat (map ln ls)) = map ln ls.
Proof.
  unfold Py.readlines. intros Hall. induction Hall as [|l ls Hl _ IH]; [reflexivity|].
  cbn [map Py.concat]. unfold ln at 1. rewrite app_assoc_s, app_String, app_empty_l.
  rewrite (readlines_acc_line l "" _ Hl), IH. f_equal.
  rewrite rev_cons, rev_pushed. reflexivity.
Qed.

Lemma row_text_no_lf cells :
  Forall (fun c => Markup.clean_cell c = true) cells ->
  Layout.all_chars Splitter.not_lf (Markup.row_text cells) = true.
Proof.
  intros Hall. unfold Markup.row_text. cbn [Layout.all_chars].
  change (Splitter.not_lf "|") with true. cbn [andb].
  induction Hall as [|c cs Hc _ IH]; [reflexivity|].
  cbn [map Py.concat]. destruct (clean_cell_parts c Hc) as (_ & _ & Hn).
  rewrite !all_chars_app, Hn, IH. reflexivity.
Qed.

Lemma rule_cells_clean n : Forall (fun c => Markup.clean_cell c = true) (repeat "---" n).
Proof. induction n as [|n IH]; constructor; [reflexivity | exact IH]. Qed.

(** A table line of clean cells is a table line, and its cells are
    the cells. *)
Lemma table_line_of_cells cells :
  Forall (fun c => Markup.clean_cell c = true) cells ->
  Markup.table_line (ln (Markup.row_text cells)) = true
  /\ Markup.cells (ln (Markup.row_text cells)) = cells.
Proof.
  intros Hall. unfold Markup.table_line, Markup.cells.
  destruct (strip_row_line cells) as [-> Ht]. split; [exact Ht|].
  apply cells_of_row_text, Hall.
Qed.

Lemma fill_row_full n (row : list string) : length row = n -> Converter.fill_row n row = row.
Proof.
  intros <-. unfold Converter.fill_row. rewrite Nat.sub_diag. apply app_nil_r.
Qed.

(** X20. A table written by the document to markup converter and read by
    the markup to document converter is the table it was: for a table
    with a first row of at least one cell, rows of equal length, and
    cell texts without pipe, line feed and white space around them, the
    header is the first row and the body the other rows; the rule of
    dashes is gone.  The cell texts are texts of a document, of
    characters the document format takes. *)
Theorem table_survives_round_trip md_path first rest w :
  first <> [] ->
  Forall (fun row => length row = length first) rest ->
  Forall (Forall (fun c => Markup.clean_cell c = true)) (first :: rest) ->
  exists text,
    ToMarkdown.table_markup (first :: rest) = inr text
    /\ Spec.final_document md_path (Py.readlines text) w = inr [TableBlock first rest].
Proof.
  intros Hne Hlen Hclean.
  inversion Hclean as [|? ? Hfirst Hrest]; subst.
  set (rule := repeat "---" (length first)).
  assert (Hrule : rule <> []) by (unfold rule; destruct first; [congruence | discriminate]).
  set (lines := Markup.row_text first :: Markup.row_text rule
                :: map Markup.row_text rest ++ [""; ""; ""]).
  exists (Py.concat (map ln lines)). split.
  - unfold ToMarkdown.table_markup, ToMarkdown.convert_table_to_markdown.
    fold rule. f_equal. unfold lines. cbn [map Py.concat].
    rewrite map_app, concat_app. cbn [map Py.concat].
    rewrite (row_line_text first Hne), (row_line_text rule Hrule).
    assert (B : Py.concat (map ToMarkdown.row_line rest)
                = Py.concat (map ln (map Markup.row_text rest))).
    { clear - Hlen Hne. induction Hlen as [|row rest Hrow _ IH]; [reflexivity|].
      cbn [map Py.concat]. rewrite IH, row_line_text; [reflexivity|].
      destruct row; [destruct first; [congruence | discriminate] | discriminate]. }
    rewrite B. generalize (Py.concat (map ln (map Markup.row_text rest))).
    generalize (Markup.row_text first), (Markup.row_text rule). intros a b c.
    unfold ln. norm_app. rewrite ?app_empty_r. reflexivity.
  - assert (Hnolf : Forall (fun l => Layout.all_chars Splitter.not_lf l = true) lines).
    { unfold lines. constructor; [apply row_text_no_lf, Hfirst|].
      constructor; [apply row_text_no_lf, rule_cells_clean|].
      apply Forall_app. split.
      - clear - Hrest. induction Hrest as [|row rest Hrow _ IH]; constructor;
          [apply row_text_no_lf, Hrow | exact IH].
      - repeat constructor. }
    rewrite (readlines_lines lines Hnolf). unfold lines, Spec.final_document.
    cbn [map]. rewrite map_app. cbn [map].
    destruct (table_line_of_cells first Hfirst) as [T1 C1].
    destruct (table_line_of_cells rule (rule_cells_clean _)) as [T2 C2].
    rewrite convert_lines_cons. unfold Converter.step at 1.
    unfold Markup.table_line in T1. rewrite T1. unfold ret at 1.
    cbn [Converter.in_table Converter.initial Converter.doc Converter.current_para
         Converter.table_rows app].
    fold (Markup.cells (ln (Markup.row_text first))). rewrite C1.
    rewrite (app_comm_cons _ _ (ln (Markup.row_text rule))), convert_lines_app.
    rewrite convert_table_lines; [|constructor; [exact T2|]|reflexivity].
    2:{ clear - Hrest. induction Hrest as [|row rest Hrow _ IH]; constructor;
          [apply table_line_of_cells, Hrow | exact IH]. }
    cbn [Converter.doc Converter.current_para Converter.table_rows map app].
    rewrite C2.
    assert (Cs : map Markup.cells (map ln (map Markup.row_text rest)) = rest).
    { clear - Hrest. induction Hrest as [|row rest Hrow _ IH]; [reflexivity|].
      cbn [map]. rewrite IH. f_equal. apply table_line_of_cells, Hrow. }
    rewrite Cs.
    rewrite convert_lines_cons. unfold Converter.step at 1.
    change (Converter.is_table_row (Py.strip (ln ""))) with false. cbv iota.
    cbn [Converter.in_table Converter.table_rows Converter.doc].
    assert (Fit : forallb (fun row => length row <=? length first) rest = true).
    { clear - Hlen. induction Hlen as [|row rest Hrow _ IH]; [reflexivity|].
      cbn [forallb]. rewrite IH, Hrow, Nat.leb_refl. reflexivity. }
    rewrite (flush_table_fits first rule rest _ (clean_cells_xml _ Hfirst) Fit
               (clean_rows_xml _ Hrest)).
    unfold bind at 1. unfold lift at 1.
    change (Py.startswith "#" (Py.strip (ln ""))) with false.
    change (Py.startswith "![" (Py.strip (ln ""))) with false.
    change (negb (String.eqb (Py.strip (ln "")) "")) with false. cbv iota.
    unfold ret at 1.
    rewrite convert_lines_cons, (step_blank md_path _ _ _ (ln "") w eq_refl).
    rewrite convert_lines_cons, (step_blank md_path _ _ _ (ln "") w eq_refl).
    cbn [Converter.convert_lines ret Converter.doc app]. unfold ret. cbn [Converter.doc].
    f_equal. f_equal. f_equal.
    clear - Hlen. induction Hlen as [|row rest Hrow _ IH]; [reflexivity|].
    cbn [map]. rewrite IH, (fill_row_full _ row Hrow). reflexivity.
Qed.

End TableRoundTrip.

(** A table of two columns with one body row. *)
Lemma table_survives_round_trip_witness :
  let first := ["Name"; "Size"] in
  let rest := [["a.md"; "12 kB"]] in
  first <> []
  /\ Forall (fun row => length row = length first) rest
  /\ Forall (Forall (fun c => Markup.clean_cell c = true)) (first :: rest)
  /\ exists text,
       ToMarkdown.table_markup (first :: rest) = inr text
       /\ Spec.final_document (H := posix_runtime) "/book/draft.md" (Py.readlines text)
            empty_world
          = inr [TableBlock first rest].
Proof.
  intros first rest.
  assert (Hne : first <> []) by discriminate.
  assert (Hlen : Forall (fun row => length row = length first) rest)
    by (repeat constructor).
  assert (Hclean : Forall (Forall (fun c => Markup.clean_cell c = true)) (first :: rest))
    by (repeat constructor).
  split; [exact Hne|]. split; [exact Hlen|]. split; [exact Hclean|].
  exact (table_survives_round_trip (H := posix_runtime) "/book/draft.md" first rest
           empty_world Hne Hlen Hclean).
Defined.


(** ** Rewrite that keeps the format, and literal replace *)

Section RewriteAsReplace.
Context `{Runtime}.

Lemma present_count sub s : Py.contains sub s = true -> 0 < Py.count sub s.
Proof.
  unfold Py.contains, Py.count. intros Hc.
  destruct sub as [|c sub]; [cbv beta iota; lia|].
  destruct s as [|d s]; [discriminate|].
  cbn [String.length Py.count_from].
  destruct (Py.find (String c sub) (String d s)) as [[b a]|]; [lia | discriminate].
Qed.

Lemma rewrite_replace_loops tgt new lines acc ch n old :
  ch = (0 <? n) ->
  exists n',
    Editor.replace_loop false tgt new lines acc n old
    = inr (fst (fst (Editor.rewrite_loop true tgt new lines acc ch old)), n',
           snd (Editor.rewrite_loop true tgt new lines acc ch old))
    /\ snd (fst (Editor.rewrite_loop true tgt new lines acc ch old)) = (0 <? n').
Proof.
  revert acc ch n old. induction lines as [|line lines IH]; intros acc ch n old Hch.
  - exists n. split; [reflexivity | exact Hch].
  - cbn [Editor.replace_loop Editor.rewrite_loop]. rewrite andb_true_r, keep_markers_id.
    destruct (Py.contains tgt line) eqn:C.
    + apply IH. symmetry. apply Nat.ltb_lt.
      pose proof (present_count _ _ C). lia.
    + apply IH, Hch.
Qed.

(** X6. A rewrite that keeps the format, which is what [preserve_format]
    true or absent asks for, does to the buffer what a replace with a
    literal target does: the same lines come out, the same line is
    reported as old content, and the rewrite reports a change exactly
    when the replace counts an occurrence. *)
Theorem rewrite_preserving_is_literal_replace lines tgt new ropts lopts :
  default true (Editor.preserve_format ropts) = true ->
  default false (Editor.is_regex lopts) = false ->
  exists n,
    Editor.replace_content lines tgt new lopts
    = inr (fst (fst (Editor.rewrite_content lines tgt new ropts)), n,
           snd (Editor.rewrite_content lines tgt new ropts))
    /\ snd (fst (Editor.rewrite_content lines tgt new ropts)) = (0 <? n).
Proof.
  intros Hp Hl. unfold Editor.replace_content, Editor.rewrite_content.
  rewrite Hp, Hl. apply rewrite_replace_loops. reflexivity.
Qed.

End RewriteAsReplace.

(** A buffer of two lines, one with the target twice. *)
Lemma rewrite_preserving_is_literal_replace_witness :
  let ropts := {| Editor.is_regex := None; Editor.preserve_format := None |} in
  let lopts := {| Editor.is_regex := Some false; Editor.preserve_format := None |} in
  let lines := [ln "a TODO and a TODO"; ln "done"] in
  Editor.rewrite_content lines "TODO" "note" ropts
  = ([ln "a note and a note"; ln "done"], true, Some (ln "a TODO and a TODO"))
  /\ exists n,
       Editor.replace_content (H := posix_runtime) lines "TODO" "note" lopts
       = inr (fst (fst (Editor.rewrite_content lines "TODO" "note" ropts)),
              n, snd (Editor.rewrite_content lines "TODO" "note" ropts))
       /\ snd (fst (Editor.rewrite_content lines "TODO" "note" ropts))
          = (0 <? n).
Proof.
  intros ropts lopts lines. split; [reflexivity|].
  exact (rewrite_preserving_is_literal_replace (H := posix_runtime) lines "TODO" "note"
           ropts lopts eq_refl eq_refl).
Defined.

(** ** What the converter and the splitter do to the files *)

Section ToolFiles.
Context `{Runtime}.

Lemma step_files md_path st raw w :
  files (snd (Converter.step md_path st raw w)) = files w
  /\ writes (trace (snd (Converter.step md_path st raw w))) = writes (trace w).
Proof.
  unfold Converter.step.
  destruct (Converter.is_table_row (Py.strip raw)); [split; reflexivity|].
  cbv beta iota delta [bind lift ret].
  destruct (Converter.in_table st);
    [destruct (Converter.flush_table (Converter.table_rows st) (Converter.doc st)) as [e|d];
     [split; reflexivity|]
    |set (d := Converter.doc st)].
  all: destruct (Py.startswith "#" (Py.strip raw));
    [destruct (Converter.add_heading _ _ d); split; reflexivity|].
  all: destruct (Py.startswith "![" (Py.strip raw));
    [destruct (Converter.image_target (Py.strip raw)) as [target|]; [|split; reflexivity];
     unfold Converter.try_add_picture;
     destruct (files w !! abspath _) as [[bytes|?]|];
       [|split; reflexivity|split; reflexivity];
     destruct (is_image bytes); [|split; reflexivity];
     cbn [snd files trace]; rewrite writes_app, writes_read; split; [reflexivity | lia]|].
  all: destruct (negb (String.eqb (Py.strip raw) "")); [|split; reflexivity].
  all: destruct (Converter.xml_compatible (Py.strip raw)); [|split; reflexivity].
  all: destruct (Converter.current_para st); split; reflexivity.
Qed.

Lemma convert_lines_files md_path lines st w :
  files (snd (Converter.convert_lines md_path lines st w)) = files w
  /\ writes (trace (snd (Converter.convert_lines md_path lines st w))) = writes (trace w).
Proof.
  revert st w. induction lines as [|raw lines IH]; intros st w; [split; reflexivity|].
  cbn [Converter.convert_lines]. unfold bind.
  pose proof (step_files md_path st raw w) as [Hf Ht].
  destruct (Converter.step md_path st raw w) as [[e|st1] w1]; cbn [snd] in Hf, Ht.
  - split; assumption.
  - destruct (IH st1 w1) as [Hf' Ht']. split; congruence.
Qed.

(** X19. Whatever the markup, a conversion that succeeds changes one file,
    the document at the path it reports, by one write, and a
    conversion that fails, on a missing file, a table row with too many
    cells or a heading level out of range, changes none: no partial
    document is saved, and the markup file and the pictures are only
    read. *)
Theorem conversion_saves_one_document file_path output_dir w :
  match Converter.call file_path output_dir w with
  | (Success r, w') =>
      exists d,
        files w' = <[abspath (Converter.word_path r) := Docx d]> (files w)
        /\ writes (trace w') = writes (trace w) + 1
  | (Failed _, w') => files w' = files w /\ writes (trace w') = writes (trace w)
  end.
Proof.
  unfold Converter.call, catch.
  destruct file_path as [p|]; [|split; reflexivity].
  unfold Converter.markdown_to_word. unfold bind at 1. unfold read_text.
  destruct (files w !! abspath p) as [[text|d]|]; [|split; reflexivity|split; reflexivity].
  unfold bind at 1.
  set (w1 := {| files := files w; trace := trace w ++ [EvRead (abspath p)] |}).
  pose proof (convert_lines_files p (Py.readlines text) Converter.initial w1) as [Hf Ht].
  assert (Hw1 : writes (trace w1) = writes (trace w))
    by (unfold w1; cbn [trace]; rewrite writes_app, writes_read; lia).
  destruct (Converter.convert_lines p (Py.readlines text) Converter.initial w1)
    as [[e|st] w2]; cbn [snd] in Hf, Ht.
  - split; [exact Hf | lia].
  - unfold bind, save_docx, ret. exists (Converter.doc st).
    cbn [files trace Converter.word_path].
    rewrite Hf, writes_app, writes_write, Ht, Hw1. split; reflexivity.
Qed.

(** The loop of the splitter writes the chapter files one after the
    other and stops at the first that cannot be written.  Whether it
    returns or fails, it has written once for each chapter it got to,
    every file it wrote is a text file afterwards, and no other file
    has changed. *)
Lemma write_chapters_files md_path sections :
  forall i out w,
  exists titles,
    let new := chapter_paths md_path i titles in
    let w' := snd (Splitter.write_chapters md_path i sections out w) in
    writes (trace w') = writes (trace w) + length new
    /\ Forall (fun p => exists text, files w' !! abspath p = Some (Text text)) new
    /\ (forall q, files w' !! q = files w !! q \/ q ∈ map abspath new)
    /\ (forall q text, files w !! q = Some (Text text) ->
                       exists text', files w' !! q = Some (Text text'))
    /\ match fst (Splitter.write_chapters md_path i sections out w) with
       | inr out' => out' = out ++ new /\ length new = (length sections + 1) / 2
       | inl e =>
           exists p, e = OSError p /\ can_write (abspath p) = false
                     /\ length new < (length sections + 1) / 2
       end.
Proof.
  induction sections as [sections IH] using (induction_ltof1 _ (@length _)).
  unfold ltof in IH. intros i out w.
  assert (Keep : forall (w0 : world) q text,
    files w0 !! q = Some (Text text) -> exists text', files w0 !! q = Some (Text text'))
    by (intros w0 q text Hq; exists text; exact Hq).
  assert (Done : forall p text q w0,
    q <> abspath p ->
    files {| files := <[abspath p := Text text]> (files w0);
             trace := trace w0 ++ [EvWrite (abspath p)] |} !! q = files w0 !! q)
    by (intros; cbn [files]; apply lookup_insert_ne; congruence).
  destruct sections as [|t [|c rest]].
  - exists []. cbn [chapter_paths Splitter.write_chapters ret snd fst length map].
    rewrite app_nil_r, Nat.add_0_r.
    repeat split; [constructor | left; reflexivity | apply Keep].
  - set (p := chapter_path md_path i t).
    assert (Eq : Splitter.write_chapters md_path i [t] out w
      = if can_write (abspath p)
        then (inr (out ++ [p]),
              {| files := <[abspath p := Text ("# " +:+ Py.strip t
                                                +:+ String Py.LF (String Py.LF ""))]>
                            (files w);
                 trace := trace w ++ [EvWrite (abspath p)] |})
        else (inl (OSError p), w)).
    { cbn [Splitter.write_chapters]. unfold bind. rewrite write_chapter_outcome.
      fold p. destruct (can_write (abspath p)); reflexivity. }
    rewrite Eq. clear Eq. destruct (can_write (abspath p)) eqn:Hcan.
    + exists [t]. cbn [chapter_paths snd fst length map files trace]. fold p.
      rewrite writes_app, writes_write.
      split; [reflexivity|].
      split; [constructor; [eexists; apply lookup_insert_eq | constructor]|].
      split.
      { intros q. destruct (decide (q = abspath p)) as [->|Hq].
        - right. apply list_elem_of_singleton. reflexivity.
        - left. apply lookup_insert_ne. congruence. }
      split.
      { intros q text Hq. destruct (decide (q = abspath p)) as [->|Hne].
        - eexists. apply lookup_insert_eq.
        - exists text. rewrite lookup_insert_ne by congruence. exact Hq. }
      split; reflexivity.
    + exists []. cbn [chapter_paths snd fst length map].
      rewrite Nat.add_0_r.
      repeat split; [constructor | left; reflexivity | apply Keep|].
      exists p. repeat split; [exact Hcan | cbn; lia].
  - set (p := chapter_path md_path i t).
    set (w1 := {| files := <[abspath p := Text ("# " +:+ Py.strip t
                                                 +:+ String Py.LF (String Py.LF c))]>
                             (files w);
                  trace := trace w ++ [EvWrite (abspath p)] |}).
    assert (Eq : Splitter.write_chapters md_path i (t :: c :: rest) out w
      = if can_write (abspath p)
        then Splitter.write_chapters md_path (i + 2) rest (out ++ [p]) w1
        else (inl (OSError p), w)).
    { cbn [Splitter.write_chapters]. unfold bind. rewrite write_chapter_outcome.
      fold p. destruct (can_write (abspath p)); reflexivity. }
    rewrite Eq. clear Eq. destruct (can_write (abspath p)) eqn:Hcan.
    + destruct (IH rest ltac:(simpl; lia) (i + 2) (out ++ [p]) w1)
        as (titles & W & T & O & K & Res).
      exists (t :: titles). cbn [chapter_paths length map]. fold p.
      cbn zeta in *.
      set (res := Splitter.write_chapters md_path (i + 2) rest (out ++ [p]) w1) in *.
      assert (Hp : exists text, files res.2 !! abspath p = Some (Text text)).
      { eapply (K (abspath p)). unfold w1. cbn [files]. apply lookup_insert_eq. }
      split; [rewrite W; unfold w1; cbn [trace]; rewrite writes_app, writes_write; lia|].
      split; [constructor; [exact Hp | exact T]|].
      split.
      { intros q. destruct (O q) as [Oq|Oq].
        - destruct (decide (q = abspath p)) as [->|Hq].
          + right. apply elem_of_cons. left. reflexivity.
          + left. rewrite Oq. unfold w1. cbn [files]. apply lookup_insert_ne. congruence.
        - right. apply elem_of_cons. right. exact Oq. }
      split.
      { intros q text Hq. destruct (decide (q = abspath p)) as [->|Hne].
        - exact Hp.
        - apply (K q text). unfold w1. cbn [files].
          rewrite lookup_insert_ne by congruence. exact Hq. }
      destruct (fst res) as [e|out'].
      * destruct Res as (p' & -> & Hc' & Len). exists p'.
        repeat split; [exact Hc'|]. cbn [length].
        replace (S (S (length rest)) + 1) with (length rest + 1 + 1 * 2) by lia.
        rewrite Nat.div_add by lia. lia.
      * destruct Res as [-> Len]. rewrite <- app_assoc. split; [reflexivity|].
        rewrite Len. cbn [length].
        replace (S (S (length rest)) + 1) with (length rest + 1 + 1 * 2) by lia.
        rewrite Nat.div_add by lia. lia.
    + exists []. cbn [chapter_paths snd fst length map].
      rewrite Nat.add_0_r.
      repeat split; [constructor | left; reflexivity | apply Keep|].
      exists p. repeat split; [exact Hcan|].
      cbn [length].
      replace (S (S (length rest)) + 1) with (length rest + 1 + 1 * 2) by lia.
      rewrite Nat.div_add by lia. lia.
Qed.

(** X3. Whatever the document, a split that succeeds has written once
    for each chapter it reports, every path it returns holds a text
    file afterwards, and every other file is as it was.  A split that
    fails because a parameter or the file is missing or the file cannot
    be read has read and written nothing.  A split that fails because a
    chapter file cannot be opened is not undone: the chapter files
    before that one have been written, fewer than the chapters of the
    document, they hold text, and every other file is as it was. *)
Theorem split_writes_reported_chapters file_path w :
  match Splitter.call file_path w with
  | (Success r, w') =>
      writes (trace w') = writes (trace w) + Splitter.chapters_reported r
      /\ Forall (fun p => exists text, files w' !! abspath p = Some (Text text))
           (Splitter.split_files r)
      /\ forall q, files w' !! q = files w !! q
                   \/ q ∈ map abspath (Splitter.split_files r)
  | (Failed (MissingParameter _), w') | (Failed (FileNotFoundError _), w')
  | (Failed (UnicodeDecodeError _), w') => w' = w
  | (Failed (OSError p), w') =>
      can_write (abspath p) = false
      /\ exists md_path content titles,
           file_path = Some md_path
           /\ files w !! abspath md_path = Some (Text content)
           /\ writes (trace w') = writes (trace w) + length titles
           /\ length titles < length (Splitter.re_split_h1 content) / 2
           /\ Forall (fun p => exists text, files w' !! abspath p = Some (Text text))
                (chapter_paths md_path 1 titles)
           /\ forall q, files w' !! q = files w !! q
                        \/ q ∈ map abspath (chapter_paths md_path 1 titles)
  | (Failed _, _) => True
  end.
Proof.
  unfold Splitter.call, catch.
  destruct file_path as [p|]; [|reflexivity].
  unfold Splitter.split_markdown, catch, Splitter.split_markdown_body.
  unfold bind at 1. unfold path_exists.
  destruct (bool_decide (is_Some (files w !! abspath p))); cbn [negb]; [|reflexivity].
  unfold bind at 1. unfold read_text.
  destruct (files w !! abspath p) as [[content|d]|] eqn:Hfile; [|reflexivity|reflexivity].
  unfold bind at 1.
  set (w1 := {| files := files w; trace := trace w ++ [EvRead (abspath p)] |}).
  destruct (write_chapters_files p (tail (Splitter.re_split_h1 content)) 1 [] w1)
    as (titles & W & T & O & _ & Res).
  cbn zeta in *.
  assert (Len : forall n, n = (length (tail (Splitter.re_split_h1 content)) + 1) / 2 ->
                          n = length (Splitter.re_split_h1 content) / 2).
  { intros n ->.
    pose proof (re_split_from_length (S (String.length content)) true "" content) as P.
    unfold Splitter.re_split_h1.
    destruct (Splitter.re_split_from (S (String.length content)) true "" content)
      as [|s0 rest]; [simpl in P; lia|].
    cbn [tail length]. replace (length rest + 1) with (S (length rest)) by lia.
    reflexivity. }
  assert (Hw1 : writes (trace w1) = writes (trace w))
    by (unfold w1; cbn [trace]; rewrite writes_app, writes_read; lia).
  assert (Chap : forall n (l : list string), length (chapter_paths p n l) = length l).
  { intros n l. revert n. induction l as [|x l IHl]; intros n; [reflexivity|].
    cbn [chapter_paths length]. rewrite IHl. reflexivity. }
  destruct (Splitter.write_chapters p 1 (tail (Splitter.re_split_h1 content)) [] w1)
    as [[e|out'] w'] eqn:E; cbn [fst snd] in *.
  - destruct Res as (q & -> & Hcan & Lt). split; [exact Hcan|].
    exists p, content, titles. rewrite Chap in *.
    split; [reflexivity|]. split; [exact Hfile|].
    split; [rewrite W, Hw1; reflexivity|].
    split; [rewrite <- (Len _ eq_refl); exact Lt|].
    split; [exact T | exact O].
  - destruct Res as [-> L]. unfold ret.
    cbn [app Splitter.split_files Splitter.chapters_reported].
    split; [|split; [exact T | exact O]].
    rewrite W, Hw1, L. f_equal. apply Len. reflexivity.
Qed.

End ToolFiles.

(** ** Documents from the binary format to the markup and back *)

Section DocumentRoundTrip.
Context `{Runtime}.

Ltac norm_text :=
  repeat first [rewrite app_assoc_s | rewrite app_String | rewrite app_empty_l].

Lemma times_lines n :
  WordToMarkdown.times n (String Py.LF "") = Py.concat (map ln (repeat "" n)).
Proof.
  induction n as [|n IH]; [reflexivity|].
  cbn [WordToMarkdown.times repeat map Py.concat]. rewrite IH. reflexivity.
Qed.

Lemma split_char_cons c s : exists a more, Py.split_char c s = a :: more.
Proof.
  induction s as [|b s IH]; [exists "", []; reflexivity|].
  cbn [Py.split_char]. destruct (Ascii.eqb b c); [eexists; eexists; reflexivity|].
  destruct IH as (a & more & ->). eexists; eexists; reflexivity.
Qed.

(** A text and a line feed are the lines of the text, each with its
    line feed. *)
Lemma text_lines t :
  t +:+ String Py.LF "" = Py.concat (map ln (Py.split_char Py.LF t)).
Proof.
  induction t as [|a t IH]; [reflexivity|].
  cbn [Py.split_char]. destruct (Ascii.eqb a Py.LF) eqn:E.
  - apply Ascii.eqb_eq in E. subst a. cbn [map Py.concat]. rewrite <- IH. reflexivity.
  - destruct (split_char_cons Py.LF t) as (x & r & S). rewrite S in *.
    cbn [map Py.concat] in *. rewrite app_String, IH. unfold ln.
    norm_text. reflexivity.
Qed.


Lemma marked_plain runs t :
  forallb Clean.is_plain runs = true -> WordToMarkdown.marked runs t = t.
Proof.
  unfold WordToMarkdown.marked. induction runs as [|r runs IH]; intros Hp; [reflexivity|].
  cbn [forallb] in Hp. apply andb_true_iff in Hp as [Hr Hp].
  unfold Clean.is_plain in Hr.
  apply andb_true_iff in Hr as [Hr Hu]. apply andb_true_iff in Hr as [Hb Hi].
  apply negb_true_iff in Hb, Hi, Hu.
  cbn [fold_left]. unfold WordToMarkdown.mark. rewrite Hb, Hi, Hu. apply IH, Hp.
Qed.

Lemma images_none rs output_dir md count w :
  forallb Clean.no_picture rs = true ->
  WordToMarkdown.images_loop rs output_dir md count w = (md, count, w).
Proof.
  induction rs as [|r rs IH]; intros Hp; [reflexivity|].
  cbn [forallb] in Hp. apply andb_true_iff in Hp as [Hr Hp].
  unfold Clean.no_picture in Hr. cbn [WordToMarkdown.images_loop].
  destruct (WordToMarkdown.pictures r); [apply IH, Hp | discriminate].
Qed.





















Lemma forallb_all {A} (f : A -> bool) l :
  forallb f l = true -> Forall (fun x => f x = true) l.
Proof.
  induction l as [|x l IH]; [constructor|]. cbn [forallb]. intros Hf.
  apply andb_true_iff in Hf as [Hx Hl]. constructor; [exact Hx | apply IH, Hl].
Qed.

Lemma is_table_parts first rest :
  Clean.is_table (first :: rest) = true ->
  first <> []
  /\ Forall (fun row => length row = length first) rest
  /\ Forall (Forall (fun c => Markup.clean_cell c = true)) (first :: rest).
Proof.
  unfold Clean.is_table. intros Ht. apply andb_true_iff in Ht as [Ht Hc].
  apply andb_true_iff in Ht as [Hn Hl]. split; [|split].
  - destruct first; [discriminate | discriminate].
  - apply forallb_all in Hl. eapply Forall_impl; [exact Hl|].
    intros row Hrow. apply Nat.eqb_eq, Hrow.
  - apply forallb_all in Hc. eapply Forall_impl; [exact Hc|].
    intros row Hrow. apply forallb_all, Hrow.
Qed.

(** The markup of a table, as lines. *)
Lemma table_markup_lines first rest :
  first <> [] ->
  Forall (fun row => length row = length first) rest ->
  ToMarkdown.table_markup (first :: rest)
  = inr (Py.concat (map ln (Clean.lines_of (WordToMarkdown.TableItem (first :: rest))))).
Proof.
  intros Hne Hlen. set (rule := repeat "---" (length first)).
  assert (Hrule : rule <> []) by (unfold rule; destruct first; [congruence | discriminate]).
  unfold ToMarkdown.table_markup, ToMarkdown.convert_table_to_markdown, Clean.lines_of.
  fold rule. f_equal. cbn [map Py.concat].
  rewrite map_app, concat_app. cbn [map Py.concat].
  rewrite (row_line_text first Hne), (row_line_text rule Hrule).
  assert (B : Py.concat (map ToMarkdown.row_line rest)
              = Py.concat (map ln (map Markup.row_text rest))).
  { clear - Hlen Hne. induction Hlen as [|row rest Hrow _ IH]; [reflexivity|].
    cbn [map Py.concat]. rewrite IH, row_line_text; [reflexivity|].
    destruct row; [destruct first; [congruence | discriminate] | discriminate]. }
  rewrite B. generalize (Py.concat (map ln (map Markup.row_text rest))).
  generalize (Markup.row_text first), (Markup.row_text rule). intros a b c.
  unfold ln. norm_text. rewrite ?app_empty_r. reflexivity.
Qed.

Lemma newlines_lines z :
  exists n, Z.to_nat (Z.max 1 z) = S n
            /\ WordToMarkdown.newlines z = Py.concat (map ln (repeat "" (S n))).
Proof.
  destruct (Z.to_nat (Z.max 1 z)) as [|n] eqn:E; [lia|].
  exists n. split; [reflexivity|]. unfold WordToMarkdown.newlines. rewrite E.
  apply times_lines.
Qed.

Lemma is_block_parts p :
  Clean.is_block (WordToMarkdown.ParagraphItem p) = true ->
  forallb Clean.no_picture (WordToMarkdown.runs p) = true
  /\ (if Py.startswith "Heading" (WordToMarkdown.style_name p)
      then exists k, WordToMarkdown.level_of (WordToMarkdown.style_name p) = inr (S k)
                     /\ Clean.level p = S k /\ S k <= 9
                     /\ Clean.is_title (WordToMarkdown.text p) = true
      else forallb Clean.is_plain (WordToMarkdown.runs p) = true
           /\ Forall (fun l => Clean.is_line l = true)
                (Py.split_char Py.LF (WordToMarkdown.text p))).
Proof.
  cbn [Clean.is_block]. intros Hb. apply andb_true_iff in Hb as [Hp Hb].
  split; [exact Hp|].
  destruct (Py.startswith "Heading" (WordToMarkdown.style_name p)).
  - apply andb_true_iff in Hb as [Hb Ht]. apply andb_true_iff in Hb as [H1 H9].
    apply Nat.leb_le in H1, H9. unfold Clean.level in *.
    destruct (WordToMarkdown.level_of (WordToMarkdown.style_name p)) as [e|k]; [lia|].
    destruct k as [|k]; [lia|]. exists k. repeat split; assumption.
  - apply andb_true_iff in Hb as [Hr Hl]. split; [exact Hr|].
    apply forallb_all, Hl.
Qed.

(** One turn of the loop of the document to markup converter on a
    clean block: the lines of the block are added, and nothing else
    happens. *)
Lemma block_markup output_dir b rest md count w :
  Clean.is_block b = true ->
  WordToMarkdown.blocks_loop output_dir (b :: rest) md count w
  = WordToMarkdown.blocks_loop output_dir rest
      (md +:+ Py.concat (map ln (Clean.lines_of b))) count w.
Proof.
  intros Hb. destruct b as [p|t].
  - destruct (is_block_parts p Hb) as [Hpic Hkind].
    destruct (newlines_lines (WordToMarkdown.space_before p)) as (nb & Eb & Nb).
    destruct (newlines_lines (WordToMarkdown.space_after p)) as (na & Ea & Na).
    cbn [WordToMarkdown.blocks_loop Clean.lines_of]. rewrite Nb, Na, Eb, Ea.
    destruct (Py.startswith "Heading" (WordToMarkdown.style_name p)).
    + destruct Hkind as (k & Hk & Hlev & _ & _). rewrite Hk, Hlev.
      rewrite images_none by exact Hpic. f_equal.
      rewrite !map_app, !concat_app. cbn [map Py.concat].
      unfold ln at 3 4. norm_text. rewrite ?app_empty_r. reflexivity.
    + destruct Hkind as [Hplain _]. rewrite (marked_plain _ _ Hplain).
      rewrite images_none by exact Hpic. f_equal.
      rewrite !map_app, !concat_app, <- text_lines. norm_text. reflexivity.
  - destruct t as [|first rest']; [discriminate|].
    destruct (is_table_parts first rest' Hb) as (Hne & Hlen & _).
    cbn [WordToMarkdown.blocks_loop]. rewrite (table_markup_lines first rest' Hne Hlen).
    reflexivity.
Qed.










End DocumentRoundTrip.


(** ** Splitting a document and merging its chapters *)

Section SplitThenMerge.
Context `{Runtime}.

Lemma chapter_files_paths md_path n chapters :
  map fst (Layout.chapter_files md_path n chapters)
  = chapter_paths md_path (n * 2 + 1) (map Layout.title chapters).
Proof.
  revert n. induction chapters as [|c chapters IH]; intros n; [reflexivity|].
  cbn [Layout.chapter_files map fst chapter_paths]. rewrite IH.
  unfold chapter_path. rewrite odd_half.
  replace (S n * 2 + 1) with (n * 2 + 1 + 2) by lia. reflexivity.
Qed.

Lemma chapter_files_length md_path n chapters :
  length (Layout.chapter_files md_path n chapters) = length chapters.
Proof.
  revert n. induction chapters as [|c chapters IH]; intros n; [reflexivity|].
  cbn [Layout.chapter_files length]. rewrite IH. reflexivity.
Qed.

Lemma written_other fs w p :
  Forall (fun q => abspath q = q) (map fst fs) ->
  ~ In p (map fst fs) ->
  files (Layout.written fs w) !! p = files w !! p.
Proof.
  revert w. induction fs as [|[q c] fs IH]; intros w Habs Hp; [reflexivity|].
  cbn [map fst] in Habs, Hp. inversion Habs as [|? ? Hq Hrest]; subst.
  cbn [Layout.written]. rewrite IH; [|exact Hrest|intros Hin; apply Hp; right; exact Hin].
  cbn [files]. rewrite Hq. apply lookup_insert_ne. intros ->. apply Hp. left. reflexivity.
Qed.

(** After distinct files were written, each holds its own text. *)
Lemma written_lookup fs w p c :
  NoDup (map fst fs) ->
  Forall (fun q => abspath q = q) (map fst fs) ->
  In (p, c) fs ->
  files (Layout.written fs w) !! p = Some (Text c).
Proof.
  revert w. induction fs as [|[q d] fs IH]; intros w Hnd Habs Hin; [destruct Hin|].
  cbn [map fst] in Hnd, Habs. apply NoDup_cons in Hnd as [Hq Hnd].
  inversion Habs as [|? ? Eq Hrest]; subst. cbn [Layout.written].
  destruct Hin as [E|Hin].
  - injection E as -> ->. rewrite written_other; [|exact Hrest|].
    + cbn [files]. rewrite Eq. apply lookup_insert_eq.
    + intros Hin. apply Hq. apply list_elem_of_In. exact Hin.
  - apply IH; assumption.
Qed.

Lemma lower_app a b : Py.lower (a +:+ b) = Py.lower a +:+ Py.lower b.
Proof.
  induction a as [|c a IH]; [reflexivity|].
  rewrite app_String. cbn [Py.lower]. rewrite IH, app_String. reflexivity.
Qed.

Lemma join_suffix a b : exists pre, Path.join a b = pre +:+ b.
Proof.
  unfold Path.join. destruct (Py.startswith "/" b); [exists ""; reflexivity|].
  destruct a as [|c a]; [exists ""; reflexivity|].
  destruct (Py.endswith "/" (String c a)).
  - exists (String c a). reflexivity.
  - exists (String c a +:+ "/"). rewrite app_assoc_s. reflexivity.
Qed.

(** A chapter file carries the markup extension. *)
Lemma chapter_path_extension md_path i t :
  Merger.has_md_extension (chapter_path md_path i t) = true.
Proof.
  unfold chapter_path, Merger.has_md_extension.
  destruct (join_suffix (Path.dirname md_path)
              (Py.format_02d (i / 2 + 1) +:+ "-"
               +:+ Splitter.safe_title (Py.strip t) +:+ ".md")) as [pre ->].
  rewrite <- !app_assoc_s, lower_app. apply endswith_app.
Qed.

Lemma chapter_files_mergeable md_path chapters w :
  Forall (fun p => abspath p = p) (map fst (Layout.chapter_files md_path 0 chapters)) ->
  Forall2 (mergeable (Layout.written (Layout.chapter_files md_path 0 chapters) w))
    (map fst (Layout.chapter_files md_path 0 chapters))
    (map snd (Layout.chapter_files md_path 0 chapters)).
Proof.
  intros Habs.
  assert (Hnd : NoDup (map fst (Layout.chapter_files md_path 0 chapters)))
    by (rewrite chapter_files_paths; apply chapter_paths_distinct).
  assert (Hext : Forall (fun p => Merger.has_md_extension p = true)
                   (map fst (Layout.chapter_files md_path 0 chapters))).
  { rewrite chapter_files_paths. generalize (0 * 2 + 1).
    induction (map Layout.title chapters) as [|t ts IH]; intros n; [constructor|].
    cbn [chapter_paths]. constructor; [apply chapter_path_extension | apply IH]. }
  assert (G : forall fs,
    Forall (fun p => abspath p = p) (map fst fs) ->
    Forall (fun p => Merger.has_md_extension p = true) (map fst fs) ->
    (forall p c, In (p, c) fs ->
       files (Layout.written (Layout.chapter_files md_path 0 chapters) w) !! p
       = Some (Text c)) ->
    Forall2 (mergeable (Layout.written (Layout.chapter_files md_path 0 chapters) w))
      (map fst fs) (map snd fs)).
  { induction fs as [|[p c] fs IH]; intros Ha He Hl; [constructor|].
    cbn [map fst snd] in *. inversion Ha as [|? ? Ep Ha']; subst.
    inversion He as [|? ? Xp He']; subst.
    constructor.
    - unfold mergeable. rewrite !Ep. split; [apply Hl; left; reflexivity | exact Xp].
    - apply IH; [exact Ha' | exact He' |]. intros q d Hin. apply Hl. right. exact Hin. }
  apply G; [exact Habs | exact Hext |].
  intros p c Hin. apply written_lookup; assumption.
Qed.

(** X26. Splitting a well-formed document and merging the files the split
    returns, in their order, succeeds where the chapter files and the
    output file can be written; the merged file holds the texts of the
    chapter files, each stripped of the white space around it, joined by
    the rule.  The preamble of the document is in no chapter file and so
    not in the merged file. *)
Theorem split_then_merge md_path preamble chapters out w :
  files w !! abspath md_path = Some (Text (Layout.document preamble chapters)) ->
  forallb Layout.plain_line preamble = true ->
  forallb Layout.well_formed chapters = true ->
  Forall (fun p => abspath p = p) (map fst (Layout.chapter_files md_path 0 chapters)) ->
  Forall (fun p => can_write (abspath p) = true)
    (map fst (Layout.chapter_files md_path 0 chapters)) ->
  can_write (abspath (default "merged.md" out)) = true ->
  exists r w1 w2,
    Splitter.call (Some md_path) w = (Success r, w1)
    /\ Splitter.split_files r = map fst (Layout.chapter_files md_path 0 chapters)
    /\ Merger.call (Some (Merger.PathList (Splitter.split_files r))) out w1
       = (Success {| Merger.merged_path := abspath (default "merged.md" out);
                     Merger.merged_count := length chapters;
                     Merger.merged_files :=
                       map Path.basename (Splitter.split_files r) |}, w2)
    /\ files w2 !! abspath (default "merged.md" out)
       = Some (Text (Py.join Merger.RULE
                       (map (fun f => Py.strip (snd f))
                          (Layout.chapter_files md_path 0 chapters)))).
Proof.
  intros Hfile Hp Hw Habs Hcan Hout.
  set (cf := Layout.chapter_files md_path 0 chapters) in *.
  set (w0 := {| files := files w; trace := trace w ++ [EvRead (abspath md_path)] |}).
  exists {| Splitter.split_files := map fst cf;
            Splitter.chapters_reported := length chapters |},
         (Layout.written cf w0).
  eexists. split; [|split; [reflexivity|]].
  - unfold Splitter.call, Splitter.split_markdown, catch, Splitter.split_markdown_body.
    unfold bind at 1. unfold path_exists. rewrite Hfile.
    rewrite bool_decide_eq_true_2 by (eexists; reflexivity). cbn [negb].
    unfold bind at 1. unfold read_text. rewrite Hfile.
    rewrite (re_split_document preamble chapters Hp Hw). cbn [tail].
    unfold bind at 1.
    rewrite (write_chapters_sections md_path chapters 0 [] _ Hcan).
    unfold ret. cbn [app length].
    rewrite sections_of_length.
    replace (S (length chapters * 2) / 2) with (length chapters)
      by (replace (S (length chapters * 2)) with (length chapters * 2 + 1) by lia;
          symmetry; apply odd_half).
    reflexivity.
  - cbn [Splitter.split_files].
    pose proof (chapter_files_mergeable md_path chapters w0 Habs) as Hall.
    fold cf in Hall.
    unfold Merger.call, catch, Merger.merge_chapters. unfold bind at 1.
    rewrite (validate_paths_accepts _ _ [] _ Hall). cbn [app].
    unfold bind at 1.
    assert (L : Merger.merge_loop 0 (map abspath (map fst cf)) "" (Layout.written cf w0)
      = (inr (Py.join Merger.RULE (map Py.strip (map snd cf))),
         {| files := files (Layout.written cf w0);
            trace := trace (Layout.written cf w0)
                     ++ map (fun p => EvRead (abspath (abspath p))) (map fst cf) |})).
    { destruct Hall as [|p c paths contents [Hf Hm] Hrest].
      - simpl. rewrite app_nil_r. destruct (Layout.written cf w0). reflexivity.
      - cbn [map Merger.merge_loop]. unfold bind at 1. unfold read_text. rewrite Hf.
        cbn [Nat.ltb Nat.leb]. rewrite app_empty_l.
        set (w1 := {| files := files (Layout.written cf w0);
                      trace := trace (Layout.written cf w0)
                               ++ [EvRead (abspath (abspath p))] |}).
        assert (Hrest1 : Forall2 (mergeable w1) paths contents) by exact Hrest.
        rewrite (merge_loop_reads paths contents 0 _ w1 Hrest1). unfold w1.
        cbn [files trace map]. rewrite join_cons_concat, map_map, <- app_assoc.
        reflexivity. }
    rewrite L. unfold bind, write_text, ret. cbn [files trace]. rewrite Hout.
    assert (A : map abspath (map fst cf) = map fst cf).
    { clear - Habs. induction Habs as [|p ps Ep _ IH]; [reflexivity|].
      cbn [map]. rewrite Ep, IH. reflexivity. }
    rewrite A, length_map. unfold cf at 1. rewrite chapter_files_length.
    split; [reflexivity|]. cbn [files]. rewrite lookup_insert_eq, map_map. reflexivity.
Qed.

End SplitThenMerge.

(** A preamble line and two chapters: the merged file has the two
    chapters and the rule, and not the preamble. *)
Lemma split_then_merge_witness :
  let chapters := [ {| Layout.space := " "; Layout.title := "One"; Layout.body := ["a"] |};
                    {| Layout.space := " "; Layout.title := "Two"; Layout.body := ["b"] |} ] in
  let w := one_file "/book/draft.md" (Layout.document ["preamble"] chapters) in
  Py.join Merger.RULE
    (map (fun f => Py.strip (snd f)) (Layout.chapter_files "/book/draft.md" 0 chapters))
  = ln "# One" +:+ ln "" +:+ ln "" +:+ ln "a" +:+ ln "" +:+ ln "---" +:+ ln ""
    +:+ ln "# Two" +:+ ln "" +:+ ln "" +:+ "b"
  /\ Forall (fun p => can_write (Runtime := posix_runtime) p = true)
       ("/book/all.md" :: map fst (Layout.chapter_files "/book/draft.md" 0 chapters))
  /\ exists r w1 w2,
       Splitter.call (H := posix_runtime) (Some "/book/draft.md") w = (Success r, w1)
       /\ Splitter.split_files r
          = map fst (Layout.chapter_files "/book/draft.md" 0 chapters)
       /\ Merger.call (H := posix_runtime)
            (Some (Merger.PathList (Splitter.split_files r))) (Some "/book/all.md") w1
          = (Success {| Merger.merged_path := "/book/all.md";
                        Merger.merged_count := 2;
                        Merger.merged_files :=
                          map Path.basename (Splitter.split_files r) |}, w2)
       /\ files w2 !! "/book/all.md"
          = Some (Text (Py.join Merger.RULE
                          (map (fun f => Py.strip (snd f))
                             (Layout.chapter_files "/book/draft.md" 0 chapters)))).
Proof.
  intros chapters w. split; [vm_compute; reflexivity|].
  assert (Habs : Forall (fun p => abspath (Runtime := posix_runtime) p = p)
                   (map fst (Layout.chapter_files "/book/draft.md" 0 chapters)))
    by (repeat constructor).
  assert (Hcan : Forall (fun p => can_write (Runtime := posix_runtime)
                                    (abspath (Runtime := posix_runtime) p) = true)
                   (map fst (Layout.chapter_files "/book/draft.md" 0 chapters)))
    by (repeat constructor).
  split; [constructor; [reflexivity | exact Hcan]|].
  exact (split_then_merge (H := posix_runtime) "/book/draft.md" ["preamble"] chapters
           (Some "/book/all.md") w eq_refl eq_refl eq_refl Habs Hcan eq_refl).
Defined.

(** ** A heading style without a level *)

Section HeadingStyles.
Context `{Runtime}.

Lemma blocks_loop_clean output_dir pre rest md count w :
  forallb Clean.is_block pre = true ->
  WordToMarkdown.blocks_loop output_dir (pre ++ rest) md count w
  = WordToMarkdown.blocks_loop output_dir rest
      (md +:+ Py.concat (map ln (flat_map Clean.lines_of pre))) count w.
Proof.
  revert md. induction pre as [|b pre IH]; intros md Hall.
  - cbn. rewrite app_empty_r. reflexivity.
  - cbn [forallb] in Hall. apply andb_true_iff in Hall as [Hb Hall].
    cbn [app]. rewrite (block_markup _ _ _ _ _ _ Hb), (IH _ Hall).
    cbn [flat_map]. rewrite map_app, concat_app, app_assoc_s. reflexivity.
Qed.

(** X23. The level of a heading is read off the last character of the name
    of its style.  A paragraph whose style name starts with [Heading]
    and does not end with a digit makes the whole conversion fail, at
    whatever place of the document it stands after clean blocks: the
    call returns the error of [int], and no markup file is written. *)
Theorem heading_style_without_level_aborts docx_path pre p post output_dir w c :
  forallb Clean.is_block pre = true ->
  Py.startswith "Heading" (WordToMarkdown.style_name p) = true ->
  WordToMarkdown.last_char (WordToMarkdown.style_name p) = Some c ->
  is_digit c = false ->
  WordToMarkdown.call (inr (pre ++ WordToMarkdown.ParagraphItem p :: post))
    (Some docx_path) output_dir w
  = (inl (WordToMarkdown.InvalidLiteral (String c "")), w).
Proof.
  intros Hpre Hs Hc Hd.
  unfold WordToMarkdown.call, WordToMarkdown.word_to_markdown.
  rewrite (blocks_loop_clean _ pre _ "" 0 w Hpre).
  cbn [WordToMarkdown.blocks_loop]. rewrite Hs.
  unfold WordToMarkdown.level_of. rewrite Hc, Hd. reflexivity.
Qed.

End HeadingStyles.

(** A document whose second paragraph has the style [Heading Note]. *)
Lemma heading_style_without_level_aborts_witness :
  let pre := [ WordToMarkdown.ParagraphItem
                 {| WordToMarkdown.style_name := "Heading 1";
                    WordToMarkdown.text := "Plan"; WordToMarkdown.runs := [];
                    WordToMarkdown.space_before := 0;
                    WordToMarkdown.space_after := 0 |} ] in
  let p := {| WordToMarkdown.style_name := "Heading Note";
              WordToMarkdown.text := "Remember"; WordToMarkdown.runs := [];
              WordToMarkdown.space_before := 0; WordToMarkdown.space_after := 0 |} in
  forallb Clean.is_block pre = true
  /\ Py.startswith "Heading" (WordToMarkdown.style_name p) = true
  /\ WordToMarkdown.last_char (WordToMarkdown.style_name p) = Some "e"%char
  /\ is_digit "e" = false
  /\ WordToMarkdown.call (H := posix_runtime)
       (inr (pre ++ WordToMarkdown.ParagraphItem p :: [])) (Some "/in/report.docx") None
       empty_world
     = (inl (WordToMarkdown.InvalidLiteral "e"), empty_world).
Proof.
  intros pre p.
  assert (Hpre : forallb Clean.is_block pre = true) by (vm_compute; reflexivity).
  split; [exact Hpre|]. split; [reflexivity|]. split; [reflexivity|].
  split; [reflexivity|].
  exact (heading_style_without_level_aborts (H := posix_runtime) "/in/report.docx"
           pre p [] None empty_world "e"%char Hpre eq_refl eq_refl eq_refl).
Defined.

(** ** Format markers *)

Section Markers.

Ltac norm_text :=
  repeat first [rewrite app_assoc_s | rewrite app_String | rewrite app_empty_l].

Lemma find_none_in_stars t post :
  t <> "" ->
  Layout.all_chars (fun a => negb (Ascii.eqb a "*")) t = true ->
  Layout.all_chars (fun a => Ascii.eqb a "*") post = true ->
  Py.find t post = None.
Proof.
  intros Ht Hn. destruct t as [|a x]; [congruence|].
  cbn [Layout.all_chars] in Hn. apply andb_true_iff in Hn as [Ha _].
  apply negb_true_iff in Ha.
  induction post as [|c post IH]; intros Hp; [reflexivity|].
  cbn [Layout.all_chars] in Hp. apply andb_true_iff in Hp as [Hc Hp].
  apply Ascii.eqb_eq in Hc. subst c.
  cbn [Py.find Py.startswith]. rewrite Ha, (IH Hp). reflexivity.
Qed.

Lemma find_after_stars t pre post :
  t <> "" ->
  Layout.all_chars (fun a => negb (Ascii.eqb a "*")) t = true ->
  Layout.all_chars (fun a => Ascii.eqb a "*") pre = true ->
  Py.find t (pre +:+ t +:+ post) = Some (pre, post).
Proof.
  intros Ht Hn. induction pre as [|c pre IH]; intros Hp.
  - rewrite app_empty_l. destruct t as [|a x]; [congruence|].
    rewrite app_String. cbn [Py.find]. rewrite <- app_String.
    rewrite (startswith_app _ _ post (startswith_refl (String a x))), drop_app.
    reflexivity.
  - cbn [Layout.all_chars] in Hp. apply andb_true_iff in Hp as [Hc Hp].
    apply Ascii.eqb_eq in Hc. subst c.
    destruct t as [|a x]; [congruence|].
    pose proof Hn as Hn'. cbn [Layout.all_chars] in Hn'.
    apply andb_true_iff in Hn' as [Ha _]. apply negb_true_iff in Ha.
    rewrite app_String. cbn [Py.find Py.startswith]. rewrite Ha, (IH Hp). reflexivity.
Qed.

(** Replacing a text that stands once between stars. *)
Lemma replace_between_stars t new pre post :
  t <> "" ->
  Layout.all_chars (fun a => negb (Ascii.eqb a "*")) t = true ->
  Layout.all_chars (fun a => Ascii.eqb a "*") pre = true ->
  Layout.all_chars (fun a => Ascii.eqb a "*") post = true ->
  Py.replace t new (pre +:+ t +:+ post) = pre +:+ new +:+ post.
Proof.
  intros Ht Hn Hpre Hpost.
  assert (Hlen : exists f, String.length (pre +:+ t +:+ post) = S f).
  { rewrite !length_app_s. destruct t as [|a x]; [congruence|].
    exists (String.length pre + (String.length x + String.length post)). simpl. lia. }
  assert (U : Py.replace t new (pre +:+ t +:+ post)
              = Py.replace_from (String.length (pre +:+ t +:+ post)) t new
                  (pre +:+ t +:+ post))
    by (destruct t; [congruence | reflexivity]).
  rewrite U. destruct Hlen as [f ->]. cbn [Py.replace_from].
  rewrite (find_after_stars t pre post Ht Hn Hpre).
  destruct f as [|f]; [reflexivity|]. cbn [Py.replace_from].
  rewrite (find_none_in_stars t post Ht Hn Hpost). reflexivity.
Qed.

(** X22. A paragraph that is one run with a text without [*]: the markers
    of the formats of the run go around the whole text, those of bold
    outside, then those of italic, and the underline tags inside. *)
Theorem formatted_run_is_wrapped r :
  WordToMarkdown.run_text r <> "" ->
  Layout.all_chars (fun a => negb (Ascii.eqb a "*")) (WordToMarkdown.run_text r) = true ->
  WordToMarkdown.marked [r] (WordToMarkdown.run_text r)
  = stars r
    +:+ (if WordToMarkdown.underline r
         then "<u>" +:+ WordToMarkdown.run_text r +:+ "</u>"
         else WordToMarkdown.run_text r)
    +:+ Py.rev (stars r).
Proof.
  intros Ht Hn. unfold WordToMarkdown.marked, stars. cbn [fold_left].
  unfold WordToMarkdown.mark. set (t := WordToMarkdown.run_text r) in *.
  assert (R : forall new pre post,
    Layout.all_chars (fun a => Ascii.eqb a "*") pre = true ->
    Layout.all_chars (fun a => Ascii.eqb a "*") post = true ->
    Py.replace t new (pre +:+ t +:+ post) = pre +:+ new +:+ post)
    by (intros; apply replace_between_stars; assumption).
  assert (R0 : forall new, Py.replace t new t = new).
  { intros new. pose proof (R new "" "" eq_refl eq_refl) as E.
    rewrite app_empty_l, !app_empty_r in E. exact E. }
  assert (R2 : forall new, Py.replace t new ("**" +:+ t +:+ "**") = "**" +:+ new +:+ "**")
    by (intros; apply R; reflexivity).
  assert (R1 : forall new, Py.replace t new ("*" +:+ t +:+ "*") = "*" +:+ new +:+ "*")
    by (intros; apply R; reflexivity).
  assert (R3 : forall new,
    Py.replace t new ("**" +:+ ("*" +:+ t +:+ "*") +:+ "**")
    = "***" +:+ new +:+ "***").
  { intros new. rewrite <- (R new "***" "***" eq_refl eq_refl). f_equal.
    norm_text. reflexivity. }
  destruct (WordToMarkdown.bold r), (WordToMarkdown.italic r),
    (WordToMarkdown.underline r); cbv iota;
    rewrite ?R0, ?R2, ?R1, ?R3, ?R0; norm_text; rewrite ?app_empty_r; reflexivity.
Qed.

End Markers.

(** A run that is bold and italic. *)
Lemma formatted_run_is_wrapped_witness :
  let r := {| WordToMarkdown.run_text := "Note"; WordToMarkdown.bold := true;
              WordToMarkdown.italic := true; WordToMarkdown.underline := false;
              WordToMarkdown.pictures := [] |} in
  WordToMarkdown.run_text r <> ""
  /\ WordToMarkdown.marked [r] "Note" = "***Note***"
  /\ WordToMarkdown.marked [r] (WordToMarkdown.run_text r)
     = stars r
       +:+ (if WordToMarkdown.underline r
            then "<u>" +:+ WordToMarkdown.run_text r +:+ "</u>"
            else WordToMarkdown.run_text r)
       +:+ Py.rev (stars r).
Proof.
  intros r.
  assert (Ht : WordToMarkdown.run_text r <> "") by discriminate.
  split; [exact Ht|]. split; [reflexivity|].
  exact (formatted_run_is_wrapped r Ht eq_refl).
Defined.
